(** * GridMaps: decode, validate and colourise grid_map messages

    A shallow embedding of
    [packages/studio-base/src/panels/ThreeDeeRender/renderables/GridMaps.ts]
    and the properties of its decode / validate / recolour pipeline.

    JavaScript numbers are IEEE binary64 values and are modelled by the
    kernel's primitive floats.  Values that the language forces to be
    integers (the result of [x | 0], array indices and lengths, the bytes
    of a [Uint8ClampedArray], BigInt timestamps) are modelled in [Z] or
    [nat]. *)

From Stdlib Require Import ZArith Floats List Bool Lia String.
From stdpp Require Import base option list strings gmap.

Local Open Scope Z_scope.

(** ** JavaScript numbers and the conversions the file relies on *)

Module Js.

Abbreviation number := float.

(** The mathematical value of a number: not-a-number, an infinity, or the
    exact fraction [n / d] with [d] a positive power of two. *)
Inductive real :=
| RNaN
| RInf (negative : bool)
| RFin (n d : Z).

Definition exact (x : number) : real :=
  match Prim2SF x with
  | S754_nan => RNaN
  | S754_infinity s => RInf s
  | S754_zero _ => RFin 0 1
  | S754_finite s m e =>
      let n := if s then Z.neg m else Z.pos m in
      if 0 <=? e then RFin (n * 2 ^ e) 1 else RFin n (2 ^ (- e))
  end.

(** Integers as numbers; exact below 2^53 in absolute value. *)
Definition of_Z (z : Z) : number :=
  if z <? 0 then PrimFloat.opp (PrimFloat.of_uint63 (Uint63.of_Z (- z)))
  else PrimFloat.of_uint63 (Uint63.of_Z z).

(** How a call can fail to return: the exception thrown, or [NoReturn]
    for a loop that never ends.  A failed call ends the run; the state it
    leaves behind is not modelled. *)
Inductive error := TypeError | RangeError | NoReturn.

Definition result (A : Type) : Type := A + error.
Definition ok {A} (a : A) : result A := inl a.
Definition throw {A} (e : error) : result A := inr e.
Definition bind {A B} (m : result A) (k : A -> result B) : result B :=
  match m with
  | inl a => k a
  | inr e => inr e
  end.

(** [ToIndex], as applied by [new Uint8ClampedArray(length)]: the argument
    is truncated towards zero, not-a-number counts as zero, and a result
    outside [0, 2^53 - 1] is a RangeError.  An engine may refuse a smaller
    length for lack of memory; that limit is not modelled. *)
Definition ToIndex (x : number) : result Z :=
  match exact x with
  | RNaN => ok 0
  | RInf _ => throw RangeError
  | RFin n d =>
      let k := Z.quot n d in
      if (0 <=? k) && (k <=? 2 ^ 53 - 1) then ok k else throw RangeError
  end.

(** [ToUint8Clamp], the conversion applied by every store into a
    [Uint8ClampedArray]: clamp to [0, 255], otherwise round to the nearest
    integer, a tie going to the even one. *)
Definition ToUint8Clamp (x : number) : Z :=
  match exact x with
  | RNaN => 0
  | RInf negative => if negative then 0 else 255
  | RFin n d =>
      if n <=? 0 then 0
      else if 255 * d <=? n then 255
      else
        let f := n / d in
        match 2 * (n - f * d) ?= d with
        | Gt => f + 1
        | Lt => f
        | Eq => if Z.even f then f else f + 1
        end
  end.

(** [ToInt32], the conversion behind [x | 0]. *)
Definition ToInt32 (x : number) : Z :=
  match exact x with
  | RNaN | RInf _ => 0
  | RFin n d =>
      let k := Z.quot n d mod 2 ^ 32 in
      if 2 ^ 31 <=? k then k - 2 ^ 32 else k
  end.

(** [Math.trunc]. *)
Definition Math_trunc (x : number) : number :=
  match exact x with
  | RNaN | RInf _ => x
  | RFin n d =>
      if d =? 1 then x
      else if n <? 0 then PrimFloat.opp (of_Z (Z.quot (- n) d))
      else of_Z (Z.quot n d)
  end.

(** The integer [Math.round] yields on a finite number: the floor of
    [x + 1/2], computed exactly. *)
Definition Math_round (x : number) : option Z :=
  match exact x with
  | RFin n d => Some ((2 * n + d) / (2 * d))
  | _ => None
  end.

(** The integer part of a finite number, towards zero. *)
Definition truncate (x : number) : option Z :=
  match exact x with
  | RFin n d => Some (Z.quot n d)
  | _ => None
  end.

Definition is_integer (x : number) : bool :=
  match exact x with
  | RFin n d => n mod d =? 0
  | _ => false
  end.

(** The number of iterations of [for (let i = 0; i < bound; i++)]: the
    integers [i >= 0] below [bound], the counter being exact up to 2^53.
    The comparison fails at once on not-a-number and on a bound that is not
    positive; above 2^53 the counter stops growing and the loop never ends
    ([None]). *)
Definition iterations (bound : number) : option nat :=
  match exact bound with
  | RNaN => Some 0%nat
  | RInf negative => if negative then Some 0%nat else None
  | RFin n d =>
      if 2 ^ 53 * d <? n then None
      else Some (Z.to_nat (- ((- n) / d)))
  end.

(** Values found in an array slot of the decoded message. *)
Inductive value :=
| Undefined
| Num (x : number)
| PlainObject.

(** [ToNumber]: [undefined] is not-a-number; an ordinary object without
    [valueOf]/[toString] of its own converts through the string
    "[object Object]", which is not a numeric literal. *)
Definition ToNumber (v : value) : number :=
  match v with
  | Undefined => PrimFloat.nan
  | Num x => x
  | PlainObject => PrimFloat.nan
  end.

(** *** Auxiliary notions for reasoning about products *)

(** The number 4, and the representation of four times a finite number
    with mantissa [m] and exponent [e]. *)
Definition four : spec_float := S754_finite false 4503599627370496 (-50).

Definition times4 (s : bool) (m : positive) (e : Z) : spec_float :=
  let D := Z.pos (digits2_pos m) in
  if D =? 53 then (if e + 2 <=? 971 then S754_finite s m (e + 2) else S754_infinity s)
  else if D =? 52 then S754_finite s (m~0) (e + 1)
  else S754_finite s (m~0~0) e.

(** [quadrupled v w]: [w] is the value of four times a number of value
    [v], or the infinity the product overflows to. *)
Inductive quadrupled : real -> real -> Prop :=
| quadrupled_nan : quadrupled RNaN RNaN
| quadrupled_inf s : quadrupled (RInf s) (RInf s)
| quadrupled_fin n d n' d' : n' * d = 4 * n * d' -> quadrupled (RFin n d) (RFin n' d')
| quadrupled_overflow n d s : quadrupled (RFin n d) (RInf s).

(** Two representations of the same number: equal, or two zeros. *)
Definition same_number (X Y : spec_float) : Prop :=
  X = Y \/ exists s1 s2, X = S754_zero s1 /\ Y = S754_zero s2.

(** Checking a predicate on every integer below a bound. *)
Fixpoint all_below (n : nat) (p : Z -> bool) : bool :=
  match n with
  | O => true
  | S k => p (Z.of_nat k) && all_below k p
  end.

End Js.

Notation "'let!' x ':=' m 'in' k" := (Js.bind m (fun x => k))
  (at level 10, x pattern, m at level 100, k at level 200).

(** ** Messages *)

(** The decoded message ([GridMap] of [../ros]); the fields the file reads. *)

Record RosTime := { sec : Z; nsec : Z }.

Record Header := { frame_id : string; stamp : RosTime }.

Record Vector3 := { v_x : Js.number; v_y : Js.number; v_z : Js.number }.

Record Quaternion :=
  { q_x : Js.number; q_y : Js.number; q_z : Js.number; q_w : Js.number }.

Record Pose := { position : Vector3; orientation : Quaternion }.

Record MultiArrayDimension :=
  { label : string; size : Js.number; stride : Js.number }.

Record MultiArrayLayout :=
  { dim : list MultiArrayDimension; data_offset : Js.number }.

Record Float32MultiArray :=
  { layout : MultiArrayLayout; values : list Js.number }.

Record GridMapInfo :=
  { resolution : Js.number;
    length_x : Js.number;
    length_y : Js.number;
    pose : Pose }.

Record GridMap :=
  { header : Header; info : GridMapInfo; data : list Float32MultiArray }.

(** [PartialMessage<GridMap>]: every field, at every depth, may be absent. *)

Record PartialTime := { p_sec : option Z; p_nsec : option Z }.

Record PartialHeader :=
  { p_frame_id : option string; p_stamp : option PartialTime }.

Record PartialVector3 :=
  { p_v_x : option Js.number; p_v_y : option Js.number; p_v_z : option Js.number }.

Record PartialQuaternion :=
  { p_q_x : option Js.number; p_q_y : option Js.number;
    p_q_z : option Js.number; p_q_w : option Js.number }.

Record PartialPose :=
  { p_position : option PartialVector3; p_orientation : option PartialQuaternion }.

Record PartialDimension :=
  { p_label : option string; p_size : option Js.number; p_stride : option Js.number }.

Record PartialLayout :=
  { p_dim : option (list PartialDimension); p_data_offset : option Js.number }.

Record PartialFloat32MultiArray :=
  { p_layout : option PartialLayout; p_values : option (list Js.number) }.

Record PartialGridMapInfo :=
  { p_resolution : option Js.number;
    p_length_x : option Js.number;
    p_length_y : option Js.number;
    p_pose : option PartialPose }.

Record PartialGridMap :=
  { p_header : option PartialHeader;
    p_info : option PartialGridMapInfo;
    p_data : option (list PartialFloat32MultiArray) }.

(** [a ?? b] *)
Definition nullish {A} (a : option A) (b : A) : A := default b a.
Infix "??" := nullish (at level 45, left associativity).

(** [toNanoSec] of [@foxglove/rostime]. *)
Definition toNanoSec (t : RosTime) : Z := sec t * 1000000000 + nsec t.

(** Modelled from the spec: [normalizeTime], [normalizeHeader] and
    [normalizePose] of [../normalizeMessages] are imported by the file but
    are not part of it.  Per the decoder's contract a missing header field
    becomes a zero timestamp or an empty frame id, and a missing pose the
    identity pose. *)
Definition normalizeTime (t : option PartialTime) : RosTime :=
  match t with
  | None => {| sec := 0; nsec := 0 |}
  | Some t => {| sec := p_sec t ?? 0; nsec := p_nsec t ?? 0 |}
  end.

Definition normalizeHeader (h : option PartialHeader) : Header :=
  {| frame_id := (h ≫= p_frame_id) ?? EmptyString;
     stamp := normalizeTime (h ≫= p_stamp) |}.

Definition normalizeVector3 (v : option PartialVector3) : Vector3 :=
  match v with
  | None => {| v_x := 0; v_y := 0; v_z := 0 |}
  | Some v => {| v_x := p_v_x v ?? 0%float;
                 v_y := p_v_y v ?? 0%float;
                 v_z := p_v_z v ?? 0%float |}
  end.

Definition normalizeQuaternion (q : option PartialQuaternion) : Quaternion :=
  match q with
  | None => {| q_x := 0; q_y := 0; q_z := 0; q_w := 1 |}
  | Some q => {| q_x := p_q_x q ?? 0%float;
                 q_y := p_q_y q ?? 0%float;
                 q_z := p_q_z q ?? 0%float;
                 q_w := p_q_w q ?? 0%float |}
  end.

Definition normalizePose (p : option PartialPose) : Pose :=
  {| position := normalizeVector3 (p ≫= p_position);
     orientation := normalizeQuaternion (p ≫= p_orientation) |}.

Definition identityPose : Pose :=
  {| position := {| v_x := 0; v_y := 0; v_z := 0 |};
     orientation := {| q_x := 0; q_y := 0; q_z := 0; q_w := 1 |} |}.

(** ** Settings, colours and render state *)

Record ColorRGBA :=
  { c_r : Js.number; c_g : Js.number; c_b : Js.number; c_a : Js.number }.

Record LayerSettingsGridMap :=
  { visible : bool;
    frameLocked : bool;
    minColor : string;
    maxColor : string;
    unknownColor : string;
    invalidColor : string }.

(** [Partial<LayerSettingsGridMap>], as stored in the renderer's
    configuration. *)
Record PartialSettings :=
  { p_visible : option bool;
    p_frameLocked : option bool;
    p_minColor : option string;
    p_maxColor : option string;
    p_unknownColor : option string;
    p_invalidColor : option string }.

(** The four module-level scratch colours, shared by every call. *)
Record Scratch :=
  { tempUnknownColor : ColorRGBA;
    tempInvalidColor : ColorRGBA;
    tempMinColor : ColorRGBA;
    tempMaxColor : ColorRGBA }.

(** A [THREE.DataTexture]: its identity as an allocation, the
    [Uint8ClampedArray] behind [image.data], and the recorded dimensions. *)
Record DataTexture :=
  { tex_id : nat;
    image_data : list Z;
    image_width : Js.number;
    image_height : Js.number;
    needsUpdate : bool }.

Record Material :=
  { map : nat;            (* the texture the material samples, by identity *)
    transparent : bool;
    depthWrite : bool }.

(** A [GridMapRenderable]: its [userData] and its scale.  Of [userData],
    [mesh] and [pickingMaterial] are left out.  The picking material is made
    once, by [createMesh], with the texture of that moment as its [map]
    uniform, and the file never assigns that uniform again; so [texture]
    and [material] below say nothing about what the picking material
    samples. *)
Record Renderable :=
  { receiveTime : Z;
    messageTime : Z;
    frameId : string;
    u_pose : Pose;
    settings : LayerSettingsGridMap;
    topic : string;
    gridMap : GridMap;
    texture : DataTexture;
    material : Material;
    scale : Js.number * Js.number * Js.number }.

(** The two diagnostics of the file:
    "GridMap layer is has the wrong number of dimensions" and
    "GridMap layer is not equal to width ${width} * height ${height}". *)
Inductive Diagnostic :=
| WrongNumberOfDimensions
| NotEqualToSize (width height : Js.number).

Definition INVALID_GRID_MAP : string := "INVALID_GRID_MAP".

(** What the extension's methods read and write outside the renderable they
    are given: the renderables by topic, the configured settings, the
    renderer's error list (one entry per [addToTopic] call, latest last), the
    textures allocated and disposed so far, and the scratch colours. *)
Record Env :=
  { renderables : gmap string Renderable;
    config_topics : gmap string PartialSettings;
    errors : list (string * string * Diagnostic);
    allocated : nat;
    disposed : list nat;
    scratch : Scratch }.

Definition set_scratch (s : Scratch) (env : Env) : Env :=
  {| renderables := renderables env; config_topics := config_topics env;
     errors := errors env; allocated := allocated env;
     disposed := disposed env; scratch := s |}.

Definition DEFAULT_MIN_COLOR : ColorRGBA := {| c_r := 1; c_g := 1; c_b := 1; c_a := 1 |}.
Definition DEFAULT_MAX_COLOR : ColorRGBA := {| c_r := 0; c_g := 0; c_b := 0; c_a := 1 |}.
Definition DEFAULT_UNKNOWN_COLOR : ColorRGBA :=
  {| c_r := 0.5; c_g := 0.5; c_b := 0.5; c_a := 1 |}.
Definition DEFAULT_INVALID_COLOR : ColorRGBA := {| c_r := 1; c_g := 0; c_b := 1; c_a := 1 |}.

(** ** The settings tree *)

(** A [SettingsTreeAction] of [@foxglove/studio]: an update of the value at
    a path, or a node action; the parts of the payload the file reads.  The
    value is handed on unread. *)
Inductive SettingsTreeAction (Value : Type) :=
| ActionUpdate (path : list string) (value : Value)
| ActionPerformNode (path : list string) (id : string).

Arguments ActionUpdate {Value} path value.
Arguments ActionPerformNode {Value} path id.

(** One field of a settings node, and the five fields of a grid map node. *)
Record SettingsTreeField (A : Type) :=
  { field_label : string; field_input : string; field_value : A }.

Arguments field_label {A}.
Arguments field_input {A}.
Arguments field_value {A}.

Record SettingsTreeFields :=
  { fields_minColor : SettingsTreeField string;
    fields_maxColor : SettingsTreeField string;
    fields_unknownColor : SettingsTreeField string;
    fields_invalidColor : SettingsTreeField string;
    fields_frameLocked : SettingsTreeField bool }.

(** The node of a topic; its [handler] is [handleSettingsAction] in every
    node and is not recorded. *)
Record SettingsTreeNode :=
  { node_label : string;
    node_icon : string;
    node_fields : SettingsTreeFields;
    node_visible : bool;
    node_order : string }.

Record SettingsTreeEntry :=
  { entry_path : list string; entry_node : SettingsTreeNode }.

Section GridMaps.

(** Functions the file uses and does not define, taken as given:
    [stringToRgba], [rgbaToCssString] and [SRGBToLinear] of [../color],
    [normalizeFrameId] of the renderer, and [normalizeFloat32MultiArray],
    which the file calls (line 453) without importing or defining it: the
    name is taken to be bound to a function that returns, and what is said
    of messages that carry layers is said under that reading.
    [stringToRgba] is read as returning the colour it writes into its
    output argument. *)
Variable stringToRgba : string -> ColorRGBA.
Variable rgbaToCssString : ColorRGBA -> string.
Variable SRGBToLinear : Js.number -> Js.number.
Variable normalizeFrameId : string -> string.
Variable normalizeFloat32MultiArray : PartialFloat32MultiArray -> Float32MultiArray.

Definition DEFAULT_SETTINGS : LayerSettingsGridMap :=
  {| visible := false;
     frameLocked := false;
     minColor := rgbaToCssString DEFAULT_MIN_COLOR;
     maxColor := rgbaToCssString DEFAULT_MAX_COLOR;
     unknownColor := rgbaToCssString DEFAULT_UNKNOWN_COLOR;
     invalidColor := rgbaToCssString DEFAULT_INVALID_COLOR |}.

(** [{ ...DEFAULT_SETTINGS, ...userSettings }] *)
Definition mergeSettings (user : option PartialSettings) : LayerSettingsGridMap :=
  {| visible := (user ≫= p_visible) ?? visible DEFAULT_SETTINGS;
     frameLocked := (user ≫= p_frameLocked) ?? frameLocked DEFAULT_SETTINGS;
     minColor := (user ≫= p_minColor) ?? minColor DEFAULT_SETTINGS;
     maxColor := (user ≫= p_maxColor) ?? maxColor DEFAULT_SETTINGS;
     unknownColor := (user ≫= p_unknownColor) ?? unknownColor DEFAULT_SETTINGS;
     invalidColor := (user ≫= p_invalidColor) ?? invalidColor DEFAULT_SETTINGS |}.

(** *** [normalizeGridMap] *)

(** [message.data.map(f)]: reading [map] off an absent [data] throws. *)
Definition array_map {A B} (f : A -> B) (xs : option (list A)) : Js.result (list B) :=
  match xs with
  | None => Js.throw Js.TypeError
  | Some xs => Js.ok (List.map f xs)
  end.

Definition normalizeGridMap (message : PartialGridMap) : Js.result GridMap :=
  let info := p_info message in
  let header := normalizeHeader (p_header message) in
  let info :=
    {| resolution := (info ≫= p_resolution) ?? 0%float;
       length_x := (info ≫= p_length_x) ?? 0%float;
       length_y := (info ≫= p_length_y) ?? 0%float;
       pose := normalizePose (info ≫= p_pose) |} in
  let! data := array_map normalizeFloat32MultiArray (p_data message) in
  Js.ok {| header := header; info := info; data := data |}.

(** *** Grid dimensions *)

Definition gridHeight (gridMap : GridMap) : Js.number :=
  (length_x (info gridMap) / resolution (info gridMap))%float.

Definition gridWidth (gridMap : GridMap) : Js.number :=
  (length_y (info gridMap) / resolution (info gridMap))%float.

Definition gridSize (gridMap : GridMap) : Js.number :=
  (gridWidth gridMap * gridHeight gridMap)%float.

(** *** The layer check of [_updateGridMapRenderable] *)

Definition layerSize (layer : Float32MultiArray) : Js.number :=
  fold_left (fun layer_size d => (layer_size + size d)%float) (dim (layout layer)) 0%float.

(** The [for (const layer of gridMap.data)] loop: the diagnostic of the
    first layer that fails, if any. *)
Fixpoint checkLayers (width height : Js.number) (layers : list Float32MultiArray)
  : option Diagnostic :=
  match layers with
  | [] => None
  | layer :: rest =>
      if (length (dim (layout layer)) <? 2)%nat then Some WrongNumberOfDimensions
      else if negb (layerSize layer =? (width * height))%float
           then Some (NotEqualToSize width height)
           else checkLayers width height rest
  end.

Definition invalidGridMapError (env : Env) (renderable : Renderable) (message : Diagnostic)
  : Env :=
  {| renderables := renderables env; config_topics := config_topics env;
     errors := errors env ++ [(topic renderable, INVALID_GRID_MAP, message)];
     allocated := allocated env; disposed := disposed env; scratch := scratch env |}.

(** *** Textures *)

(** The allocation takes the next free identity.  [new Uint8ClampedArray]
    is modelled by the length conversion it starts with; an engine may also
    refuse a length that passes the conversion, for want of memory, with
    the same RangeError, and that refusal is not modelled: where a
    statement needs the raster to be allocated, the conversion's success
    stands for it. *)
Definition createTexture (gridMap : GridMap) (env : Env) : Js.result (DataTexture * Env) :=
  let height := gridHeight gridMap in
  let width := gridWidth gridMap in
  let size := (width * height)%float in
  let! len := Js.ToIndex (size * 4)%float in
  Js.ok ({| tex_id := allocated env;
            image_data := repeat 0 (Z.to_nat len);
            image_width := width;
            image_height := height;
            needsUpdate := false |},
         {| renderables := renderables env; config_topics := config_topics env;
            errors := errors env; allocated := S (allocated env);
            disposed := disposed env; scratch := scratch env |}).

Definition dispose (texture : DataTexture) (env : Env) : Env :=
  {| renderables := renderables env; config_topics := config_topics env;
     errors := errors env; allocated := allocated env;
     disposed := tex_id texture :: disposed env; scratch := scratch env |}.

Definition srgbToLinearUint8 (color : ColorRGBA) : ColorRGBA :=
  {| c_r := Js.Math_trunc (SRGBToLinear (c_r color) * 255)%float;
     c_g := Js.Math_trunc (SRGBToLinear (c_g color) * 255)%float;
     c_b := Js.Math_trunc (SRGBToLinear (c_b color) * 255)%float;
     c_a := Js.Math_trunc (c_a color * 255)%float |}.

(** *** Recolouring *)

(** [rgba[index] = x] on the texture's [Uint8ClampedArray]: converted by
    [ToUint8Clamp]; a store past the end of a typed array is ignored. *)
Definition store (rgba : list Z) (index : nat) (x : Js.number) : list Z :=
  <[index := Js.ToUint8Clamp x]> rgba.

(** The four numbers one iteration assigns to [rgba[offset + 0 .. 3]]. *)
Definition cellColor (s : Scratch) (value : Z) : ColorRGBA :=
  if value =? -1 then
    tempUnknownColor s
  else if (0 <=? value) && (value <=? 100) then
    let t := (Js.of_Z value / 100)%float in
    if (t =? 1)%float then
      {| c_r := 0; c_g := 0; c_b := 0; c_a := 0 |}
    else
      let tempMinColor := tempMinColor s in
      let tempMaxColor := tempMaxColor s in
      {| c_r := (c_r tempMinColor + (c_r tempMaxColor - c_r tempMinColor) * t)%float;
         c_g := (c_g tempMinColor + (c_g tempMaxColor - c_g tempMinColor) * t)%float;
         c_b := (c_b tempMinColor + (c_b tempMaxColor - c_b tempMinColor) * t)%float;
         c_a := (c_a tempMinColor + (c_a tempMaxColor - c_a tempMinColor) * t)%float |}
  else
    tempInvalidColor s.

Definition storeCell (rgba : list Z) (offset : nat) (c : ColorRGBA) : list Z :=
  store (store (store (store rgba (offset + 0) (c_r c)) (offset + 1) (c_g c))
           (offset + 2) (c_b c)) (offset + 3) (c_a c).

(** [data[i]]: the i-th element of the layer list, an object, or
    [undefined] past its end. *)
Definition element (data : list Float32MultiArray) (i : nat) : Js.value :=
  match data !! i with
  | Some _ => Js.PlainObject
  | None => Js.Undefined
  end.

(** The body of [for (let i = 0; i < size; i++)], for [n] more iterations
    starting at [i]. *)
Fixpoint recolor (s : Scratch) (data : list Float32MultiArray)
  (rgba : list Z) (i n : nat) : list Z :=
  match n with
  | O => rgba
  | S n' =>
      let value := Js.ToInt32 (Js.ToNumber (element data i)) in
      let offset := (i * 4)%nat in
      recolor s data (storeCell rgba offset (cellColor s value)) (S i) n'
  end.

Definition parseColors (settings : LayerSettingsGridMap) : Scratch :=
  {| tempUnknownColor := stringToRgba (unknownColor settings);
     tempInvalidColor := stringToRgba (invalidColor settings);
     tempMinColor := stringToRgba (minColor settings);
     tempMaxColor := stringToRgba (maxColor settings) |}.

Definition linearize (s : Scratch) : Scratch :=
  {| tempUnknownColor := srgbToLinearUint8 (tempUnknownColor s);
     tempInvalidColor := srgbToLinearUint8 (tempInvalidColor s);
     tempMinColor := srgbToLinearUint8 (tempMinColor s);
     tempMaxColor := srgbToLinearUint8 (tempMaxColor s) |}.

(** The scratch colours one recolouring pass works with. *)
Definition palette (settings : LayerSettingsGridMap) : Scratch :=
  linearize (parseColors settings).

Definition updateTexture (texture : DataTexture) (gridMap : GridMap)
  (settings : LayerSettingsGridMap) (env : Env) : Js.result (DataTexture * Env) :=
  let height := gridHeight gridMap in
  let width := gridWidth gridMap in
  let size := (width * height)%float in
  let rgba := image_data texture in
  (* the four stringToRgba calls overwrite every scratch colour *)
  let s := parseColors settings in
  let s := linearize s in
  let data := data gridMap in
  match Js.iterations size with
  | None => Js.throw Js.NoReturn
  | Some n =>
      Js.ok ({| tex_id := tex_id texture;
                image_data := recolor s data rgba 0 n;
                image_width := image_width texture;
                image_height := image_height texture;
                needsUpdate := true |},
             set_scratch s env)
  end.

(** *** Transparency *)

Definition occupancyGridHasTransparency (settings : LayerSettingsGridMap) (env : Env)
  : bool * Env :=
  let s := parseColors settings in
  ((c_a (tempMinColor s) <? 1)%float || (c_a (tempMaxColor s) <? 1)%float
   || (c_a (tempInvalidColor s) <? 1)%float || (c_a (tempUnknownColor s) <? 1)%float,
   set_scratch s env).

Definition createMaterial (texture : DataTexture) (settings : LayerSettingsGridMap)
  (env : Env) : Material * Env :=
  let (transparent, env) := occupancyGridHasTransparency settings env in
  ({| map := tex_id texture; transparent := transparent; depthWrite := negb transparent |},
   env).

(** *** [_updateGridMapRenderable] *)

Definition _updateGridMapRenderable (renderable : Renderable) (gridMap : GridMap)
  (receiveTime : Z) (env : Env) : Js.result (Renderable * Env) :=
  let renderable :=
    {| receiveTime := receiveTime;
       messageTime := toNanoSec (stamp (header gridMap));
       frameId := normalizeFrameId (frame_id (header gridMap));
       u_pose := pose (info gridMap);
       settings := settings renderable;
       topic := topic renderable;
       gridMap := gridMap;
       texture := texture renderable;
       material := material renderable;
       scale := scale renderable |} in
  (* Check that every layer matches the size of the grid in the .info field. *)
  let resolution := resolution (info gridMap) in
  let height := (length_x (info gridMap) / resolution)%float in
  let width := (length_y (info gridMap) / resolution)%float in
  match checkLayers width height (data gridMap) with
  | Some message =>
      Js.ok (renderable, invalidGridMapError env renderable message)
  | None =>
      (* The image dimensions changed, regenerate the texture *)
      let texture := texture renderable in
      let! (texture, map, env) :=
        if negb (width =? image_width texture)%float
           || negb (height =? image_height texture)%float
        then
          let env := dispose texture env in
          let! (texture, env) := createTexture gridMap env in
          Js.ok (texture, tex_id texture, env)
        else Js.ok (texture, map (material renderable), env) in
      (* Update the occupancy grid texture *)
      let! (texture, env) := updateTexture texture gridMap (settings renderable) env in
      Js.ok ({| receiveTime := receiveTime;
                messageTime := messageTime renderable;
                frameId := frameId renderable;
                u_pose := u_pose renderable;
                settings := settings renderable;
                topic := topic renderable;
                gridMap := gridMap;
                texture := texture;
                material := {| map := map;
                               transparent := transparent (material renderable);
                               depthWrite := depthWrite (material renderable) |};
                scale := ((resolution * width)%float, (resolution * height)%float, 1%float) |},
             env)
  end.

(** *** [handleOccupancyGrid] *)

Definition set_renderable (topic : string) (renderable : Renderable) (env : Env) : Env :=
  {| renderables := <[topic := renderable]> (renderables env);
     config_topics := config_topics env; errors := errors env;
     allocated := allocated env; disposed := disposed env; scratch := scratch env |}.

Definition handleOccupancyGrid (topic : string) (message : PartialGridMap)
  (receiveTime : RosTime) (env : Env) : Js.result Env :=
  let! gridMap := normalizeGridMap message in
  let receiveTime := toNanoSec receiveTime in
  let! (renderable, env) :=
    match renderables env !! topic with
    | Some renderable => Js.ok (renderable, env)
    | None =>
        (* Set the initial settings from default values merged with any user settings *)
        let settings := mergeSettings (config_topics env !! topic) in
        let! (texture, env) := createTexture gridMap env in
        let (material, env) := createMaterial texture settings env in
        (* Create the renderable *)
        let renderable :=
          {| receiveTime := receiveTime;
             messageTime := toNanoSec (stamp (header gridMap));
             frameId := normalizeFrameId (frame_id (header gridMap));
             u_pose := pose (info gridMap);
             settings := settings;
             topic := topic;
             gridMap := gridMap;
             texture := texture;
             material := material;
             scale := (1%float, 1%float, 1%float) |} in
        Js.ok (renderable, set_renderable topic renderable env)
    end in
  let! (renderable, env) := _updateGridMapRenderable renderable gridMap receiveTime env in
  (* the renderable held by the map is the object just updated *)
  Js.ok (set_renderable topic renderable env).

(** *** [settingsNodes] *)

(** The renderer's topics and two more functions the file uses and does not
    define: [topicIsConvertibleToSchema], here for [GRID_MAP_DATATYPES], and
    the string method [toLocaleLowerCase]. *)
Variable Topic : Type.
Variable topic_name : Topic -> string.
Variable topicIsConvertibleToSchema : Topic -> bool.
Variable toLocaleLowerCase : string -> string.

Definition DEFAULT_MIN_COLOR_STR : string := rgbaToCssString DEFAULT_MIN_COLOR.
Definition DEFAULT_MAX_COLOR_STR : string := rgbaToCssString DEFAULT_MAX_COLOR.
Definition DEFAULT_UNKNOWN_COLOR_STR : string := rgbaToCssString DEFAULT_UNKNOWN_COLOR.
Definition DEFAULT_INVALID_COLOR_STR : string := rgbaToCssString DEFAULT_INVALID_COLOR.

(** [{}] as a [Partial<LayerSettingsGridMap>] *)
Definition emptySettings : PartialSettings :=
  {| p_visible := None; p_frameLocked := None; p_minColor := None;
     p_maxColor := None; p_unknownColor := None; p_invalidColor := None |}.

(** The [for (const topic of this.renderer.topics ?? [])] loop, each
    iteration pushing one entry or none. *)
Definition settingsNodes (topics : option (list Topic))
  (configTopics : gmap string PartialSettings) : list SettingsTreeEntry :=
  fold_left
    (fun entries topic =>
       if negb (topicIsConvertibleToSchema topic) then entries
       else
         let config := (configTopics !! topic_name topic) ?? emptySettings in
         let fields :=
           {| fields_minColor :=
                {| field_label := "Min Color"; field_input := "rgba";
                   field_value := p_minColor config ?? DEFAULT_MIN_COLOR_STR |};
              fields_maxColor :=
                {| field_label := "Max Color"; field_input := "rgba";
                   field_value := p_maxColor config ?? DEFAULT_MAX_COLOR_STR |};
              fields_unknownColor :=
                {| field_label := "Unknown Color"; field_input := "rgba";
                   field_value := p_unknownColor config ?? DEFAULT_UNKNOWN_COLOR_STR |};
              fields_invalidColor :=
                {| field_label := "Invalid Color"; field_input := "rgba";
                   field_value := p_invalidColor config ?? DEFAULT_INVALID_COLOR_STR |};
              fields_frameLocked :=
                {| field_label := "Frame Lock"; field_input := "boolean";
                   field_value := p_frameLocked config ?? false |} |} in
         entries ++
         [ {| entry_path := ["topics"; topic_name topic];
              entry_node :=
                {| node_label := topic_name topic;
                   node_icon := "Cells";
                   node_fields := fields;
                   node_visible := p_visible config ?? visible DEFAULT_SETTINGS;
                   node_order := toLocaleLowerCase (topic_name topic) |} |} ])
    (topics ?? []) [].

(** *** [handleSettingsAction] *)

(** [saveSetting] of the base class writes the value at the path of the
    renderer's configuration; it is taken as given, through what it makes of
    the configured topic settings.  The value stays abstract, and a
    configured property is either absent or holds a value of its type. *)
Variable Value : Type.
Variable saveSetting :
  list string -> Value -> gmap string PartialSettings -> gmap string PartialSettings.

Definition set_config_topics (topics : gmap string PartialSettings) (env : Env) : Env :=
  {| renderables := renderables env; config_topics := topics;
     errors := errors env; allocated := allocated env;
     disposed := disposed env; scratch := scratch env |}.

(** The handler returns nothing; the boolean tells whether it set
    [material.needsUpdate], which the render state does not record. *)
Definition handleSettingsAction (action : SettingsTreeAction Value) (env : Env)
  : Js.result (Env * bool) :=
  match action with
  | ActionPerformNode _ _ => Js.ok (env, false)
  | ActionUpdate path value =>
      match path with
      | [_; topicName; _] =>
          let env := set_config_topics (saveSetting path value (config_topics env)) env in
          (* Update the renderable *)
          match renderables env !! topicName with
          | None => Js.ok (env, false)
          | Some renderable =>
              let (prevTransparent, env) :=
                occupancyGridHasTransparency (settings renderable) env in
              let settings := mergeSettings (config_topics env !! topicName) in
              (* Check if the transparency changed and we need to create a new material *)
              let (newTransparent, env) := occupancyGridHasTransparency settings env in
              let changed := negb (Bool.eqb prevTransparent newTransparent) in
              let material :=
                if changed then
                  {| map := map (material renderable);
                     transparent := newTransparent;
                     depthWrite := negb newTransparent |}
                else material renderable in
              let renderable :=
                {| receiveTime := receiveTime renderable;
                   messageTime := messageTime renderable;
                   frameId := frameId renderable;
                   u_pose := u_pose renderable;
                   settings := settings;
                   topic := topic renderable;
                   gridMap := gridMap renderable;
                   texture := texture renderable;
                   material := material;
                   scale := scale renderable |} in
              let! (renderable, env) :=
                _updateGridMapRenderable renderable (gridMap renderable)
                  (receiveTime renderable) env in
              Js.ok (set_renderable topicName renderable env, changed)
          end
      | _ => Js.ok (env, false)
      end
  end.

End GridMaps.

(** ** Notions used to state the properties *)

(** Linear interpolation of two colours, channel by channel. *)
Definition interpolate (lo hi : ColorRGBA) (t : Js.number) : ColorRGBA :=
  {| c_r := (c_r lo + (c_r hi - c_r lo) * t)%float;
     c_g := (c_g lo + (c_g hi - c_g lo) * t)%float;
     c_b := (c_b lo + (c_b hi - c_b lo) * t)%float;
     c_a := (c_a lo + (c_a hi - c_a lo) * t)%float |}.

Definition transparentBlack : ColorRGBA := {| c_r := 0; c_g := 0; c_b := 0; c_a := 0 |}.

(** A layer that the check lets through, for a grid of [size] cells. *)
Definition layerPasses (size : Js.number) (layer : Float32MultiArray) : Prop :=
  (2 <= length (dim (layout layer)))%nat /\ (layerSize layer =? size)%float = true.

(** The number of cells a layer declares: the product of its dimensions. *)
Definition layerCells (layer : Float32MultiArray) : Js.number :=
  fold_left (fun cells d => (cells * size d)%float) (dim (layout layer)) 1%float.

(** The four bytes of pixel [p], when the raster holds all of them. *)
Definition pixelAt (rgba : list Z) (p : nat) : option (Z * Z * Z * Z) :=
  r ← rgba !! (p * 4 + 0)%nat;
  g ← rgba !! (p * 4 + 1)%nat;
  b ← rgba !! (p * 4 + 2)%nat;
  a ← rgba !! (p * 4 + 3)%nat;
  Some (r, g, b, a).

(** The bytes a colour becomes when stored. *)
Definition clamped (c : ColorRGBA) : Z * Z * Z * Z :=
  (Js.ToUint8Clamp (c_r c), Js.ToUint8Clamp (c_g c),
   Js.ToUint8Clamp (c_b c), Js.ToUint8Clamp (c_a c)).

(** A texture whose buffer has the length its recorded dimensions ask for,
    as every texture made by [createTexture] has. *)
Definition textureFits (texture : DataTexture) : Prop :=
  Js.ToIndex (image_width texture * image_height texture * 4)%float
  = Js.ok (Z.of_nat (length (image_data texture))).

(** A colour whose channels are bytes. *)
Definition byteColor (c : ColorRGBA) (r g b a : Z) : Prop :=
  (0 <= r <= 255 /\ 0 <= g <= 255 /\ 0 <= b <= 255 /\ 0 <= a <= 255)
  /\ c = {| c_r := Js.of_Z r; c_g := Js.of_Z g; c_b := Js.of_Z b; c_a := Js.of_Z a |}.

(** [b] is an integer nearest to the number [x] of [0, 255], and the even
    one of the two when [x] lies half-way. *)
Definition nearestEven (x : Js.number) (b : Z) : Prop :=
  forall n d, Js.exact x = Js.RFin n d -> 0 <= n <= 255 * d ->
    0 <= b <= 255
    /\ 2 * Z.abs (n - b * d) <= d
    /\ (2 * Z.abs (n - b * d) = d -> Z.even b = true).

Definition withData (gridMap : GridMap) (layers : list Float32MultiArray) : GridMap :=
  {| header := header gridMap; info := info gridMap; data := layers |}.

(** Every renderable of the environment has a texture whose buffer fits its
    dimensions and whose identity has been handed out. *)
Definition wellFormed (env : Env) : Prop :=
  forall name renderable, renderables env !! name = Some renderable ->
    textureFits (texture renderable)
    /\ (tex_id (texture renderable) < allocated env)%nat.

(** The test that makes an update replace the texture. *)
Definition resized (gridMap : GridMap) (texture : DataTexture) : bool :=
  negb (gridWidth gridMap =? image_width texture)%float
  || negb (gridHeight gridMap =? image_height texture)%float.

(** The number one iteration stores at [rgba[offset + k]]. *)
Definition channel (c : ColorRGBA) (k : nat) : Js.number :=
  match k with
  | 0%nat => c_r c
  | 1%nat => c_g c
  | 2%nat => c_b c
  | _ => c_a c
  end.

(** *** Notions about the two handlers *)

(** The material of a renderable agrees with its settings and samples its
    texture. *)
Definition materialMatches (stringToRgba : string -> ColorRGBA) (renderable : Renderable)
  : Prop :=
  (forall env,
     transparent (material renderable)
     = fst (occupancyGridHasTransparency stringToRgba (settings renderable) env))
  /\ depthWrite (material renderable) = negb (transparent (material renderable))
  /\ map (material renderable) = tex_id (texture renderable).

(** The renderable registered under [name] carries that topic, and its
    message time, frame and pose are those of the grid it holds. *)
Definition recordsMatch (normalizeFrameId : string -> string) (name : string)
  (renderable : Renderable) : Prop :=
  topic renderable = name
  /\ messageTime renderable = toNanoSec (stamp (header (gridMap renderable)))
  /\ frameId renderable = normalizeFrameId (frame_id (header (gridMap renderable)))
  /\ u_pose renderable = pose (info (gridMap renderable)).

(** Every texture handed out is either disposed, once, or the
    [userData.texture] of exactly one renderable. *)
Definition texturesOwned (env : Env) : Prop :=
  (forall a b ra rb,
     renderables env !! a = Some ra -> renderables env !! b = Some rb ->
     tex_id (texture ra) = tex_id (texture rb) -> a = b)
  /\ (forall a ra, renderables env !! a = Some ra ->
        (tex_id (texture ra) < allocated env)%nat
        /\ ~ In (tex_id (texture ra)) (disposed env))
  /\ (forall id, In id (disposed env) -> (id < allocated env)%nat)
  /\ NoDup (disposed env)
  /\ allocated env = (length (disposed env) + base.size (renderables env))%nat.

(** A settings entry that belongs to the topic [name] and displays the
    settings [s]. *)
Definition displays (entry : SettingsTreeEntry) (name : string) (s : LayerSettingsGridMap)
  : Prop :=
  entry_path entry = ["topics"; name]
  /\ node_label (entry_node entry) = name
  /\ node_visible (entry_node entry) = visible s
  /\ field_value (fields_minColor (node_fields (entry_node entry))) = minColor s
  /\ field_value (fields_maxColor (node_fields (entry_node entry))) = maxColor s
  /\ field_value (fields_unknownColor (node_fields (entry_node entry))) = unknownColor s
  /\ field_value (fields_invalidColor (node_fields (entry_node entry))) = invalidColor s
  /\ field_value (fields_frameLocked (node_fields (entry_node entry))) = frameLocked s.

(** A renderable whose texture has the dimensions of the grid it holds,
    as far as that grid passes the layer check and its dimensions are
    numbers. *)
Definition textureMatchesGrid (renderable : Renderable) : Prop :=
  let grid := gridMap renderable in
  checkLayers (gridWidth grid) (gridHeight grid) (data grid) = None ->
  resized grid (texture renderable) = false
  \/ Js.exact (gridWidth grid) = Js.RNaN
  \/ Js.exact (gridHeight grid) = Js.RNaN.

(** Two environments that differ in the scratch colours at most. *)
Definition agreeUpToScratch (env1 env2 : Env) : Prop :=
  renderables env1 = renderables env2
  /\ config_topics env1 = config_topics env2
  /\ errors env1 = errors env2
  /\ allocated env1 = allocated env2
  /\ disposed env1 = disposed env2.

(** What reaches the extension: a message on a topic, or a settings
    action. *)
Inductive Event (Value : Type) :=
| MessageEvent (topic : string) (message : PartialGridMap) (receiveTime : RosTime)
| SettingsEvent (action : SettingsTreeAction Value).

Arguments MessageEvent {Value} topic message receiveTime.
Arguments SettingsEvent {Value} action.

(** The state of a fresh extension: no renderable, nothing allocated, the
    scratch colours at zero. *)
Definition initialEnv (config : gmap string PartialSettings) : Env :=
  {| renderables := ∅;
     config_topics := config;
     errors := [];
     allocated := 0;
     disposed := [];
     scratch :=
       {| tempUnknownColor := {| c_r := 0; c_g := 0; c_b := 0; c_a := 0 |};
          tempInvalidColor := {| c_r := 0; c_g := 0; c_b := 0; c_a := 0 |};
          tempMinColor := {| c_r := 0; c_g := 0; c_b := 0; c_a := 0 |};
          tempMaxColor := {| c_r := 0; c_g := 0; c_b := 0; c_a := 0 |} |} |}.

Section Events.

Variable stringToRgba : string -> ColorRGBA.
Variable rgbaToCssString : ColorRGBA -> string.
Variable SRGBToLinear : Js.number -> Js.number.
Variable normalizeFrameId : string -> string.
Variable normalizeFloat32MultiArray : PartialFloat32MultiArray -> Float32MultiArray.
Variable Value : Type.
Variable saveSetting :
  list string -> Value -> gmap string PartialSettings -> gmap string PartialSettings.

(** Delivering one event to its handler, and a sequence of events in
    order; the first handler that throws ends the run. *)
Definition deliver (event : Event Value) (env : Env) : Js.result Env :=
  match event with
  | MessageEvent topic message receiveTime =>
      handleOccupancyGrid stringToRgba rgbaToCssString SRGBToLinear normalizeFrameId
        normalizeFloat32MultiArray topic message receiveTime env
  | SettingsEvent action =>
      let! (env, _) :=
        handleSettingsAction stringToRgba rgbaToCssString SRGBToLinear normalizeFrameId
          Value saveSetting action env in
      Js.ok env
  end.

Fixpoint deliverAll (events : list (Event Value)) (env : Env) : Js.result Env :=
  match events with
  | [] => Js.ok env
  | event :: rest => let! env := deliver event env in deliverAll rest env
  end.

End Events.

(** The state every handler keeps. *)
Definition consistent (stringToRgba : string -> ColorRGBA)
  (rgbaToCssString : ColorRGBA -> string) (normalizeFrameId : string -> string)
  (env : Env) : Prop :=
  wellFormed env
  /\ texturesOwned env
  /\ forall name renderable, renderables env !! name = Some renderable ->
       materialMatches stringToRgba renderable
       /\ recordsMatch normalizeFrameId name renderable
       /\ settings renderable
          = mergeSettings rgbaToCssString (config_topics env !! name).

(** ** Stand-ins for the imported functions, for concrete examples *)

Module Sample.

Definition rgba (r g b a : Js.number) : ColorRGBA :=
  {| c_r := r; c_g := g; c_b := b; c_a := a |}.

(** A colour parser that knows a few names; like the original, an
    unparsable string yields opaque white. *)
Definition stringToRgba (s : string) : ColorRGBA :=
  if String.eqb s "white" then rgba 1 1 1 1
  else if String.eqb s "black" then rgba 0 0 0 1
  else if String.eqb s "gray" then rgba 0.5 0.5 0.5 1
  else if String.eqb s "magenta" then rgba 1 0 1 1
  else if String.eqb s "smoke" then rgba 0.5 0.5 0.5 0.5
  else rgba 1 1 1 1.

Definition rgbaToCssString (c : ColorRGBA) : string :=
  if (c_a c <? 1)%float then "smoke"
  else if (c_g c =? 1)%float then "white"
  else if (c_r c =? 1)%float then "magenta"
  else if (c_r c =? 0)%float then "black"
  else "gray".

(** A gamma-2 curve in place of the sRGB transfer function. *)
Definition SRGBToLinear (c : Js.number) : Js.number := (c * c)%float.

Definition normalizeFrameId (s : string) : string := s.

Definition normalizeDimension (d : PartialDimension) : MultiArrayDimension :=
  {| label := p_label d ?? EmptyString;
     size := p_size d ?? 0%float;
     stride := p_stride d ?? 0%float |}.

Definition normalizeFloat32MultiArray (m : PartialFloat32MultiArray) : Float32MultiArray :=
  {| layout :=
       {| dim := List.map normalizeDimension ((p_layout m ≫= p_dim) ?? []);
          data_offset := (p_layout m ≫= p_data_offset) ?? 0%float |};
     values := p_values m ?? [] |}.

Definition emptyEnv : Env :=
  {| renderables := ∅; config_topics := ∅; errors := []; allocated := 0;
     disposed := [];
     scratch := {| tempUnknownColor := rgba 0 0 0 0; tempInvalidColor := rgba 0 0 0 0;
                   tempMinColor := rgba 0 0 0 0; tempMaxColor := rgba 0 0 0 0 |} |}.

Definition layerOf (sizes : list Js.number) (cells : list Js.number) : Float32MultiArray :=
  {| layout := {| dim := List.map (fun n => {| label := EmptyString; size := n; stride := 0 |}) sizes;
                  data_offset := 0 |};
     values := cells |}.

Definition grid (res lx ly : Js.number) (layers : list Float32MultiArray) : GridMap :=
  {| header := {| frame_id := "map"; stamp := {| sec := 1; nsec := 500 |} |};
     info := {| resolution := res; length_x := lx; length_y := ly; pose := identityPose |};
     data := layers |}.

Definition update := _updateGridMapRenderable stringToRgba SRGBToLinear normalizeFrameId.
Definition handle :=
  handleOccupancyGrid stringToRgba rgbaToCssString SRGBToLinear normalizeFrameId
    normalizeFloat32MultiArray.

(** A first message for a topic: a 2 by 2 grid with one layer. *)
Definition firstMessage : PartialGridMap :=
  {| p_header :=
       Some {| p_frame_id := Some "map";
               p_stamp := Some {| p_sec := Some 1; p_nsec := Some 500 |} |};
     p_info :=
       Some {| p_resolution := Some 1%float; p_length_x := Some 2%float;
               p_length_y := Some 2%float; p_pose := None |};
     p_data :=
       Some [ {| p_layout :=
                   Some {| p_dim :=
                             Some [ {| p_label := None; p_size := Some 2%float;
                                       p_stride := None |};
                                    {| p_label := None; p_size := Some 2%float;
                                       p_stride := None |} ];
                           p_data_offset := None |};
                 p_values := Some [(-1)%float; 50%float; 100%float; 7%float] |} ] |}.

Definition grid2x2 : GridMap :=
  grid 1 2 2 [layerOf [2%float; 2%float] [(-1)%float; 50%float; 100%float; 7%float]].

(** The palette of the default settings under the stand-ins: opaque white,
    opaque black, a dark gray and magenta, as bytes. *)
Definition defaultPalette : Scratch :=
  {| tempUnknownColor := rgba 63 63 63 255;
     tempInvalidColor := rgba 255 0 255 255;
     tempMinColor := rgba 255 255 255 255;
     tempMaxColor := rgba 0 0 0 255 |}.

Definition defaultSettings : LayerSettingsGridMap :=
  {| visible := false; frameLocked := false;
     minColor := "white"; maxColor := "black";
     unknownColor := "gray"; invalidColor := "magenta" |}.

(** The renderable and the environment the first message leaves. *)
Definition renderable1 : Renderable :=
  {| receiveTime := 3000000000;
     messageTime := 1000000500;
     frameId := "map";
     u_pose := identityPose;
     settings := defaultSettings;
     topic := "grid";
     gridMap := grid2x2;
     texture := {| tex_id := 0;
                   image_data := repeat 255 16;
                   image_width := 2;
                   image_height := 2;
                   needsUpdate := true |};
     material := {| map := 0; transparent := false; depthWrite := true |};
     scale := (2%float, 2%float, 1%float) |}.

Definition env1 : Env :=
  {| renderables := {[ "grid" := renderable1 ]};
     config_topics := ∅;
     errors := [];
     allocated := 1;
     disposed := [];
     scratch := defaultPalette |}.

(** Later messages for the topic: a layer whose declared sizes do not add
    up to the grid's 3 * 3 cells, a grid of other dimensions, and a grid
    with a fractional width. *)
Definition badGrid : GridMap :=
  {| header := {| frame_id := "odom"; stamp := {| sec := 2; nsec := 0 |} |};
     info := {| resolution := 1; length_x := 3; length_y := 3; pose := identityPose |};
     data := [layerOf [3%float; 3%float] []] |}.

Definition grid4x1 : GridMap := grid 1 1 4 [layerOf [2%float; 2%float] []].

Definition fractionalGrid : GridMap := grid 2 4 5 [layerOf [2%float; 3%float] []].

(** A 3 wide, 2 high grid with a layer declaring 3 by 3 cells. *)
Definition grid3x2 : GridMap := grid 1 2 3 [layerOf [3%float; 3%float] []].

(** A grid without layers of resolution 0.1 and lengths 0.1 by 0.3, given by
    the binary64 numbers nearest to these decimals. *)
Definition tenthsGrid : GridMap :=
  grid 0x1.999999999999ap-4 0x1.999999999999ap-4 0x1.3333333333333p-2 [].

(** Stand-ins for the settings side: values of the two kinds the nodes
    edit, and a [saveSetting] that writes a property of a topic's settings
    for paths ["topics", name, property] and nothing for other paths. *)
Inductive SettingValue :=
| BooleanValue (b : bool)
| ColorValue (s : string).

Definition setProperty (property : string) (value : SettingValue) (c : PartialSettings)
  : PartialSettings :=
  match value with
  | BooleanValue b =>
      if String.eqb property "visible" then
        {| p_visible := Some b; p_frameLocked := p_frameLocked c;
           p_minColor := p_minColor c; p_maxColor := p_maxColor c;
           p_unknownColor := p_unknownColor c; p_invalidColor := p_invalidColor c |}
      else if String.eqb property "frameLocked" then
        {| p_visible := p_visible c; p_frameLocked := Some b;
           p_minColor := p_minColor c; p_maxColor := p_maxColor c;
           p_unknownColor := p_unknownColor c; p_invalidColor := p_invalidColor c |}
      else c
  | ColorValue s =>
      if String.eqb property "minColor" then
        {| p_visible := p_visible c; p_frameLocked := p_frameLocked c;
           p_minColor := Some s; p_maxColor := p_maxColor c;
           p_unknownColor := p_unknownColor c; p_invalidColor := p_invalidColor c |}
      else if String.eqb property "maxColor" then
        {| p_visible := p_visible c; p_frameLocked := p_frameLocked c;
           p_minColor := p_minColor c; p_maxColor := Some s;
           p_unknownColor := p_unknownColor c; p_invalidColor := p_invalidColor c |}
      else if String.eqb property "unknownColor" then
        {| p_visible := p_visible c; p_frameLocked := p_frameLocked c;
           p_minColor := p_minColor c; p_maxColor := p_maxColor c;
           p_unknownColor := Some s; p_invalidColor := p_invalidColor c |}
      else if String.eqb property "invalidColor" then
        {| p_visible := p_visible c; p_frameLocked := p_frameLocked c;
           p_minColor := p_minColor c; p_maxColor := p_maxColor c;
           p_unknownColor := p_unknownColor c; p_invalidColor := Some s |}
      else c
  end.

Definition saveSetting (path : list string) (value : SettingValue)
  (topics : gmap string PartialSettings) : gmap string PartialSettings :=
  match path with
  | [root; name; property] =>
      if String.eqb root "topics" then
        <[name := setProperty property value ((topics !! name) ?? emptySettings)]> topics
      else topics
  | _ => topics
  end.

Definition handleSettings :=
  handleSettingsAction stringToRgba rgbaToCssString SRGBToLinear normalizeFrameId
    SettingValue saveSetting.

(** Topics as the settings tree sees them: a name and a schema name, a
    topic being convertible when its schema is that of grid maps. *)
Record Topic := { name : string; schemaName : string }.

Definition topicIsConvertibleToSchema (t : Topic) : bool :=
  String.eqb (schemaName t) "grid_map_msgs/GridMap".

Definition toLocaleLowerCase (s : string) : string := s.

Definition nodes :=
  settingsNodes rgbaToCssString Topic name topicIsConvertibleToSchema toLocaleLowerCase.

Definition sendAll :=
  deliverAll stringToRgba rgbaToCssString SRGBToLinear normalizeFrameId
    normalizeFloat32MultiArray SettingValue saveSetting.

(** Grids at the edges: a resolution of zero, and lengths of opposite
    signs. *)
Definition zeroGrid : GridMap := grid 0 0 0 [].

Definition negativeGrid : GridMap := grid 1 (-2) 2 [].

(** The message that decodes to [badGrid], and a message that carries an
    empty list of layers and nothing else. *)
Definition badMessage : PartialGridMap :=
  {| p_header :=
       Some {| p_frame_id := Some "odom";
               p_stamp := Some {| p_sec := Some 2; p_nsec := Some 0 |} |};
     p_info :=
       Some {| p_resolution := Some 1%float; p_length_x := Some 3%float;
               p_length_y := Some 3%float; p_pose := None |};
     p_data :=
       Some [ {| p_layout :=
                   Some {| p_dim :=
                             Some [ {| p_label := None; p_size := Some 3%float;
                                       p_stride := None |};
                                    {| p_label := None; p_size := Some 3%float;
                                       p_stride := None |} ];
                           p_data_offset := None |};
                 p_values := Some [] |} ] |}.

Definition emptyDataMessage : PartialGridMap :=
  {| p_header := None; p_info := None; p_data := Some [] |}.

(** The sample renderable and environment after [badMessage]. *)
Definition staleRenderable : Renderable :=
  {| receiveTime := 4000000000;
     messageTime := 2000000000;
     frameId := "odom";
     u_pose := identityPose;
     settings := defaultSettings;
     topic := "grid";
     gridMap := badGrid;
     texture := texture renderable1;
     material := material renderable1;
     scale := scale renderable1 |}.

Definition staleEnv : Env :=
  {| renderables := {[ "grid" := staleRenderable ]};
     config_topics := ∅;
     errors := [("grid", INVALID_GRID_MAP, NotEqualToSize 3 3)];
     allocated := 1;
     disposed := [];
     scratch := defaultPalette |}.

(** A settings action that makes the min colour of the sample topic
    translucent, and the topics of a session. *)
Definition smokeAction : SettingsTreeAction SettingValue :=
  ActionUpdate ["topics"; "grid"; "minColor"] (ColorValue "smoke").

Definition topics : list Topic :=
  [ {| name := "grid"; schemaName := "grid_map_msgs/GridMap" |};
    {| name := "camera"; schemaName := "sensor_msgs/Image" |} ].

End Sample.

(** ** Facts about numbers *)

Module JsFacts.

Lemma exact_den_pos (x : Js.number) (n d : Z) :
  Js.exact x = Js.RFin n d -> 0 < d.
Proof.
  unfold Js.exact. destruct (Prim2SF x) as [s|s| |s m e]; try discriminate.
  - intros [= <- <-]. lia.
  - destruct (0 <=? e) eqn:He; intros [= <- <-]; [lia|].
    apply Z.pow_pos_nonneg; lia.
Qed.

(** A store into the raster rounds to a nearest integer, and a tie goes to
    the even neighbour. *)
Lemma ToUint8Clamp_nearest (x : Js.number) (n d : Z) :
  Js.exact x = Js.RFin n d -> 0 <= n <= 255 * d ->
  let b := Js.ToUint8Clamp x in
  0 <= b <= 255
  /\ 2 * Z.abs (n - b * d) <= d
  /\ (2 * Z.abs (n - b * d) = d -> Z.even b = true).
Proof.
  intros Hx Hn. pose proof (exact_den_pos _ _ _ Hx) as Hd.
  unfold Js.ToUint8Clamp. rewrite Hx. cbv zeta.
  destruct (n <=? 0) eqn:H0; [apply Z.leb_le in H0; cbn; lia|].
  apply Z.leb_gt in H0.
  destruct (255 * d <=? n) eqn:H255; [apply Z.leb_le in H255; cbn; lia|].
  apply Z.leb_gt in H255.
  pose proof (Z.div_mod n d ltac:(lia)) as Hdm.
  pose proof (Z.mod_pos_bound n d Hd) as Hm.
  assert (Hf : 0 <= n / d < 255).
  { split; [apply Z.div_pos; lia | apply Z.div_lt_upper_bound; lia]. }
  set (f := n / d) in *.
  assert (Hr : n - f * d = n mod d) by lia.
  rewrite Hr.
  destruct (2 * (n mod d) ?= d) eqn:Hc.
  - apply Z.compare_eq in Hc.
    destruct (Z.even f) eqn:Hev.
    + split; [lia|]. split; [lia|]. intros _. exact Hev.
    + split; [lia|]. split; [lia|].
      intros _. rewrite Z.even_add, Hev. reflexivity.
  - rewrite Z.compare_lt_iff in Hc. split; [lia|]. split; lia.
  - rewrite Z.compare_gt_iff in Hc. split; [lia|]. split; lia.
Qed.

Lemma ToIndex_nonneg (x : Js.number) (len : Z) : Js.ToIndex x = Js.ok len -> 0 <= len.
Proof.
  unfold Js.ToIndex. destruct (Js.exact x) as [|s|n d]; try discriminate.
  - intros [= <-]. lia.
  - destruct (0 <=? Z.quot n d) eqn:H0; cbn [andb]; [|discriminate].
    destruct (Z.quot n d <=? 2 ^ 53 - 1); [|discriminate].
    intros [= <-]. apply Z.leb_le. exact H0.
Qed.

(** Strict equality of numbers: equal representations, or two zeros. *)
Lemma SFeqb_true (X Y : spec_float) :
  SFeqb X Y = true ->
  X = Y \/ exists s1 s2, X = S754_zero s1 /\ Y = S754_zero s2.
Proof.
  unfold SFeqb.
  destruct X as [s1|s1| |s1 m1 e1], Y as [s2|s2| |s2 m2 e2]; cbn;
    try discriminate; try (destruct s1; discriminate);
    try (destruct s2; discriminate).
  - intros _. right. eauto.
  - destruct s1, s2; try discriminate; auto.
  - destruct s1, s2; try discriminate;
      destruct (Z.compare e1 e2) eqn:He; try discriminate;
      apply Z.compare_eq in He; subst e2;
      destruct (Pos.compare_cont Eq m1 m2) eqn:Hm; try discriminate;
      apply Pos.compare_eq in Hm; subst m2; auto.
Qed.

Lemma SFeqb_zero_l (s1 s2 : bool) (Z : spec_float) :
  SFeqb Z (S754_zero s1) = SFeqb Z (S754_zero s2).
Proof. destruct Z; reflexivity. Qed.

Lemma eqb_congr_r (a b c : Js.number) :
  (a =? b)%float = true -> (c =? a)%float = (c =? b)%float.
Proof.
  rewrite !FloatAxioms.eqb_spec. intros H.
  destruct (SFeqb_true _ _ H) as [->|(s1 & s2 & -> & ->)]; [reflexivity|].
  apply SFeqb_zero_l.
Qed.

(** *** Multiplying by four is exact

    [size * 4] is computed in binary64; the product has the mathematical
    value of four times [size] unless it overflows to an infinity. *)

Lemma Prim2SF_four : Prim2SF 4%float = Js.four.
Proof. vm_compute. reflexivity. Qed.

Lemma digits2_doubled (k p : positive) :
  Z.pos (digits2_pos (Pos.iter xO p k)) = Z.pos (digits2_pos p) + Z.pos k.
Proof.
  induction k as [|k IH] using Pos.peano_ind.
  - cbn. lia.
  - rewrite Pos.iter_succ. cbn [digits2_pos]. lia.
Qed.

Lemma SFmul_four (s : bool) (m : positive) (e : Z) :
  bounded prec emax m e = true ->
  SF64mul (S754_finite s m e) Js.four = Js.times4 s m e.
Proof.
  unfold bounded, canonical_mantissa, fexp, SpecFloat.emin, prec, emax.
  intros H. apply andb_true_iff in H as [Hc He].
  apply Z.eqb_eq in Hc. apply Z.leb_le in He.
  unfold SF64mul, SFmul, Js.four, Js.times4.
  rewrite xorb_false_r, Pos.mul_comm.
  change (4503599627370496 * m)%positive with (Pos.iter xO m 52).
  unfold binary_round_aux, shr_fexp, fexp, SpecFloat.emin, prec, emax.
  cbn [Zdigits2 shr_record_of_loc]. rewrite digits2_doubled.
  set (D := Z.pos (digits2_pos m)) in *.
  assert (HD : 0 < D) by (unfold D; lia).
  assert (H52 : SpecFloat.iter_pos shr_1 52
                  {| shr_m := Z.pos (Pos.iter xO m 52); shr_r := false; shr_s := false |}
                = {| shr_m := Z.pos m; shr_r := false; shr_s := false |}) by reflexivity.
  assert (H51 : SpecFloat.iter_pos shr_1 51
                  {| shr_m := Z.pos (Pos.iter xO m 52); shr_r := false; shr_s := false |}
                = {| shr_m := Z.pos m~0; shr_r := false; shr_s := false |}) by reflexivity.
  assert (H50 : SpecFloat.iter_pos shr_1 50
                  {| shr_m := Z.pos (Pos.iter xO m 52); shr_r := false; shr_s := false |}
                = {| shr_m := Z.pos m~0~0; shr_r := false; shr_s := false |}) by reflexivity.
  destruct (D =? 53) eqn:E53; [apply Z.eqb_eq in E53|apply Z.eqb_neq in E53].
  - replace (Z.max (D + 52 + (e + -50) - 53) (3 - 1024 - 53) - (e + -50)) with 52 by lia.
    cbn [shr]. rewrite H52. cbn [shr_m loc_of_shr_record round_nearest_even Zdigits2].
    fold D.
    replace (Z.max (D + (e + -50 + 52) - 53) (3 - 1024 - 53) - (e + -50 + 52)) with 0 by lia.
    cbn [shr shr_m]. replace (e + -50 + 52) with (e + 2) by lia. reflexivity.
  - destruct (D =? 52) eqn:E52; [apply Z.eqb_eq in E52|apply Z.eqb_neq in E52].
    + replace (Z.max (D + 52 + (e + -50) - 53) (3 - 1024 - 53) - (e + -50)) with 51 by lia.
      cbn [shr]. rewrite H51. cbn [shr_m loc_of_shr_record round_nearest_even Zdigits2 digits2_pos].
      rewrite Pos2Z.inj_succ. fold D.
      replace (Z.max (Z.succ D + (e + -50 + 51) - 53) (3 - 1024 - 53) - (e + -50 + 51)) with 0 by lia.
      cbn [shr shr_m]. replace (e + -50 + 51) with (e + 1) by lia.
      replace (e + 1 <=? 1024 - 53) with true by (symmetry; apply Z.leb_le; lia).
      reflexivity.
    + replace (Z.max (D + 52 + (e + -50) - 53) (3 - 1024 - 53) - (e + -50)) with 50 by lia.
      cbn [shr]. rewrite H50. cbn [shr_m loc_of_shr_record round_nearest_even Zdigits2 digits2_pos].
      rewrite !Pos2Z.inj_succ. fold D.
      replace (Z.max (Z.succ (Z.succ D) + (e + -50 + 50) - 53) (3 - 1024 - 53) - (e + -50 + 50)) with 0 by lia.
      cbn [shr shr_m]. replace (e + -50 + 50) with e by lia.
      replace (e <=? 1024 - 53) with true by (symmetry; apply Z.leb_le; lia).
      reflexivity.
Qed.

Lemma pow2_split (e k : Z) : 0 <= k -> 0 <= e -> 2 ^ (e + k) = 2 ^ k * 2 ^ e.
Proof. intros. rewrite Z.pow_add_r by lia. lia. Qed.

Lemma exact_finite_scaled (s : bool) (m m' : positive) (e k j : Z) :
  0 <= k -> 0 <= j -> Z.pos m' = 2 ^ j * Z.pos m -> k + j = 2 ->
  let sgn (p : positive) := if s then Z.neg p else Z.pos p in
  Js.quadrupled
    (if 0 <=? e then Js.RFin (sgn m * 2 ^ e) 1 else Js.RFin (sgn m) (2 ^ (- e)))
    (if 0 <=? e + k then Js.RFin (sgn m' * 2 ^ (e + k)) 1 else Js.RFin (sgn m') (2 ^ (- (e + k)))).
Proof.
  intros Hk Hj Hm Hkj sgn.
  assert (Hs : sgn m' = 2 ^ j * sgn m) by (unfold sgn; destruct s; lia).
  destruct (0 <=? e) eqn:He; [apply Z.leb_le in He|apply Z.leb_gt in He].
  - replace (0 <=? e + k) with true by (symmetry; apply Z.leb_le; lia).
    constructor. rewrite Hs, pow2_split by lia.
    assert (H4 : 2 ^ j * 2 ^ k = 4)
      by (rewrite <- Z.pow_add_r by lia; replace (j + k) with 2 by lia; reflexivity).
    transitivity (2 ^ j * 2 ^ k * (sgn m * 2 ^ e)); [ring | rewrite H4; ring].
  - destruct (0 <=? e + k) eqn:Hek; [apply Z.leb_le in Hek|apply Z.leb_gt in Hek].
    + constructor. rewrite Hs.
      assert (H4 : 2 ^ j * 2 ^ (e + k) * 2 ^ (- e) = 4).
      { rewrite <- !Z.pow_add_r by lia. replace (j + (e + k) + - e) with 2 by lia. reflexivity. }
      transitivity (2 ^ j * 2 ^ (e + k) * 2 ^ (- e) * sgn m); [ring | rewrite H4; ring].
    + constructor. rewrite Hs.
      assert (H4 : 2 ^ j * 2 ^ (- e) = 4 * 2 ^ (- (e + k))).
      { change 4 with (2 ^ 2). rewrite <- !Z.pow_add_r by lia. f_equal. lia. }
      transitivity (2 ^ j * 2 ^ (- e) * sgn m); [ring | rewrite H4; ring].
Qed.

Lemma exact_times4 (x : Js.number) : Js.quadrupled (Js.exact x) (Js.exact (x * 4)%float).
Proof.
  unfold Js.exact. rewrite FloatAxioms.mul_spec, Prim2SF_four.
  pose proof (FloatAxioms.Prim2SF_valid x) as Hv.
  destruct (Prim2SF x) as [s|s| |s m e]; cbn [valid_binary] in Hv.
  - cbn. constructor. lia.
  - cbn. rewrite xorb_false_r. constructor.
  - cbn. constructor.
  - rewrite SFmul_four by exact Hv. unfold Js.times4.
    destruct (Z.pos (digits2_pos m) =? 53).
    + destruct (e + 2 <=? 971); [|destruct (0 <=? e); constructor].
      apply (exact_finite_scaled s m m e 2 0); lia.
    + destruct (Z.pos (digits2_pos m) =? 52).
      * apply (exact_finite_scaled s m (m~0) e 1 1); lia.
      * pose proof (exact_finite_scaled s m (m~0~0) e 0 2) as H.
        cbv zeta in H. rewrite !Z.add_0_r in H. apply H; lia.
Qed.

Lemma div_same_fraction (a d' b d : Z) :
  0 < d -> 0 < d' -> a * d = b * d' -> a / d' = b / d.
Proof.
  intros Hd Hd' H.
  pose proof (Z.div_mod b d ltac:(lia)) as Hb.
  pose proof (Z.mod_pos_bound b d Hd) as Hm.
  set (q := b / d) in *.
  assert (Hlo : q * d' <= a).
  { apply (Z.mul_le_mono_pos_r _ _ d Hd). nia. }
  assert (Hhi : a < (q + 1) * d').
  { apply (Z.mul_lt_mono_pos_r d _ _ Hd). nia. }
  symmetry. apply Z.div_unique with (r := a - q * d'); lia.
Qed.

Lemma quot_same_fraction (a d' b d : Z) :
  0 < d -> 0 < d' -> a * d = b * d' -> Z.quot a d' = Z.quot b d.
Proof.
  intros Hd Hd' H.
  destruct (Z.le_gt_cases 0 a) as [Ha|Ha].
  - assert (0 <= b).
    { destruct (Z.le_gt_cases 0 b) as [|Hb]; [assumption|].
      pose proof (Z.mul_neg_pos b d' Hb Hd'). pose proof (Z.mul_nonneg_nonneg a d). lia. }
    rewrite !Z.quot_div_nonneg by lia. apply div_same_fraction; assumption.
  - assert (b < 0).
    { destruct (Z.le_gt_cases 0 b) as [Hb|]; [|assumption].
      pose proof (Z.mul_neg_pos a d Ha Hd). pose proof (Z.mul_nonneg_nonneg b d'). lia. }
    assert (Hneg : forall x y, x < 0 -> 0 < y -> Z.quot x y = - (- x / y)).
    { intros x y Hx Hy. rewrite <- (Z.quot_div_nonneg (- x) y), Z.quot_opp_l by lia. lia. }
    rewrite !Hneg by assumption. f_equal.
    apply div_same_fraction; [lia|lia|]. rewrite !Z.mul_opp_l. f_equal. exact H.
Qed.

Lemma ToIndex_times4 (size : Js.number) (n d len : Z) :
  Js.exact size = Js.RFin n d ->
  Js.ToIndex (size * 4)%float = Js.ok len ->
  len = Z.quot (4 * n) d /\ 0 <= len.
Proof.
  intros Hx. pose proof (exact_times4 size) as Hq. rewrite Hx in Hq.
  pose proof (exact_den_pos _ _ _ Hx) as Hd.
  unfold Js.ToIndex. inversion Hq as [| |n0 d0 n' d' Heq E1 E2|n0 d0 s E1 E2]; subst.
  - symmetry in E2. pose proof (exact_den_pos _ _ _ E2) as Hd'.
    destruct ((0 <=? Z.quot n' d') && (Z.quot n' d' <=? 2 ^ 53 - 1)) eqn:Hr; [|discriminate].
    intros [= <-]. apply andb_true_iff in Hr as [Hr _]. apply Z.leb_le in Hr.
    split; [|exact Hr]. apply quot_same_fraction; lia.
  - discriminate.
Qed.

Lemma raster_covered (size : Js.number) (len : Z) (k : nat) :
  Js.ToIndex (size * 4)%float = Js.ok len ->
  Js.iterations size = Some k ->
  0 <= len <= 4 * Z.of_nat k.
Proof.
  intros Hlen Hk. pose proof (exact_times4 size) as Hq.
  destruct (Js.exact size) as [|s|n d] eqn:Hx.
  - assert (Hy : Js.exact (size * 4)%float = Js.RNaN) by (inversion Hq; congruence).
    unfold Js.ToIndex in Hlen. rewrite Hy in Hlen. injection Hlen as <-. lia.
  - assert (Hy : Js.exact (size * 4)%float = Js.RInf s) by (inversion Hq; congruence).
    unfold Js.ToIndex in Hlen. rewrite Hy in Hlen. discriminate.
  - destruct (ToIndex_times4 _ _ _ _ Hx Hlen) as [-> Hpos].
    pose proof (exact_den_pos _ _ _ Hx) as Hd.
    unfold Js.iterations in Hk. rewrite Hx in Hk.
    destruct (2 ^ 53 * d <? n); [discriminate|]. injection Hk as <-.
    split; [exact Hpos|].
    destruct (Z.le_gt_cases n 0) as [Hn|Hn].
    + assert (Z.quot (4 * n) d <= 0) by (apply Z.quot_le_upper_bound; lia). lia.
    + rewrite Z.quot_div_nonneg by lia.
      assert (Hc : n <= - (- n / d) * d).
      { pose proof (Z.div_mod (- n) d ltac:(lia)). pose proof (Z.mod_pos_bound (- n) d Hd). nia. }
      assert (0 <= - (- n / d)) by nia.
      rewrite Z2Nat.id by lia.
      apply Z.div_le_upper_bound; [lia|]. nia.
Qed.

(** A raster that can be allocated is one the recolouring loop walks in
    finitely many steps. *)
Lemma iterations_defined (size : Js.number) (len : Z) :
  Js.ToIndex (size * 4)%float = Js.ok len -> exists k, Js.iterations size = Some k.
Proof.
  intros Hlen. pose proof (exact_times4 size) as Hq.
  unfold Js.iterations.
  destruct (Js.exact size) as [|s|n d] eqn:Hx.
  - eauto.
  - assert (Hy : Js.exact (size * 4)%float = Js.RInf s) by (inversion Hq; congruence).
    unfold Js.ToIndex in Hlen. rewrite Hy in Hlen. discriminate.
  - destruct (ToIndex_times4 _ _ _ _ Hx Hlen) as [Hl Hpos].
    pose proof (exact_den_pos _ _ _ Hx) as Hd.
    destruct (2 ^ 53 * d <? n) eqn:Hbig; [|eauto]. exfalso.
    apply Z.ltb_lt in Hbig.
    unfold Js.ToIndex in Hlen.
    remember (Js.exact (size * 4)%float) as y eqn:Hy.
    inversion Hq as [| |n0 d0 n' d' Heq E1 E2|n0 d0 s E1 E2]; subst y.
    + rewrite <- E2 in Hlen.
      destruct ((0 <=? Z.quot n' d') && (Z.quot n' d' <=? 2 ^ 53 - 1)) eqn:Hr; [|discriminate].
      injection Hlen as Hlen. apply andb_true_iff in Hr as [_ Hr]. apply Z.leb_le in Hr.
      rewrite Hlen, Hl in Hr. rewrite Z.quot_div_nonneg in Hr by lia.
      assert (2 ^ 53 <= 4 * n / d) by (apply Z.div_le_lower_bound; lia). lia.
    + rewrite <- E2 in Hlen. discriminate.
Qed.

Lemma SFmul_same_number (X X' Y Y' : spec_float) :
  Js.same_number X X' -> Js.same_number Y Y' ->
  Js.same_number (SF64mul X Y) (SF64mul X' Y').
Proof.
  intros [->|(s1 & s2 & -> & ->)] [->|(t1 & t2 & -> & ->)].
  - left. reflexivity.
  - destruct X' as [s|s| |s m e]; cbn; try (left; reflexivity); right; eauto.
  - destruct Y' as [s|s| |s m e]; cbn; try (left; reflexivity); right; eauto.
  - cbn. right. eauto.
Qed.

Lemma exact_same_number (x y : Js.number) :
  Js.same_number (Prim2SF x) (Prim2SF y) -> Js.exact x = Js.exact y.
Proof.
  unfold Js.exact. intros [->|(s1 & s2 & -> & ->)]; reflexivity.
Qed.

Lemma eqb_same_number (x y : Js.number) :
  (x =? y)%float = true -> Js.same_number (Prim2SF x) (Prim2SF y).
Proof. rewrite FloatAxioms.eqb_spec. apply SFeqb_true. Qed.

Lemma digits2_size (p : positive) : digits2_pos p = Pos.size p.
Proof. induction p as [p IH|p IH|]; cbn; congruence. Qed.

(** A mantissa of 53 digits lies between 2^52 and 2^53. *)
Lemma mantissa_bounds (m : positive) :
  Z.pos (digits2_pos m) = 53 -> 2 ^ 52 <= Z.pos m < 2 ^ 53.
Proof.
  rewrite digits2_size. intros H.
  pose proof (Pos.size_gt m) as Hgt. pose proof (Pos.size_le m) as Hle.
  assert (Hs : Pos.size m = 53%positive) by (injection H; auto).
  rewrite Hs in Hgt, Hle. clear H Hs.
  change (2 ^ 53)%positive with 9007199254740992%positive in *.
  change (2 ^ 53) with 9007199254740992. change (2 ^ 52) with 4503599627370496.
  apply Pos2Z.pos_lt_pos in Hgt. apply Pos2Z.pos_le_pos in Hle.
  change (Z.pos m~0) with (2 * Z.pos m) in Hle. lia.
Qed.

Lemma normal_mantissa (m : positive) (e : Z) :
  bounded prec emax m e = true -> 0 <= e -> Z.pos (digits2_pos m) = 53.
Proof.
  unfold bounded, canonical_mantissa, fexp, SpecFloat.emin, prec, emax.
  intros H He. apply andb_true_iff in H as [Hc _]. apply Z.eqb_eq in Hc. lia.
Qed.

Lemma scaled_mantissa_differs (m m' : positive) (e k : Z) :
  2 ^ 52 <= Z.pos m < 2 ^ 53 -> 2 ^ 52 <= Z.pos m' < 2 ^ 53 -> 0 <= e -> 0 < k ->
  Z.pos m * 2 ^ e = Z.pos m' * 2 ^ (e + k) -> False.
Proof.
  intros Bm Bm' He Hk Hm.
  assert (Hm' : Z.pos m * 2 ^ e = Z.pos m' * 2 ^ k * 2 ^ e)
    by (rewrite Hm, Z.pow_add_r by lia; ring).
  apply Z.mul_cancel_r in Hm'; [|apply Z.pow_nonzero; lia].
  assert (H2 : 2 ^ 1 <= 2 ^ k) by (apply Z.pow_le_mono_r; lia).
  change (2 ^ 1) with 2 in H2.
  assert (Z.pos m' * 2 <= Z.pos m' * 2 ^ k) by (apply Z.mul_le_mono_nonneg_l; lia).
  change (2 ^ 53) with (2 * 2 ^ 52) in Bm. lia.
Qed.

Lemma SFeqb_refl (X : spec_float) : X <> S754_nan -> SFeqb X X = true.
Proof.
  unfold SFeqb. destruct X as [s|s| |s m e]; cbn; intros H; try reflexivity.
  - destruct s; reflexivity.
  - congruence.
  - destruct s; rewrite Z.compare_refl, Pos.compare_cont_refl; reflexivity.
Qed.

(** Numbers of the same value have equal representations, or are two
    zeros. *)
Lemma exact_inj (x y : Js.number) :
  Js.exact x = Js.exact y -> Js.same_number (Prim2SF x) (Prim2SF y).
Proof.
  unfold Js.exact, Js.same_number.
  pose proof (FloatAxioms.Prim2SF_valid x) as Vx.
  pose proof (FloatAxioms.Prim2SF_valid y) as Vy.
  destruct (Prim2SF x) as [s|s| |s m e], (Prim2SF y) as [s'|s'| |s' m' e'];
    cbn [valid_binary] in Vx, Vy; try discriminate; eauto;
    try (destruct (0 <=? e'); discriminate); try (destruct (0 <=? e); discriminate).
  - destruct (0 <=? e') eqn:He'; [intros [= Hn]|intros [= Hn Hd]]; exfalso.
    + apply Z.leb_le in He'. assert (0 < 2 ^ e') by (apply Z.pow_pos_nonneg; lia).
      destruct s'; nia.
    + apply Z.leb_gt in He'.
      assert (2 ^ 1 <= 2 ^ (- e')) by (apply Z.pow_le_mono_r; lia).
      change (2 ^ 1) with 2 in *. lia.
  - intros [= ->]. auto.
  - destruct (0 <=? e) eqn:He; [intros [= Hn]|intros [= Hn Hd]]; exfalso.
    + apply Z.leb_le in He. assert (0 < 2 ^ e) by (apply Z.pow_pos_nonneg; lia).
      destruct s; nia.
    + apply Z.leb_gt in He.
      assert (2 ^ 1 <= 2 ^ (- e)) by (apply Z.pow_le_mono_r; lia).
      change (2 ^ 1) with 2 in *. lia.
  - destruct (0 <=? e) eqn:He, (0 <=? e') eqn:He'.
    + intros [= Hn]. apply Z.leb_le in He, He'.
      pose proof (mantissa_bounds _ (normal_mantissa _ _ Vx He)) as Bm.
      pose proof (mantissa_bounds _ (normal_mantissa _ _ Vy He')) as Bm'.
      assert (Hs : s = s').
      { assert (0 < 2 ^ e) by (apply Z.pow_pos_nonneg; lia).
        assert (0 < 2 ^ e') by (apply Z.pow_pos_nonneg; lia).
        destruct s, s'; try reflexivity; nia. }
      subst s'.
      assert (Hm : Z.pos m * 2 ^ e = Z.pos m' * 2 ^ e') by (destruct s; lia).
      assert (He2 : e = e').
      { destruct (Z.lt_trichotomy e e') as [Hlt|[Hee|Hgt]]; [exfalso|exact Hee|exfalso].
        - apply (scaled_mantissa_differs m m' e (e' - e)); try assumption; try lia.
          replace (e + (e' - e)) with e' by lia. exact Hm.
        - apply (scaled_mantissa_differs m' m e' (e - e')); try assumption; try lia.
          replace (e' + (e - e')) with e by lia. symmetry. exact Hm. }
      subst e'. assert (Hpow : 2 ^ e <> 0) by (apply Z.pow_nonzero; lia).
      apply Z.mul_cancel_r in Hm; [|exact Hpow]. left. congruence.
    + intros [= Hn Hd]. exfalso. apply Z.leb_gt in He'.
      assert (2 ^ 1 <= 2 ^ (- e')) by (apply Z.pow_le_mono_r; lia).
      change (2 ^ 1) with 2 in *. lia.
    + intros [= Hn Hd]. exfalso. apply Z.leb_gt in He.
      assert (2 ^ 1 <= 2 ^ (- e)) by (apply Z.pow_le_mono_r; lia).
      change (2 ^ 1) with 2 in *. lia.
    + intros [= Hn Hd]. apply Z.leb_gt in He, He'.
      assert (e = e') by (apply Z.pow_inj_r in Hd; lia). subst e'.
      left. destruct s, s'; try discriminate; congruence.
Qed.

(** The strict comparison [===] of two numbers holds exactly when they have
    the same value, not-a-number apart: it differs from every number. *)
Lemma strict_equal_iff (x y : Js.number) :
  Js.exact x <> Js.RNaN ->
  (x =? y)%float = true <-> Js.exact x = Js.exact y.
Proof.
  intros Hnan. split.
  - intros H. apply exact_same_number, eqb_same_number. exact H.
  - intros H. rewrite FloatAxioms.eqb_spec.
    assert (Hx : Prim2SF x <> S754_nan).
    { intros E. apply Hnan. unfold Js.exact. rewrite E. reflexivity. }
    destruct (exact_inj _ _ H) as [<-|(s1 & s2 & -> & ->)].
    + apply SFeqb_refl. exact Hx.
    + reflexivity.
Qed.

(** Strictly equal factors give products of the same value, also after
    the multiplication by four. *)
Lemma exact_mul_congr (a a' b b' : Js.number) :
  (a =? a')%float = true -> (b =? b')%float = true ->
  Js.exact (a * b)%float = Js.exact (a' * b')%float
  /\ Js.exact (a * b * 4)%float = Js.exact (a' * b' * 4)%float.
Proof.
  intros Ha Hb.
  assert (H : Js.same_number (Prim2SF (a * b)%float) (Prim2SF (a' * b')%float)).
  { rewrite !FloatAxioms.mul_spec. apply SFmul_same_number; apply eqb_same_number; assumption. }
  split; [apply exact_same_number; exact H|].
  apply exact_same_number. rewrite !FloatAxioms.mul_spec.
  apply SFmul_same_number; [rewrite <- !FloatAxioms.mul_spec; exact H | left; reflexivity].
Qed.

Lemma all_below_spec (n : nat) (p : Z -> bool) :
  Js.all_below n p = true -> forall z, 0 <= z < Z.of_nat n -> p z = true.
Proof.
  induction n as [|k IH]; cbn [Js.all_below]; intros H z Hz; [lia|].
  apply andb_true_iff in H as [Hk Hrest].
  destruct (Z.eq_dec z (Z.of_nat k)) as [->|Hne]; [exact Hk|].
  apply IH; [exact Hrest | lia].
Qed.

(** [value / 100] is 1 only for the value 100. *)
Lemma ratio_is_one (value : Z) :
  0 <= value <= 100 ->
  (Js.of_Z value / 100 =? 1)%float = (value =? 100).
Proof.
  intros H.
  assert (Hall : Js.all_below 101
            (fun v => Bool.eqb (Js.of_Z v / 100 =? 1)%float (v =? 100)) = true)
    by (vm_compute; reflexivity).
  apply Bool.eqb_prop. apply (all_below_spec _ _ Hall). lia.
Qed.

(** A byte-valued channel survives interpolation at [t = 0 / 100] and the
    store that follows. *)
Lemma byte_at_zero (lo hi : Z) :
  0 <= lo <= 255 -> 0 <= hi <= 255 ->
  Js.ToUint8Clamp (Js.of_Z lo + (Js.of_Z hi - Js.of_Z lo) * (Js.of_Z 0 / 100))%float = lo.
Proof.
  intros Hlo Hhi.
  assert (Hall : Js.all_below 256 (fun a => Js.all_below 256 (fun b =>
            Js.ToUint8Clamp (Js.of_Z a + (Js.of_Z b - Js.of_Z a) * (Js.of_Z 0 / 100))%float
            =? a)) = true)
    by (vm_compute; reflexivity).
  apply Z.eqb_eq.
  apply (all_below_spec _ _ (all_below_spec _ _ Hall lo ltac:(lia)) hi). lia.
Qed.

End JsFacts.

(** ** Properties of the pipeline *)

Section Properties.

Variable stringToRgba : string -> ColorRGBA.
Variable rgbaToCssString : ColorRGBA -> string.
Variable SRGBToLinear : Js.number -> Js.number.
Variable normalizeFrameId : string -> string.
Variable normalizeFloat32MultiArray : PartialFloat32MultiArray -> Float32MultiArray.

Local Abbreviation update := (_updateGridMapRenderable stringToRgba SRGBToLinear normalizeFrameId).
Local Abbreviation palette := (palette stringToRgba SRGBToLinear).
Local Abbreviation updateTexture := (updateTexture stringToRgba SRGBToLinear).
Local Abbreviation handle :=
  (handleOccupancyGrid stringToRgba rgbaToCssString SRGBToLinear normalizeFrameId
     normalizeFloat32MultiArray).

(** *** The raster after a recolouring pass *)

Lemma element_coerces_to_zero (data : list Float32MultiArray) (i : nat) :
  Js.ToInt32 (Js.ToNumber (element data i)) = 0.
Proof. unfold element. destruct (data !! i); reflexivity. Qed.

Lemma length_storeCell (rgba : list Z) (offset : nat) (c : ColorRGBA) :
  length (storeCell rgba offset c) = length rgba.
Proof. unfold storeCell, store. rewrite !length_insert. reflexivity. Qed.

Lemma length_recolor (s : Scratch) (data : list Float32MultiArray) (rgba : list Z) (i n : nat) :
  length (recolor s data rgba i n) = length rgba.
Proof.
  revert rgba i. induction n as [|n IH]; intros rgba i; cbn [recolor]; [reflexivity|].
  rewrite IH. apply length_storeCell.
Qed.

Lemma pixelAt_storeCell_eq (rgba : list Z) (p : nat) (c : ColorRGBA) :
  (p * 4 + 3 < length rgba)%nat -> pixelAt (storeCell rgba (p * 4) c) p = Some (clamped c).
Proof.
  intros H. unfold pixelAt, storeCell, store.
  repeat (first [ rewrite list_lookup_insert_eq by (rewrite ?length_insert; lia)
                | rewrite list_lookup_insert_ne by lia ]; cbn [mbind option_bind]).
  reflexivity.
Qed.

Lemma pixelAt_storeCell_ne (rgba : list Z) (p q : nat) (c : ColorRGBA) :
  p <> q -> pixelAt (storeCell rgba (q * 4) c) p = pixelAt rgba p.
Proof.
  intros H. unfold pixelAt, storeCell, store.
  rewrite !list_lookup_insert_ne by lia. reflexivity.
Qed.

Lemma recolor_data_irrelevant (s : Scratch) (data data' : list Float32MultiArray)
  (rgba : list Z) (i n : nat) :
  recolor s data rgba i n = recolor s data' rgba i n.
Proof.
  revert rgba i. induction n as [|n IH]; intros rgba i; cbn [recolor]; [reflexivity|].
  rewrite !element_coerces_to_zero. apply IH.
Qed.

Lemma recolor_pixel_outside (s : Scratch) (data : list Float32MultiArray)
  (rgba : list Z) (i n p : nat) :
  ~ (i <= p < i + n)%nat -> pixelAt (recolor s data rgba i n) p = pixelAt rgba p.
Proof.
  revert rgba i. induction n as [|n IH]; intros rgba i H; cbn [recolor]; [reflexivity|].
  rewrite IH by lia. apply pixelAt_storeCell_ne. lia.
Qed.

Lemma recolor_pixel_inside (s : Scratch) (data : list Float32MultiArray)
  (rgba : list Z) (i n p : nat) :
  (i <= p < i + n)%nat -> (p * 4 + 3 < length rgba)%nat ->
  pixelAt (recolor s data rgba i n) p = Some (clamped (cellColor s 0)).
Proof.
  revert rgba i. induction n as [|n IH]; intros rgba i H Hlen; cbn [recolor]; [lia|].
  rewrite element_coerces_to_zero.
  destruct (decide (p = i)) as [->|Hne].
  - rewrite recolor_pixel_outside by lia. apply pixelAt_storeCell_eq. exact Hlen.
  - apply IH; [lia|]. rewrite length_storeCell. exact Hlen.
Qed.

(** *** The colour ramp *)

Lemma cellColor_interpolates (s : Scratch) (value : Z) :
  0 <= value < 100 ->
  cellColor s value
  = interpolate (tempMinColor s) (tempMaxColor s) (Js.of_Z value / 100)%float.
Proof.
  intros H. unfold cellColor.
  destruct (value =? -1) eqn:E1; [apply Z.eqb_eq in E1; lia|].
  replace ((0 <=? value) && (value <=? 100)) with true
    by (symmetry; apply andb_true_iff; split; apply Z.leb_le; lia).
  rewrite JsFacts.ratio_is_one by lia.
  destruct (value =? 100) eqn:E2; [apply Z.eqb_eq in E2; lia|].
  reflexivity.
Qed.

(** C1: for every cell value and every settings configuration the per-cell
    colour is the (linearized) unknown colour at -1, the interpolation of
    the min and max colours at [t = value / 100] for values 0 to 99, fully
    transparent black at 100 whatever the max colour, and the invalid
    colour for every other value. *)
Theorem cellColor_ramp (settings : LayerSettingsGridMap) (value : Z) :
  let s := palette settings in
  (value = -1 -> cellColor s value = tempUnknownColor s)
  /\ (0 <= value < 100 ->
      cellColor s value
      = interpolate (tempMinColor s) (tempMaxColor s) (Js.of_Z value / 100)%float)
  /\ (value = 100 -> cellColor s value = transparentBlack)
  /\ (value < -1 \/ 100 < value -> cellColor s value = tempInvalidColor s).
Proof.
  intros s. unfold cellColor. repeat split.
  - intros ->. reflexivity.
  - intros H. fold (cellColor s value). apply cellColor_interpolates. exact H.
  - intros ->. reflexivity.
  - intros H.
    destruct (value =? -1) eqn:E1; [apply Z.eqb_eq in E1; lia|].
    replace ((0 <=? value) && (value <=? 100)) with false; [reflexivity|].
    symmetry. apply andb_false_iff. rewrite !Z.leb_gt. lia.
Qed.

(** *** Layer validation *)

Lemma checkLayers_passing (width height : Js.number) (layers : list Float32MultiArray) :
  Forall (layerPasses (width * height)%float) layers ->
  forall rest, checkLayers width height (layers ++ rest) = checkLayers width height rest.
Proof.
  induction 1 as [|layer layers [Hdim Hsize] _ IH]; intros rest; [reflexivity|].
  cbn [app checkLayers].
  replace (length (dim (layout layer)) <? 2)%nat with false
    by (symmetry; apply Nat.ltb_ge; exact Hdim).
  rewrite Hsize. cbn. apply IH.
Qed.

Lemma checkLayers_None (width height : Js.number) (layers : list Float32MultiArray) :
  checkLayers width height layers = None ->
  Forall (layerPasses (width * height)%float) layers.
Proof.
  induction layers as [|layer layers IH]; cbn [checkLayers]; intros H; [constructor|].
  destruct (length (dim (layout layer)) <? 2)%nat eqn:Hdim; [discriminate|].
  destruct (layerSize layer =? width * height)%float eqn:Hsize; [|discriminate].
  constructor; [|apply IH; exact H].
  split; [apply Nat.ltb_ge; exact Hdim | exact Hsize].
Qed.

(** C2: the layers are checked in order and the first offending layer
    decides, whatever follows it: fewer than two declared dimensions is the
    wrong-number-of-dimensions failure, otherwise a sum of declared sizes
    different from [width * height] is the size failure; a list whose every
    layer has two dimensions or more and the right sum passes. *)
Theorem checkLayers_first_failure (width height : Js.number)
  (passing : list Float32MultiArray) (layer : Float32MultiArray)
  (rest : list Float32MultiArray) :
  Forall (layerPasses (width * height)%float) passing ->
  ((length (dim (layout layer)) < 2)%nat ->
     checkLayers width height (passing ++ layer :: rest) = Some WrongNumberOfDimensions)
  /\ ((2 <= length (dim (layout layer)))%nat ->
      (layerSize layer =? width * height)%float = false ->
      checkLayers width height (passing ++ layer :: rest)
      = Some (NotEqualToSize width height))
  /\ checkLayers width height passing = None.
Proof.
  intros Hpass. repeat split.
  - intros Hdim. rewrite checkLayers_passing by exact Hpass. cbn [checkLayers].
    replace (length (dim (layout layer)) <? 2)%nat with true
      by (symmetry; apply Nat.ltb_lt; exact Hdim).
    reflexivity.
  - intros Hdim Hsize. rewrite checkLayers_passing by exact Hpass. cbn [checkLayers].
    replace (length (dim (layout layer)) <? 2)%nat with false
      by (symmetry; apply Nat.ltb_ge; exact Hdim).
    rewrite Hsize. reflexivity.
  - rewrite <- (app_nil_r passing). rewrite checkLayers_passing by exact Hpass.
    reflexivity.
Qed.

(** *** One update with a grid that passes the layer check *)

Lemma update_valid (renderable : Renderable) (gridMap : GridMap) (receiveTime : Z)
  (env : Env) (renderable' : Renderable) (env' : Env) :
  checkLayers (gridWidth gridMap) (gridHeight gridMap) (data gridMap) = None ->
  update renderable gridMap receiveTime env = Js.ok (renderable', env') ->
  let s := palette (settings renderable) in
  exists n, Js.iterations (gridSize gridMap) = Some n
  /\ settings renderable' = settings renderable
  /\ renderables env' = renderables env
  /\ if resized gridMap (texture renderable) then
       exists len, Js.ToIndex (gridSize gridMap * 4)%float = Js.ok len
       /\ texture renderable'
          = {| tex_id := allocated env;
               image_data := recolor s (data gridMap) (repeat 0 (Z.to_nat len)) 0 n;
               image_width := gridWidth gridMap;
               image_height := gridHeight gridMap;
               needsUpdate := true |}
       /\ map (material renderable') = allocated env
       /\ allocated env' = S (allocated env)
       /\ disposed env' = tex_id (texture renderable) :: disposed env
     else
       texture renderable'
       = {| tex_id := tex_id (texture renderable);
            image_data := recolor s (data gridMap) (image_data (texture renderable)) 0 n;
            image_width := image_width (texture renderable);
            image_height := image_height (texture renderable);
            needsUpdate := true |}
       /\ map (material renderable') = map (material renderable)
       /\ allocated env' = allocated env
       /\ disposed env' = disposed env.
Proof.
  intros Hvalid. unfold _updateGridMapRenderable, resized.
  change (length_y (info gridMap) / resolution (info gridMap))%float with (gridWidth gridMap).
  change (length_x (info gridMap) / resolution (info gridMap))%float with (gridHeight gridMap).
  rewrite Hvalid. cbn [texture settings material].
  destruct (negb (gridWidth gridMap =? image_width (texture renderable))%float
            || negb (gridHeight gridMap =? image_height (texture renderable))%float).
  - unfold createTexture, updateTexture, Js.bind, Js.ok, Js.throw, gridSize.
    destruct (Js.ToIndex _) as [len|e]; [|discriminate].
    destruct (Js.iterations _) as [n|]; [|discriminate].
    intros [= <- <-]. exists n. do 3 (split; [reflexivity|]).
    exists len. repeat split.
  - unfold updateTexture, Js.bind, Js.ok, Js.throw, gridSize.
    destruct (Js.iterations _) as [n|]; [|discriminate].
    intros [= <- <-]. exists n. repeat split.
Qed.

Lemma ToIndex_exact (x y : Js.number) :
  Js.exact x = Js.exact y -> Js.ToIndex x = Js.ToIndex y.
Proof. unfold Js.ToIndex. intros ->. reflexivity. Qed.

Lemma resized_false (gridMap : GridMap) (texture : DataTexture) :
  resized gridMap texture = false ->
  (gridWidth gridMap =? image_width texture)%float = true
  /\ (gridHeight gridMap =? image_height texture)%float = true.
Proof.
  unfold resized. intros H. apply orb_false_iff in H as [Hw Hh].
  apply negb_false_iff in Hw, Hh. split; assumption.
Qed.

(** The buffer of the texture an update leaves behind has the length the
    grid asks for, and the loop reaches every pixel of it. *)
Lemma update_valid_covers (renderable : Renderable) (gridMap : GridMap) (receiveTime : Z)
  (env : Env) (renderable' : Renderable) (env' : Env) (n : nat) :
  textureFits (texture renderable) ->
  checkLayers (gridWidth gridMap) (gridHeight gridMap) (data gridMap) = None ->
  update renderable gridMap receiveTime env = Js.ok (renderable', env') ->
  Js.iterations (gridSize gridMap) = Some n ->
  Js.ToIndex (gridSize gridMap * 4)%float
  = Js.ok (Z.of_nat (length (image_data (texture renderable'))))
  /\ (length (image_data (texture renderable')) <= 4 * n)%nat.
Proof.
  intros Hfit Hvalid Hup Hn.
  destruct (update_valid _ _ _ _ _ _ Hvalid Hup) as (n' & Hn' & _ & _ & Hcase).
  assert (n' = n) by congruence. subst n'.
  assert (Hlen : Js.ToIndex (gridSize gridMap * 4)%float
                 = Js.ok (Z.of_nat (length (image_data (texture renderable'))))).
  { destruct (resized gridMap (texture renderable)) eqn:Hres.
    - destruct Hcase as (len & Hlen & -> & _). cbn [image_data].
      rewrite length_recolor, repeat_length.
      pose proof (JsFacts.raster_covered _ _ _ Hlen Hn) as Hc.
      rewrite Z2Nat.id by lia. exact Hlen.
    - destruct Hcase as (-> & _). cbn [image_data]. rewrite length_recolor.
      destruct (resized_false _ _ Hres) as [Hw Hh].
      destruct (JsFacts.exact_mul_congr _ _ _ _ Hw Hh) as [_ H4].
      unfold gridSize. rewrite (ToIndex_exact _ _ H4). exact Hfit. }
  split; [exact Hlen|].
  pose proof (JsFacts.raster_covered _ _ _ Hlen Hn). lia.
Qed.

Lemma update_valid_fits (renderable : Renderable) (gridMap : GridMap) (receiveTime : Z)
  (env : Env) (renderable' : Renderable) (env' : Env) :
  textureFits (texture renderable) ->
  checkLayers (gridWidth gridMap) (gridHeight gridMap) (data gridMap) = None ->
  update renderable gridMap receiveTime env = Js.ok (renderable', env') ->
  textureFits (texture renderable').
Proof.
  intros Hfit Hvalid Hup.
  destruct (update_valid _ _ _ _ _ _ Hvalid Hup) as (n & Hn & _ & _ & Hcase).
  destruct (update_valid_covers _ _ _ _ _ _ _ Hfit Hvalid Hup Hn) as [Hlen _].
  unfold textureFits. rewrite <- Hlen.
  destruct (resized gridMap (texture renderable)) eqn:Hres.
  - destruct Hcase as (len & _ & -> & _). reflexivity.
  - destruct Hcase as (-> & _). cbn [image_width image_height].
    destruct (resized_false _ _ Hres) as [Hw Hh].
    destruct (JsFacts.exact_mul_congr _ _ _ _ Hw Hh) as [_ H4].
    symmetry. apply ToIndex_exact. exact H4.
Qed.

(** A grid that passes the layer check and whose raster can be allocated
    is one the update returns on. *)
Lemma update_returns (renderable : Renderable) (gridMap : GridMap) (receiveTime : Z)
  (env : Env) (len : Z) :
  checkLayers (gridWidth gridMap) (gridHeight gridMap) (data gridMap) = None ->
  Js.ToIndex (gridSize gridMap * 4)%float = Js.ok len ->
  exists renderable' env',
    update renderable gridMap receiveTime env = Js.ok (renderable', env').
Proof.
  intros Hvalid Hlen. destruct (JsFacts.iterations_defined _ _ Hlen) as [n Hn].
  unfold gridSize in Hlen, Hn. unfold _updateGridMapRenderable.
  change (length_y (info gridMap) / resolution (info gridMap))%float with (gridWidth gridMap).
  change (length_x (info gridMap) / resolution (info gridMap))%float with (gridHeight gridMap).
  rewrite Hvalid. cbn [texture settings material].
  destruct (negb (gridWidth gridMap =? image_width (texture renderable))%float
            || negb (gridHeight gridMap =? image_height (texture renderable))%float).
  - unfold createTexture, updateTexture, Js.bind. rewrite Hlen.
    cbv beta iota zeta. rewrite Hn. eauto.
  - unfold updateTexture, Js.bind. cbv beta iota zeta. rewrite Hn. eauto.
Qed.

(** Where the texture has to be replaced and the raster cannot be
    allocated, the update throws. *)
Lemma update_throws (renderable : Renderable) (gridMap : GridMap) (receiveTime : Z)
  (env : Env) (e : Js.error) :
  checkLayers (gridWidth gridMap) (gridHeight gridMap) (data gridMap) = None ->
  resized gridMap (texture renderable) = true ->
  Js.ToIndex (gridSize gridMap * 4)%float = Js.throw e ->
  update renderable gridMap receiveTime env = Js.throw e.
Proof.
  intros Hvalid Hres Hlen. unfold gridSize in Hlen. unfold resized in Hres.
  unfold _updateGridMapRenderable.
  change (length_y (info gridMap) / resolution (info gridMap))%float with (gridWidth gridMap).
  change (length_x (info gridMap) / resolution (info gridMap))%float with (gridHeight gridMap).
  rewrite Hvalid. cbn [texture settings material]. rewrite Hres.
  unfold createTexture, Js.bind. rewrite Hlen. reflexivity.
Qed.

(** C5: the recolouring loop reads [gridMap.data[i]], an element of the
    layer list, and its coercion to an integer is always 0.  So an update
    with a grid that passes the layer check leaves a raster whose every
    pixel is the interpolation at [t = 0 / 100], the linearized min colour,
    whatever cell values the layers carry. *)
Theorem recolor_ignores_cell_values (renderable : Renderable) (gridMap : GridMap)
  (receiveTime : Z) (env : Env) (len : Z) :
  textureFits (texture renderable) ->
  checkLayers (gridWidth gridMap) (gridHeight gridMap) (data gridMap) = None ->
  Js.ToIndex (gridSize gridMap * 4)%float = Js.ok len ->
  let s := palette (settings renderable) in
  let atZero := interpolate (tempMinColor s) (tempMaxColor s) (Js.of_Z 0 / 100)%float in
  exists renderable' env',
    update renderable gridMap receiveTime env = Js.ok (renderable', env')
    /\ (forall i, Js.ToInt32 (Js.ToNumber (element (data gridMap) i)) = 0)
    /\ (forall p, (p * 4 + 3 < length (image_data (texture renderable')))%nat ->
          pixelAt (image_data (texture renderable')) p = Some (clamped atZero))
    /\ (forall r g b a r' g' b' a',
          byteColor (tempMinColor s) r g b a -> byteColor (tempMaxColor s) r' g' b' a' ->
          clamped atZero = (r, g, b, a))
    /\ (forall layers,
          checkLayers (gridWidth gridMap) (gridHeight gridMap) layers = None ->
          exists renderable2 env2,
            update renderable (withData gridMap layers) receiveTime env
            = Js.ok (renderable2, env2)
            /\ texture renderable2 = texture renderable').
Proof.
  intros Hfit Hvalid Hlen s atZero.
  destruct (update_returns renderable gridMap receiveTime env len Hvalid Hlen)
    as (renderable' & env' & Hup).
  exists renderable', env'. split; [exact Hup|].
  destruct (update_valid _ _ _ _ _ _ Hvalid Hup) as (n & Hn & _ & _ & Hcase).
  destruct (update_valid_covers _ _ _ _ _ _ _ Hfit Hvalid Hup Hn) as [_ Hcov].
  split; [intros i; apply element_coerces_to_zero|].
  split; [|split].
  - intros p Hp. unfold atZero. rewrite <- (cellColor_interpolates s 0) by lia.
    fold s in Hcase.
    destruct (resized gridMap (texture renderable)).
    + destruct Hcase as (len' & _ & Htex & _). rewrite Htex in Hp, Hcov |- *.
      cbn [image_data] in *. rewrite length_recolor in Hp, Hcov.
      apply recolor_pixel_inside; lia.
    + destruct Hcase as (Htex & _). rewrite Htex in Hp, Hcov |- *.
      cbn [image_data] in *. rewrite length_recolor in Hp, Hcov.
      apply recolor_pixel_inside; lia.
  - intros r g b a r' g' b' a' [Hlo Emin] [Hhi Emax]. unfold atZero, clamped, interpolate.
    rewrite Emin, Emax. cbn [c_r c_g c_b c_a].
    rewrite !JsFacts.byte_at_zero by lia. reflexivity.
  - intros layers Hvalid2.
    destruct (update_returns renderable (withData gridMap layers) receiveTime env len
                Hvalid2 Hlen) as (renderable2 & env2 & Hup2).
    exists renderable2, env2. split; [exact Hup2|].
    destruct (update_valid renderable (withData gridMap layers) _ _ _ _ Hvalid2 Hup2)
      as (n2 & Hn2 & _ & _ & Hcase2).
    change (gridSize (withData gridMap layers)) with (gridSize gridMap) in *.
    change (resized (withData gridMap layers)) with (resized gridMap) in *.
    change (gridWidth (withData gridMap layers)) with (gridWidth gridMap) in *.
    change (gridHeight (withData gridMap layers)) with (gridHeight gridMap) in *.
    assert (En : Some n2 = Some n) by (rewrite <- Hn, <- Hn2; reflexivity).
    injection En as ->.
    fold s in Hcase, Hcase2. cbn [data withData] in Hcase2.
    destruct (resized gridMap (texture renderable)).
    + destruct Hcase as (len1 & Hlen1 & -> & _). destruct Hcase2 as (len2 & Hlen2 & -> & _).
      assert (El : @Js.ok Z len2 = Js.ok len1) by (rewrite <- Hlen1, <- Hlen2; reflexivity).
      injection El as ->.
      f_equal. apply recolor_data_irrelevant.
    + destruct Hcase as (-> & _). destruct Hcase2 as (-> & _).
      f_equal. apply recolor_data_irrelevant.
Qed.

(** *** Reallocation of the raster *)

(** Over two consecutive messages that pass the layer check, the second
    keeps the texture (same allocation, nothing disposed, buffer rewritten
    in place) exactly when its width and height equal the first's under the
    file's strict comparison [!==]; otherwise the old texture is disposed and
    a fresh one, sized to the new dimensions, is allocated and filled.  For
    dimensions that are numbers the comparison is that of their values; a
    dimension that is not a number never equals itself, which is the case
    the comment above the test ("The image dimensions changed") misses. *)
Theorem texture_reallocated_iff_resized (renderable0 : Renderable)
  (first second : GridMap) (t1 t2 : Z) (env0 : Env) (len1 len2 : Z) :
  (tex_id (texture renderable0) < allocated env0)%nat ->
  checkLayers (gridWidth first) (gridHeight first) (data first) = None ->
  Js.ToIndex (gridSize first * 4)%float = Js.ok len1 ->
  checkLayers (gridWidth second) (gridHeight second) (data second) = None ->
  Js.ToIndex (gridSize second * 4)%float = Js.ok len2 ->
  let differs :=
    negb (gridWidth second =? gridWidth first)%float
    || negb (gridHeight second =? gridHeight first)%float in
  exists renderable1 env1 renderable2 env2,
    update renderable0 first t1 env0 = Js.ok (renderable1, env1)
    /\ update renderable1 second t2 env1 = Js.ok (renderable2, env2)
    /\ let old := texture renderable1 in
       let new := texture renderable2 in
       let s := palette (settings renderable1) in
       (tex_id new = tex_id old <-> differs = false)
       /\ (differs = false ->
           allocated env2 = allocated env1
           /\ disposed env2 = disposed env1
           /\ map (material renderable2) = map (material renderable1)
           /\ image_width new = image_width old
           /\ image_height new = image_height old
           /\ exists n, Js.iterations (gridSize second) = Some n
                /\ image_data new = recolor s (data second) (image_data old) 0 n)
       /\ (differs = true ->
           disposed env2 = tex_id old :: disposed env1
           /\ tex_id new = allocated env1
           /\ allocated env2 = S (allocated env1)
           /\ map (material renderable2) = tex_id new
           /\ image_width new = gridWidth second
           /\ image_height new = gridHeight second
           /\ Z.of_nat (length (image_data new)) = len2
           /\ exists n, Js.iterations (gridSize second) = Some n
                /\ image_data new
                   = recolor s (data second) (repeat 0 (Z.to_nat len2)) 0 n)
       /\ (Js.exact (gridWidth second) <> Js.RNaN ->
           Js.exact (gridHeight second) <> Js.RNaN ->
           differs = false
           <-> Js.exact (gridWidth second) = Js.exact (gridWidth first)
               /\ Js.exact (gridHeight second) = Js.exact (gridHeight first)).
Proof.
  intros Hid Hvalid1 Hlen1 Hvalid2 Hlen2 differs.
  destruct (update_returns renderable0 first t1 env0 len1 Hvalid1 Hlen1)
    as (renderable1 & env1 & Hup1).
  destruct (update_returns renderable1 second t2 env1 len2 Hvalid2 Hlen2)
    as (renderable2 & env2 & Hup2).
  exists renderable1, env1, renderable2, env2.
  split; [exact Hup1|]. split; [exact Hup2|]. intros old new s.
  assert (Hvalue : Js.exact (gridWidth second) <> Js.RNaN ->
                   Js.exact (gridHeight second) <> Js.RNaN ->
                   differs = false
                   <-> Js.exact (gridWidth second) = Js.exact (gridWidth first)
                       /\ Js.exact (gridHeight second) = Js.exact (gridHeight first)).
  { intros Hw Hh. unfold differs.
    rewrite orb_false_iff, !negb_false_iff.
    rewrite (JsFacts.strict_equal_iff _ (gridWidth first) Hw).
    rewrite (JsFacts.strict_equal_iff _ (gridHeight first) Hh). reflexivity. }
  refine ((fun H : _ /\ _ /\ _ =>
             match H with
             | conj kept (conj inPlace replaced) =>
                 conj kept (conj inPlace (conj replaced Hvalue))
             end) _).
  clear Hvalue.
  destruct (update_valid _ _ _ _ _ _ Hvalid1 Hup1) as (n1 & _ & _ & _ & Hcase1).
  destruct (update_valid _ _ _ _ _ _ Hvalid2 Hup2) as (n2 & Hn2 & _ & _ & Hcase2).
  fold s old in Hcase2.
  assert (Hold : resized second old = differs /\ (tex_id old < allocated env1)%nat).
  { unfold old, differs, resized.
    destruct (resized first (texture renderable0)) eqn:Hres.
    - destruct Hcase1 as (len & _ & -> & _ & -> & _). cbn [image_width image_height tex_id].
      split; [reflexivity | lia].
    - destruct Hcase1 as (-> & _ & -> & _). cbn [image_width image_height tex_id].
      destruct (resized_false _ _ Hres) as [Hw Hh].
      rewrite (JsFacts.eqb_congr_r _ _ (gridWidth second) Hw).
      rewrite (JsFacts.eqb_congr_r _ _ (gridHeight second) Hh).
      split; [reflexivity | exact Hid]. }
  destruct Hold as [Hres Hlt]. rewrite Hres in Hcase2.
  destruct differs.
  - destruct Hcase2 as (len & Hlen & Htex & Hmap & Halloc & Hdisp).
    assert (El : @Js.ok Z len = Js.ok len2) by (rewrite <- Hlen, <- Hlen2; reflexivity).
    injection El as ->.
    fold new in Htex. split; [|split].
    + rewrite Htex. cbn [tex_id]. split; [lia | discriminate].
    + discriminate.
    + intros _. rewrite Htex. cbn [tex_id image_width image_height image_data].
      repeat (split; [assumption || reflexivity|]).
      split; [|exists n2; auto].
      rewrite length_recolor, repeat_length.
      apply Z2Nat.id, (JsFacts.ToIndex_nonneg _ _ Hlen2).
  - destruct Hcase2 as (Htex & Hmap & Halloc & Hdisp).
    fold new in Htex. split; [|split].
    + rewrite Htex. cbn [tex_id]. split; reflexivity.
    + intros _. rewrite Htex. cbn [tex_id image_width image_height image_data].
      repeat (split; [assumption || reflexivity|]). exists n2. auto.
    + discriminate.
Qed.

(** *** An update with a grid that fails the layer check *)

Lemma update_invalid (renderable : Renderable) (grid : GridMap) (time : Z) (env : Env)
  (message : Diagnostic) :
  checkLayers (gridWidth grid) (gridHeight grid) (data grid) = Some message ->
  update renderable grid time env
  = Js.ok ({| receiveTime := time;
              messageTime := toNanoSec (stamp (header grid));
              frameId := normalizeFrameId (frame_id (header grid));
              u_pose := pose (info grid);
              settings := settings renderable;
              topic := topic renderable;
              gridMap := grid;
              texture := texture renderable;
              material := material renderable;
              scale := scale renderable |},
           {| renderables := renderables env;
              config_topics := config_topics env;
              errors := errors env ++ [(topic renderable, INVALID_GRID_MAP, message)];
              allocated := allocated env;
              disposed := disposed env;
              scratch := scratch env |}).
Proof.
  intros Hinvalid. unfold _updateGridMapRenderable.
  change (length_y (info grid) / resolution (info grid))%float with (gridWidth grid).
  change (length_x (info grid) / resolution (info grid))%float with (gridHeight grid).
  rewrite Hinvalid. reflexivity.
Qed.

(** C3, as the code has it: when the layer check fails, one diagnostic is
    reported and the texture (the raster, its dimensions and identity), the
    material, the settings and the scale are left as they were, and nothing
    is allocated or disposed; the grid, pose, receive time, message time
    and frame id of the renderable are those of the new message. *)
Theorem update_invalid_keeps_raster (renderable : Renderable) (grid : GridMap)
  (time : Z) (env : Env) (message : Diagnostic) :
  checkLayers (gridWidth grid) (gridHeight grid) (data grid) = Some message ->
  exists renderable' env',
    update renderable grid time env = Js.ok (renderable', env')
    /\ errors env' = errors env ++ [(topic renderable, INVALID_GRID_MAP, message)]
    /\ (renderables env' = renderables env
        /\ config_topics env' = config_topics env
        /\ allocated env' = allocated env
        /\ disposed env' = disposed env
        /\ scratch env' = scratch env)
    /\ (texture renderable' = texture renderable
        /\ material renderable' = material renderable
        /\ settings renderable' = settings renderable
        /\ topic renderable' = topic renderable
        /\ scale renderable' = scale renderable)
    /\ (gridMap renderable' = grid
        /\ u_pose renderable' = pose (info grid)
        /\ receiveTime renderable' = time
        /\ messageTime renderable' = toNanoSec (stamp (header grid))
        /\ frameId renderable' = normalizeFrameId (frame_id (header grid))).
Proof.
  intros Hinvalid. eexists _, _.
  split; [apply update_invalid; exact Hinvalid|].
  cbn. repeat split.
Qed.

(** *** The size of the raster *)

(** C8, as the code has it: the texture made for a grid records the
    quotients [length_y / resolution] and [length_x / resolution] as they
    are, without rounding, and its zero-filled buffer has the integer part
    of four times their product as length. *)
Theorem createTexture_length (grid : GridMap) (env : Env) (texture : DataTexture)
  (env' : Env) :
  checkLayers (gridWidth grid) (gridHeight grid) (data grid) = None ->
  createTexture grid env = Js.ok (texture, env') ->
  image_width texture = (length_y (info grid) / resolution (info grid))%float
  /\ image_height texture = (length_x (info grid) / resolution (info grid))%float
  /\ textureFits texture
  /\ (forall n d,
        Js.exact (image_width texture * image_height texture)%float = Js.RFin n d ->
        Z.of_nat (length (image_data texture)) = Z.quot (4 * n) d)
  /\ Forall (fun byte => byte = 0) (image_data texture).
Proof.
  intros _. unfold createTexture, Js.bind, Js.ok.
  destruct (Js.ToIndex _) as [len|e] eqn:Hlen; [|discriminate].
  intros [= <- <-]. unfold textureFits. cbn [image_width image_height image_data].
  split; [reflexivity|]. split; [reflexivity|].
  pose proof (JsFacts.ToIndex_nonneg _ _ Hlen) as Hpos.
  rewrite repeat_length, Z2Nat.id by exact Hpos.
  split; [exact Hlen|]. split.
  - intros n d Hx. apply (JsFacts.ToIndex_times4 _ _ _ _ Hx Hlen).
  - apply Forall_forall. intros byte Hin. apply list_elem_of_In, repeat_spec in Hin.
    exact Hin.
Qed.

(** *** Rounding of the stored channels *)

(** The conversion of the store, on its own: for a cell value in the
    interpolated range, each byte written to the raster is the interpolated
    channel converted by the clamped-array store, an integer nearest to it,
    the even one on a tie.  The loop reads every cell as 0, where the
    channel is an integer and the store has nothing to round. *)
Lemma stored_channel_rounds_to_nearest (settings : LayerSettingsGridMap) (value : Z)
  (rgba : list Z) (p : nat) :
  0 <= value < 100 ->
  (p * 4 + 3 < length rgba)%nat ->
  let s := palette settings in
  let c := interpolate (tempMinColor s) (tempMaxColor s) (Js.of_Z value / 100)%float in
  cellColor s value = c
  /\ exists r g b a,
       pixelAt (storeCell rgba (p * 4) (cellColor s value)) p = Some (r, g, b, a)
       /\ nearestEven (c_r c) r /\ nearestEven (c_g c) g
       /\ nearestEven (c_b c) b /\ nearestEven (c_a c) a.
Proof.
  intros Hvalue Hp s c.
  split; [apply cellColor_interpolates; exact Hvalue|].
  rewrite cellColor_interpolates by exact Hvalue. fold c.
  exists (Js.ToUint8Clamp (c_r c)), (Js.ToUint8Clamp (c_g c)),
    (Js.ToUint8Clamp (c_b c)), (Js.ToUint8Clamp (c_a c)).
  split; [apply pixelAt_storeCell_eq; exact Hp|].
  repeat apply conj; intros n d Hx Hn; apply (JsFacts.ToUint8Clamp_nearest _ _ _ Hx Hn).
Qed.

(** *** The invariant of the message handler *)

Lemma createTexture_fresh (grid : GridMap) (env : Env) (texture : DataTexture) (env' : Env) :
  createTexture grid env = Js.ok (texture, env') ->
  textureFits texture
  /\ tex_id texture = allocated env
  /\ allocated env' = S (allocated env)
  /\ renderables env' = renderables env.
Proof.
  unfold createTexture, Js.bind, Js.ok.
  destruct (Js.ToIndex _) as [len|e] eqn:Hlen; [|discriminate].
  intros [= <- <-]. unfold textureFits. cbn.
  pose proof (JsFacts.ToIndex_nonneg _ _ Hlen) as Hpos.
  rewrite repeat_length, Z2Nat.id by exact Hpos. auto.
Qed.

Lemma update_keeps_invariant (renderable : Renderable) (grid : GridMap) (time : Z)
  (env : Env) (renderable' : Renderable) (env' : Env) :
  update renderable grid time env = Js.ok (renderable', env') ->
  textureFits (texture renderable) ->
  (tex_id (texture renderable) < allocated env)%nat ->
  textureFits (texture renderable')
  /\ (tex_id (texture renderable') < allocated env')%nat
  /\ (allocated env <= allocated env')%nat
  /\ renderables env' = renderables env.
Proof.
  intros Hup Hfit Hid.
  destruct (checkLayers (gridWidth grid) (gridHeight grid) (data grid)) as [message|] eqn:Hcheck.
  - rewrite (update_invalid _ _ _ _ _ Hcheck) in Hup. injection Hup as <- <-. cbn. auto.
  - pose proof (update_valid_fits _ _ _ _ _ _ Hfit Hcheck Hup) as Hfit'.
    destruct (update_valid _ _ _ _ _ _ Hcheck Hup) as (n & _ & _ & Hmap & Hcase).
    destruct (resized grid (texture renderable)).
    + destruct Hcase as (len & _ & Htex & _ & Halloc & _).
      split; [exact Hfit'|]. rewrite Htex, Halloc. cbn [tex_id].
      split; [lia|]. split; [lia | exact Hmap].
    + destruct Hcase as (Htex & _ & Halloc & _).
      split; [exact Hfit'|]. rewrite Htex, Halloc. cbn [tex_id].
      split; [lia|]. split; [lia | exact Hmap].
Qed.

(** The handler keeps the invariant, so it holds in every environment
    reached from one without renderables. *)
Lemma handleOccupancyGrid_wellFormed (name : string) (message : PartialGridMap)
  (receiveTime : RosTime) (env env' : Env) :
  wellFormed env ->
  handle name message receiveTime env = Js.ok env' ->
  wellFormed env'.
Proof.
  intros Hwf. unfold handleOccupancyGrid, Js.bind, Js.ok.
  destruct (normalizeGridMap _ message) as [grid|e]; [|discriminate].
  destruct (renderables env !! name) as [renderable|] eqn:Hlook.
  - destruct (Hwf _ _ Hlook) as [Hfit Hid]. 
    destruct (update renderable grid (toNanoSec receiveTime) env) as [[renderable' env1]|e] eqn:Hup;
      [|discriminate].
    intros [= <-].
    destruct (update_keeps_invariant _ _ _ _ _ _ Hup Hfit Hid) as (Hfit' & Hid' & Hle & Hmap).
    intros other r. cbn [renderables set_renderable allocated].
    destruct (decide (name = other)) as [->|Hne].
    + rewrite lookup_insert_eq. intros [= <-]. auto.
    + rewrite lookup_insert_ne by exact Hne. rewrite Hmap. intros Hr.
      destruct (Hwf _ _ Hr) as [Hf Hi]. split; [exact Hf | lia].
  - destruct (createTexture grid env) as [[tex env0]|e] eqn:Hcreate; [|discriminate].
    destruct (createTexture_fresh _ _ _ _ Hcreate) as (Hfit & Hid & Halloc & Hmap0).
    unfold createMaterial, occupancyGridHasTransparency. cbn [fst snd].
    match goal with
    | |- context [_updateGridMapRenderable _ _ _ ?r ?g ?t ?e] =>
        destruct (update r g t e) as [[renderable' env1]|e'] eqn:Hup; [|discriminate]
    end.
    intros [= <-].
    apply update_keeps_invariant in Hup; cbn [texture allocated set_renderable set_scratch];
      [|exact Hfit|lia].
    destruct Hup as (Hfit' & Hid' & Hle & Hmap).
    intros other r. cbn [renderables set_renderable allocated].
    destruct (decide (name = other)) as [->|Hne].
    + rewrite lookup_insert_eq. intros [= <-]. auto.
    + rewrite lookup_insert_ne by exact Hne. rewrite Hmap.
      cbn [renderables set_renderable set_scratch]. rewrite lookup_insert_ne by exact Hne.
      rewrite Hmap0. intros Hr.
      destruct (Hwf _ _ Hr) as [Hf Hi]. split; [exact Hf|].
      cbn [allocated set_renderable set_scratch] in Hle. lia.
Qed.

(** *** Transparency *)

(** C6: the transparency policy holds exactly when one of the four
    configured colours, as parsed and before any conversion to linear
    bytes, has an alpha below 1; the scratch colours left behind by
    earlier calls play no part. *)
Theorem occupancyGridHasTransparency_iff (settings : LayerSettingsGridMap) (env : Env) :
  fst (occupancyGridHasTransparency stringToRgba settings env) = true
  <-> ((c_a (stringToRgba (minColor settings)) <? 1)%float = true
       \/ (c_a (stringToRgba (maxColor settings)) <? 1)%float = true
       \/ (c_a (stringToRgba (unknownColor settings)) <? 1)%float = true
       \/ (c_a (stringToRgba (invalidColor settings)) <? 1)%float = true).
Proof.
  unfold occupancyGridHasTransparency, parseColors. cbn [fst tempMinColor tempMaxColor
    tempInvalidColor tempUnknownColor].
  rewrite !orb_true_iff. tauto.
Qed.

(** *** Decoding *)

Lemma normalizeGridMap_absent_data (message : PartialGridMap) :
  p_data message = None ->
  normalizeGridMap normalizeFloat32MultiArray message = Js.throw Js.TypeError.
Proof. unfold normalizeGridMap. intros ->. reflexivity. Qed.

(** With [data] present the decoder returns, and every absent field has
    its default. *)
Lemma normalizeGridMap_defaults (message : PartialGridMap)
  (layers : list PartialFloat32MultiArray) :
  p_data message = Some layers ->
  exists grid,
    normalizeGridMap normalizeFloat32MultiArray message = Js.ok grid
    /\ data grid = List.map normalizeFloat32MultiArray layers
    /\ (p_info message ≫= p_resolution = None -> resolution (info grid) = 0%float)
    /\ (p_info message ≫= p_length_x = None -> length_x (info grid) = 0%float)
    /\ (p_info message ≫= p_length_y = None -> length_y (info grid) = 0%float)
    /\ (p_info message ≫= p_pose = None -> pose (info grid) = identityPose)
    /\ (p_header message = None ->
        header grid = {| frame_id := EmptyString; stamp := {| sec := 0; nsec := 0 |} |}).
Proof.
  unfold normalizeGridMap. intros ->. cbn. eexists. split; [reflexivity|].
  cbn. split; [reflexivity|].
  repeat split; intros ->; reflexivity.
Qed.

(** C4: a message without [data], which the message type allows, makes
    the decoder throw instead of returning a grid. *)
Theorem normalizeGridMap_throws_on_empty_message :
  normalizeGridMap normalizeFloat32MultiArray
    {| p_header := None; p_info := None; p_data := None |}
  = Js.throw Js.TypeError.
Proof. apply normalizeGridMap_absent_data. reflexivity. Qed.

End Properties.

(** ** The properties on concrete messages *)

(** The stand-in message handler run on the first message produces the
    sample renderable. *)
Lemma handle_first_message :
  Sample.handle "grid" Sample.firstMessage {| sec := 3; nsec := 0 |} Sample.emptyEnv
  = Js.ok Sample.env1.
Proof. vm_compute. reflexivity. Qed.

(** The sample environment satisfies the handler's invariant. *)
Lemma env1_wellFormed : wellFormed Sample.env1.
Proof.
  apply (handleOccupancyGrid_wellFormed Sample.stringToRgba Sample.rgbaToCssString
           Sample.SRGBToLinear Sample.normalizeFrameId Sample.normalizeFloat32MultiArray
           "grid" Sample.firstMessage {| sec := 3; nsec := 0 |} Sample.emptyEnv).
  - intros name renderable H. cbn [renderables Sample.emptyEnv] in H.
    rewrite lookup_empty in H. discriminate H.
  - exact handle_first_message.
Qed.

Lemma cellColor_ramp_witness :
  let s := palette Sample.stringToRgba Sample.SRGBToLinear Sample.defaultSettings in
  cellColor s (-1) = tempUnknownColor s
  /\ cellColor s 50
     = interpolate (tempMinColor s) (tempMaxColor s) (Js.of_Z 50 / 100)%float
  /\ cellColor s 100 = transparentBlack
  /\ cellColor s 101 = tempInvalidColor s
  /\ cellColor s (-2) = tempInvalidColor s.
Proof.
  intros s.
  pose proof (cellColor_ramp Sample.stringToRgba Sample.SRGBToLinear Sample.defaultSettings)
    as H.
  split; [apply (H (-1)); reflexivity|].
  split; [apply (H 50); lia|].
  split; [apply (H 100); reflexivity|].
  split; [apply (H 101); lia | apply (H (-2)); lia].
Defined.

Lemma checkLayers_first_failure_witness :
  let good := Sample.layerOf [2%float; 2%float] [] in
  let flat := Sample.layerOf [4%float] [] in
  let large := Sample.layerOf [3%float; 3%float] [] in
  checkLayers 2 2 ([good] ++ flat :: [large]) = Some WrongNumberOfDimensions
  /\ checkLayers 2 2 ([good] ++ large :: [flat]) = Some (NotEqualToSize 2 2)
  /\ checkLayers 2 2 [good] = None.
Proof.
  intros good flat large.
  assert (Hgood : Forall (layerPasses (2 * 2)%float) [good]).
  { constructor; [|constructor]. split; [cbn; lia | vm_compute; reflexivity]. }
  split; [|split].
  - apply (checkLayers_first_failure 2 2 [good] flat [large] Hgood). cbn. lia.
  - apply (checkLayers_first_failure 2 2 [good] large [flat] Hgood);
      [cbn; lia | vm_compute; reflexivity].
  - apply (checkLayers_first_failure 2 2 [good] good [] Hgood).
Defined.

(** The claim of C3 fails on the sample topic: an update with a grid that
    fails the layer check replaces the active grid, the receive and message
    times and the frame id of the renderable. *)
Lemma update_invalid_overwrites_state :
  checkLayers (gridWidth Sample.badGrid) (gridHeight Sample.badGrid) (data Sample.badGrid)
  = Some (NotEqualToSize 3 3)
  /\ exists renderable' env',
       Sample.update Sample.renderable1 Sample.badGrid 7 Sample.env1
       = Js.ok (renderable', env')
       /\ gridMap renderable' <> gridMap Sample.renderable1
       /\ receiveTime renderable' <> receiveTime Sample.renderable1
       /\ messageTime renderable' <> messageTime Sample.renderable1
       /\ frameId renderable' <> frameId Sample.renderable1.
Proof.
  split; [vm_compute; reflexivity|].
  eexists _, _. split; [vm_compute; reflexivity|].
  cbn [gridMap receiveTime messageTime frameId Sample.renderable1].
  repeat split; discriminate.
Qed.

Lemma update_invalid_keeps_raster_witness :
  exists renderable' env',
    Sample.update Sample.renderable1 Sample.badGrid 7 Sample.env1
    = Js.ok (renderable', env')
    /\ errors env' = [("grid"%string, INVALID_GRID_MAP, NotEqualToSize 3 3)]
    /\ texture renderable' = texture Sample.renderable1
    /\ scale renderable' = scale Sample.renderable1
    /\ gridMap renderable' = Sample.badGrid.
Proof.
  destruct (update_invalid_keeps_raster Sample.stringToRgba Sample.SRGBToLinear
              Sample.normalizeFrameId Sample.renderable1 Sample.badGrid 7 Sample.env1
              (NotEqualToSize 3 3))
    as (renderable' & env' & Hup & Herr & _ & (Htex & _ & _ & _ & Hscale) & Hgrid & _).
  - vm_compute. reflexivity.
  - exists renderable', env'. repeat split; assumption.
Defined.

Lemma recolor_ignores_cell_values_witness :
  exists renderable' env',
    Sample.update Sample.renderable1 Sample.grid2x2 9 Sample.env1
    = Js.ok (renderable', env')
    /\ forall p, (p * 4 + 3 < length (image_data (texture renderable')))%nat ->
         pixelAt (image_data (texture renderable')) p = Some (255, 255, 255, 255).
Proof.
  assert (Hfit : textureFits (texture Sample.renderable1)) by (vm_compute; reflexivity).
  assert (Hvalid : checkLayers (gridWidth Sample.grid2x2) (gridHeight Sample.grid2x2)
                     (data Sample.grid2x2) = None) by (vm_compute; reflexivity).
  assert (Hlen : Js.ToIndex (gridSize Sample.grid2x2 * 4)%float = Js.ok 16)
    by (vm_compute; reflexivity).
  destruct (recolor_ignores_cell_values Sample.stringToRgba Sample.SRGBToLinear
              Sample.normalizeFrameId Sample.renderable1 Sample.grid2x2 9 Sample.env1 16
              Hfit Hvalid Hlen)
    as (renderable' & env' & Hup & _ & Hpixel & Hbytes & _).
  exists renderable', env'. split; [exact Hup|].
  intros p Hp. rewrite (Hpixel p Hp). apply f_equal.
  apply (Hbytes 255 255 255 255 0 0 0 255); (split; [lia | vm_compute; reflexivity]).
Defined.

Lemma occupancyGridHasTransparency_witness :
  fst (occupancyGridHasTransparency Sample.stringToRgba
         {| visible := true; frameLocked := false; minColor := "white";
            maxColor := "black"; unknownColor := "smoke"; invalidColor := "magenta" |}
         Sample.env1) = true
  /\ fst (occupancyGridHasTransparency Sample.stringToRgba Sample.defaultSettings
            Sample.env1) <> true.
Proof.
  split.
  - apply occupancyGridHasTransparency_iff. right. right. left. vm_compute. reflexivity.
  - rewrite occupancyGridHasTransparency_iff. vm_compute. intuition discriminate.
Defined.

Lemma texture_reallocated_iff_resized_witness :
  (exists r1 e1 r2 e2,
     Sample.update Sample.renderable1 Sample.grid4x1 5 Sample.env1 = Js.ok (r1, e1)
     /\ Sample.update r1 Sample.grid4x1 6 e1 = Js.ok (r2, e2)
     /\ tex_id (texture r2) = tex_id (texture r1)
     /\ disposed e2 = disposed e1)
  /\ (exists r1 e1 r2 e2,
        Sample.update Sample.renderable1 Sample.grid4x1 5 Sample.env1 = Js.ok (r1, e1)
        /\ Sample.update r1 Sample.grid2x2 6 e1 = Js.ok (r2, e2)
        /\ tex_id (texture r2) <> tex_id (texture r1)
        /\ disposed e2 = tex_id (texture r1) :: disposed e1
        /\ Z.of_nat (length (image_data (texture r2))) = 16).
Proof.
  assert (V4 : checkLayers (gridWidth Sample.grid4x1) (gridHeight Sample.grid4x1)
                 (data Sample.grid4x1) = None) by (vm_compute; reflexivity).
  assert (V2 : checkLayers (gridWidth Sample.grid2x2) (gridHeight Sample.grid2x2)
                 (data Sample.grid2x2) = None) by (vm_compute; reflexivity).
  assert (L4 : Js.ToIndex (gridSize Sample.grid4x1 * 4)%float = Js.ok 16)
    by (vm_compute; reflexivity).
  assert (L2 : Js.ToIndex (gridSize Sample.grid2x2 * 4)%float = Js.ok 16)
    by (vm_compute; reflexivity).
  assert (Hid : (tex_id (texture Sample.renderable1) < allocated Sample.env1)%nat)
    by (cbn; lia).
  split.
  - destruct (texture_reallocated_iff_resized Sample.stringToRgba Sample.SRGBToLinear
                Sample.normalizeFrameId Sample.renderable1 Sample.grid4x1 Sample.grid4x1
                5 6 Sample.env1 16 16 Hid V4 L4 V4 L4)
      as (r1 & e1 & r2 & e2 & H1 & H2 & Hiff & Hsame & _).
    exists r1, e1, r2, e2. split; [exact H1|]. split; [exact H2|].
    split; [apply Hiff; vm_compute; reflexivity|].
    apply Hsame. vm_compute. reflexivity.
  - destruct (texture_reallocated_iff_resized Sample.stringToRgba Sample.SRGBToLinear
                Sample.normalizeFrameId Sample.renderable1 Sample.grid4x1 Sample.grid2x2
                5 6 Sample.env1 16 16 Hid V4 L4 V2 L2)
      as (r1 & e1 & r2 & e2 & H1 & H2 & Hiff & _ & Hnew & _).
    assert (Hd : negb (gridWidth Sample.grid2x2 =? gridWidth Sample.grid4x1)%float
                 || negb (gridHeight Sample.grid2x2 =? gridHeight Sample.grid4x1)%float
                 = true) by (vm_compute; reflexivity).
    destruct (Hnew Hd) as (Hdisp & _ & _ & _ & _ & _ & Hlength & _).
    exists r1, e1, r2, e2. split; [exact H1|]. split; [exact H2|].
    split; [|split; [exact Hdisp | exact Hlength]].
    intros Heq. apply Hiff in Heq. rewrite Hd in Heq. discriminate Heq.
Defined.

(** C7: two consecutive messages of the same dimensions for which the
    texture is replaced all the same.  The message [{data: []}] decodes to
    a grid of resolution 0 and lengths 0, whose width and height are 0 / 0,
    and it passes the layer check.  Delivered twice to a topic, the second
    delivery finds a texture of just these dimensions, and still disposes
    it and allocates another: the texture is number 1 after the first
    message and number 2 after the second, and textures 0 and 1 are
    disposed.  The test of line 253 compares with [!==], under which a
    dimension that is not a number differs from itself, whereas the comment
    of line 252 announces the replacement for dimensions that changed. *)
Theorem texture_replaced_on_unchanged_dimensions :
  let message := Sample.emptyDataMessage in
  exists grid env1 renderable1 env2 renderable2,
    normalizeGridMap Sample.normalizeFloat32MultiArray message = Js.ok grid
    /\ checkLayers (gridWidth grid) (gridHeight grid) (data grid) = None
    /\ Sample.handle "grid" message {| sec := 3; nsec := 0 |} Sample.emptyEnv = Js.ok env1
    /\ renderables env1 !! "grid" = Some renderable1
    /\ Sample.handle "grid" message {| sec := 4; nsec := 0 |} env1 = Js.ok env2
    /\ renderables env2 !! "grid" = Some renderable2
    /\ (gridMap renderable1 = grid /\ gridMap renderable2 = grid)
    /\ (Js.exact (gridWidth grid) = Js.RNaN /\ Js.exact (gridHeight grid) = Js.RNaN)
    /\ (image_width (texture renderable1) = gridWidth grid
        /\ image_height (texture renderable1) = gridHeight grid
        /\ image_width (texture renderable2) = gridWidth grid
        /\ image_height (texture renderable2) = gridHeight grid)
    /\ (tex_id (texture renderable1) = 1%nat /\ tex_id (texture renderable2) = 2%nat)
    /\ (map (material renderable1) = 1%nat /\ map (material renderable2) = 2%nat)
    /\ (allocated env1 = 2%nat /\ allocated env2 = 3%nat)
    /\ (disposed env1 = [0%nat] /\ disposed env2 = [1%nat; 0%nat])
    /\ errors env2 = [].
Proof.
  intros message.
  eexists _, _, _, _, _.
  do 6 (split; [vm_compute; reflexivity|]).
  vm_compute. repeat split; reflexivity.
Qed.

(** The claim of C8 fails on a grid of length 5 by 4 and resolution 2 whose
    layer declares sizes 2 and 3: the grid passes the layer check, its width
    is 2.5, which [Math.round] takes to 3, and the raster has 20 bytes, not
    3 * 2 * 4. *)
Lemma createTexture_fractional_width :
  let grid := Sample.fractionalGrid in
  checkLayers (gridWidth grid) (gridHeight grid) (data grid) = None
  /\ Js.Math_round (length_y (info grid) / resolution (info grid))%float = Some 3
  /\ Js.Math_round (length_x (info grid) / resolution (info grid))%float = Some 2
  /\ exists texture env',
       createTexture grid Sample.emptyEnv = Js.ok (texture, env')
       /\ image_width texture = 2.5%float
       /\ (image_width texture =? 3)%float = false
       /\ Z.of_nat (length (image_data texture)) = 20
       /\ Z.of_nat (length (image_data texture)) <> 3 * 2 * 4.
Proof.
  intros grid. do 3 (split; [vm_compute; reflexivity|]).
  eexists _, _. split; [vm_compute; reflexivity|].
  cbn [image_width image_data]. repeat split; try reflexivity. discriminate.
Qed.

(** The same happens without a fractional cell count in the message: for
    lengths 0.3 by 0.1 at resolution 0.1 the quotient 0.3 / 0.1 is
    2.9999999999999996 in binary64, and the raster of the 3 by 1 grid has 11
    bytes, not 12. *)
Lemma createTexture_inexact_quotient :
  let grid := Sample.tenthsGrid in
  checkLayers (gridWidth grid) (gridHeight grid) (data grid) = None
  /\ Js.Math_round (gridWidth grid) = Some 3
  /\ Js.Math_round (gridHeight grid) = Some 1
  /\ exists texture env',
       createTexture grid Sample.emptyEnv = Js.ok (texture, env')
       /\ (image_width texture <? 3)%float = true
       /\ Z.of_nat (length (image_data texture)) = 11.
Proof.
  intros grid. do 3 (split; [vm_compute; reflexivity|]).
  eexists _, _. split; [vm_compute; reflexivity|].
  split; reflexivity.
Qed.

Lemma createTexture_length_witness :
  exists texture env',
    createTexture Sample.fractionalGrid Sample.emptyEnv = Js.ok (texture, env')
    /\ image_width texture = 2.5%float
    /\ image_height texture = 2%float
    /\ Z.of_nat (length (image_data texture)) = 20.
Proof.
  destruct (createTexture Sample.fractionalGrid Sample.emptyEnv)
    as [[texture env']|e] eqn:Hcreate; [|vm_compute in Hcreate; discriminate Hcreate].
  exists texture, env'. split; [reflexivity|].
  assert (Hvalid : checkLayers (gridWidth Sample.fractionalGrid)
                     (gridHeight Sample.fractionalGrid) (data Sample.fractionalGrid) = None)
    by (vm_compute; reflexivity).
  destruct (createTexture_length _ _ _ _ Hvalid Hcreate) as (Hw & Hh & _ & Hlen & _).
  split; [rewrite Hw; vm_compute; reflexivity|].
  split; [rewrite Hh; vm_compute; reflexivity|].
  erewrite Hlen by (rewrite Hw, Hh; vm_compute; reflexivity). reflexivity.
Defined.

(** The store's rounding, at a cell value that the loop never reads: were
    a cell read as 99, the red channel would interpolate, under the sample
    settings, to about 2.55, and the byte stored would be 3. *)
Remark store_rounds_at_99 :
  let s := palette Sample.stringToRgba Sample.SRGBToLinear Sample.defaultSettings in
  let x := c_r (cellColor s 99) in
  Js.is_integer x = false
  /\ Js.truncate x = Some 2
  /\ storeCell [0; 0; 0; 0] 0 (cellColor s 99) = [3; 3; 3; 255].
Proof. vm_compute. repeat split; reflexivity. Qed.

(** C10: the layer check adds the declared sizes where the number of cells
    is their product.  A layer declaring 3 by 3 cells is rejected on a 3 by 3
    grid and accepted on a 3 by 2 grid. *)
Theorem checkLayers_adds_declared_sizes :
  let layer := Sample.layerOf [3%float; 3%float] [] in
  ((layerCells layer =? gridSize Sample.badGrid)%float = true
   /\ checkLayers (gridWidth Sample.badGrid) (gridHeight Sample.badGrid) [layer]
      = Some (NotEqualToSize 3 3))
  /\ ((layerCells layer =? gridSize Sample.grid3x2)%float = false
      /\ checkLayers (gridWidth Sample.grid3x2) (gridHeight Sample.grid3x2) [layer] = None).
Proof. vm_compute. repeat split; reflexivity. Qed.

(** The message handler passes the decoder's exception on. *)
Lemma handle_empty_message_throws :
  Sample.handle "grid" {| p_header := None; p_info := None; p_data := None |}
    {| sec := 3; nsec := 0 |} Sample.emptyEnv
  = Js.throw Js.TypeError.
Proof. reflexivity. Qed.

(** * Further properties: updates, the two handlers, the settings tree *)

(** ** More facts about numbers *)

Module NanFacts.

Lemma exact_nan (x : Js.number) : Js.exact x = Js.RNaN <-> Prim2SF x = S754_nan.
Proof.
  unfold Js.exact. destruct (Prim2SF x) as [s|s| |s m e]; split; try discriminate; try reflexivity.
  destruct (0 <=? e); discriminate.
Qed.

Lemma exact_nan_mul_l (x y : Js.number) :
  Js.exact x = Js.RNaN -> Js.exact (x * y)%float = Js.RNaN.
Proof.
  rewrite !exact_nan, FloatAxioms.mul_spec. intros ->. reflexivity.
Qed.

Lemma exact_nan_mul_r (x y : Js.number) :
  Js.exact y = Js.RNaN -> Js.exact (x * y)%float = Js.RNaN.
Proof.
  rewrite !exact_nan, FloatAxioms.mul_spec. intros ->.
  destruct (Prim2SF x); reflexivity.
Qed.

Lemma eqb_nan_l (x y : Js.number) : Js.exact x = Js.RNaN -> (x =? y)%float = false.
Proof. rewrite exact_nan, FloatAxioms.eqb_spec. intros ->. reflexivity. Qed.

Lemma eqb_nan_r (x y : Js.number) : Js.exact y = Js.RNaN -> (x =? y)%float = false.
Proof.
  rewrite exact_nan, FloatAxioms.eqb_spec. intros ->. destruct (Prim2SF x); reflexivity.
Qed.

Lemma ToIndex_nan (x : Js.number) : Js.exact x = Js.RNaN -> Js.ToIndex x = Js.ok 0.
Proof. unfold Js.ToIndex. intros ->. reflexivity. Qed.

Lemma iterations_nan (x : Js.number) : Js.exact x = Js.RNaN -> Js.iterations x = Some 0%nat.
Proof. unfold Js.iterations. intros ->. reflexivity. Qed.

Lemma eqb_refl (x : Js.number) : Js.exact x <> Js.RNaN -> (x =? x)%float = true.
Proof.
  intros H. rewrite FloatAxioms.eqb_spec. apply JsFacts.SFeqb_refl.
  intros E. apply H, exact_nan, E.
Qed.

End NanFacts.

(** ** The raster, byte by byte *)

Section RasterBytes.

(** What a store, the four stores of a cell and a recolouring pass leave
    at index [j] of the buffer. *)
Lemma store_lookup (rgba : list Z) (i : nat) (x : Js.number) (j : nat) :
  store rgba i x !! j
  = if decide (j = i) then (fun _ => Js.ToUint8Clamp x) <$> rgba !! j else rgba !! j.
Proof.
  unfold store. destruct (decide (j = i)) as [->|Hne].
  - destruct (rgba !! i) eqn:E.
    + apply list_lookup_insert_eq. apply lookup_lt_is_Some. eauto.
    + cbn. apply lookup_ge_None. rewrite length_insert. apply lookup_ge_None. exact E.
  - apply list_lookup_insert_ne. auto.
Qed.

Lemma storeCell_lookup (rgba : list Z) (offset : nat) (c : ColorRGBA) (j : nat) :
  storeCell rgba offset c !! j
  = if decide (offset <= j < offset + 4)%nat
    then (fun _ => Js.ToUint8Clamp (channel c (j - offset))) <$> rgba !! j
    else rgba !! j.
Proof.
  unfold storeCell. rewrite !store_lookup.
  destruct (decide (offset <= j < offset + 4)%nat) as [Hin|Hout].
  - assert (Hc : (j - offset = 0 \/ j - offset = 1 \/ j - offset = 2 \/ j - offset = 3)%nat)
      by lia.
    destruct (rgba !! j); cbn [fmap option_fmap option_map];
      repeat match goal with |- context [decide ?P] => destruct (decide P) end;
      try lia; cbn [fmap option_fmap option_map]; try reflexivity;
      destruct Hc as [Hc|[Hc|[Hc|Hc]]]; rewrite Hc; try reflexivity; lia.
  - repeat match goal with |- context [decide ?P] => destruct (decide P) end;
      try lia; reflexivity.
Qed.

Lemma recolor_lookup (s : Scratch) (data : list Float32MultiArray) (rgba : list Z)
  (i n j : nat) :
  recolor s data rgba i n !! j
  = if decide (i * 4 <= j < (i + n) * 4)%nat
    then (fun _ => Js.ToUint8Clamp (channel (cellColor s 0) (j mod 4))) <$> rgba !! j
    else rgba !! j.
Proof.
  revert rgba i. induction n as [|n IH]; intros rgba i; cbn [recolor].
  - destruct (decide _); [lia | reflexivity].
  - rewrite element_coerces_to_zero, IH, storeCell_lookup.
    destruct (decide (i * 4 <= j < i * 4 + 4)%nat) as [Hin|Hout].
    + assert (Hm : (j mod 4 = j - i * 4)%nat).
      { symmetry. apply (Nat.mod_unique j 4 i); lia. }
      rewrite <- Hm.
      repeat match goal with |- context [decide ?P] => destruct (decide P) end;
        try lia; destruct (rgba !! j); reflexivity.
    + repeat match goal with |- context [decide ?P] => destruct (decide P) end;
        try lia; reflexivity.
Qed.

(** A pass over a buffer that an earlier pass with the same colours has
    filled changes nothing. *)
Lemma recolor_twice (s : Scratch) (data data' : list Float32MultiArray) (rgba : list Z)
  (n : nat) :
  recolor s data (recolor s data' rgba 0 n) 0 n = recolor s data' rgba 0 n.
Proof.
  apply list_eq. intros j. rewrite !recolor_lookup.
  destruct (decide _); [|reflexivity].
  destruct (rgba !! j); reflexivity.
Qed.

End RasterBytes.

(** ** Validation and updates *)

Section Updates.

Variable stringToRgba : string -> ColorRGBA.
Variable rgbaToCssString : ColorRGBA -> string.
Variable SRGBToLinear : Js.number -> Js.number.
Variable normalizeFrameId : string -> string.
Variable normalizeFloat32MultiArray : PartialFloat32MultiArray -> Float32MultiArray.

Local Abbreviation update := (_updateGridMapRenderable stringToRgba SRGBToLinear normalizeFrameId).
Local Abbreviation palette := (palette stringToRgba SRGBToLinear).
Local Abbreviation handle :=
  (handleOccupancyGrid stringToRgba rgbaToCssString SRGBToLinear normalizeFrameId
     normalizeFloat32MultiArray).

(** *** Layer validation, continued *)

(** X1: the layer check reads the declared layouts only.  Two layer lists
    with the same layouts get the same verdict, whatever cell arrays they
    carry: the number of values of a layer is never compared with the
    grid. *)
Theorem checkLayers_reads_layouts_only (width height : Js.number)
  (layers layers' : list Float32MultiArray) :
  List.map layout layers = List.map layout layers' ->
  checkLayers width height layers = checkLayers width height layers'.
Proof.
  revert layers'. induction layers as [|layer layers IH]; intros [|layer' layers'] H;
    try discriminate; [reflexivity|].
  injection H as Hl Hrest. cbn [checkLayers]. unfold layerSize. rewrite Hl.
  rewrite (IH _ Hrest). reflexivity.
Qed.

(** X2: when [width * height] is not a number no layer can pass.  An empty
    layer list is accepted; otherwise the first layer fails, with the
    wrong-number-of-dimensions diagnostic if it declares fewer than two
    dimensions and with the size diagnostic if not. *)
Theorem checkLayers_nan_size (width height : Js.number) (layers : list Float32MultiArray) :
  Js.exact (width * height)%float = Js.RNaN ->
  checkLayers width height layers
  = match layers with
    | [] => None
    | layer :: _ =>
        if (length (dim (layout layer)) <? 2)%nat then Some WrongNumberOfDimensions
        else Some (NotEqualToSize width height)
    end.
Proof.
  intros Hnan. destruct layers as [|layer rest]; [reflexivity|]. cbn [checkLayers].
  rewrite (NanFacts.eqb_nan_r _ _ Hnan). reflexivity.
Qed.

(** *** The two ways an update with a passing grid ends *)

Lemma update_kept (renderable : Renderable) (gridMap : GridMap) (receiveTime : Z)
  (env : Env) (n : nat) :
  checkLayers (gridWidth gridMap) (gridHeight gridMap) (data gridMap) = None ->
  resized gridMap (texture renderable) = false ->
  Js.iterations (gridSize gridMap) = Some n ->
  update renderable gridMap receiveTime env
  = Js.ok ({| receiveTime := receiveTime;
              messageTime := toNanoSec (stamp (header gridMap));
              frameId := normalizeFrameId (frame_id (header gridMap));
              u_pose := pose (info gridMap);
              settings := settings renderable;
              topic := topic renderable;
              gridMap := gridMap;
              texture :=
                {| tex_id := tex_id (texture renderable);
                   image_data :=
                     recolor (palette (settings renderable)) (data gridMap)
                       (image_data (texture renderable)) 0 n;
                   image_width := image_width (texture renderable);
                   image_height := image_height (texture renderable);
                   needsUpdate := true |};
              material :=
                {| map := map (material renderable);
                   transparent := transparent (material renderable);
                   depthWrite := depthWrite (material renderable) |};
              scale :=
                ((resolution (info gridMap) * gridWidth gridMap)%float,
                 (resolution (info gridMap) * gridHeight gridMap)%float, 1%float) |},
           set_scratch (palette (settings renderable)) env).
Proof.
  intros Hvalid Hres Hn. unfold resized in Hres. unfold gridSize in Hn.
  unfold _updateGridMapRenderable.
  change (length_y (info gridMap) / resolution (info gridMap))%float with (gridWidth gridMap).
  change (length_x (info gridMap) / resolution (info gridMap))%float with (gridHeight gridMap).
  rewrite Hvalid. cbn [texture settings material]. rewrite Hres.
  unfold updateTexture, Js.bind. cbv beta iota zeta. rewrite Hn. reflexivity.
Qed.

Lemma update_replaced (renderable : Renderable) (gridMap : GridMap) (receiveTime : Z)
  (env : Env) (len : Z) (n : nat) :
  checkLayers (gridWidth gridMap) (gridHeight gridMap) (data gridMap) = None ->
  resized gridMap (texture renderable) = true ->
  Js.ToIndex (gridSize gridMap * 4)%float = Js.ok len ->
  Js.iterations (gridSize gridMap) = Some n ->
  update renderable gridMap receiveTime env
  = Js.ok ({| receiveTime := receiveTime;
              messageTime := toNanoSec (stamp (header gridMap));
              frameId := normalizeFrameId (frame_id (header gridMap));
              u_pose := pose (info gridMap);
              settings := settings renderable;
              topic := topic renderable;
              gridMap := gridMap;
              texture :=
                {| tex_id := allocated env;
                   image_data :=
                     recolor (palette (settings renderable)) (data gridMap)
                       (repeat 0 (Z.to_nat len)) 0 n;
                   image_width := gridWidth gridMap;
                   image_height := gridHeight gridMap;
                   needsUpdate := true |};
              material :=
                {| map := allocated env;
                   transparent := transparent (material renderable);
                   depthWrite := depthWrite (material renderable) |};
              scale :=
                ((resolution (info gridMap) * gridWidth gridMap)%float,
                 (resolution (info gridMap) * gridHeight gridMap)%float, 1%float) |},
           {| renderables := renderables env;
              config_topics := config_topics env;
              errors := errors env;
              allocated := S (allocated env);
              disposed := tex_id (texture renderable) :: disposed env;
              scratch := palette (settings renderable) |}).
Proof.
  intros Hvalid Hres Hlen Hn. unfold resized in Hres. unfold gridSize in Hn, Hlen.
  unfold _updateGridMapRenderable.
  change (length_y (info gridMap) / resolution (info gridMap))%float with (gridWidth gridMap).
  change (length_x (info gridMap) / resolution (info gridMap))%float with (gridHeight gridMap).
  rewrite Hvalid. cbn [texture settings material]. rewrite Hres.
  unfold createTexture, updateTexture, Js.bind. rewrite Hlen.
  cbv beta iota zeta. rewrite Hn. reflexivity.
Qed.

Lemma ToIndex_throws (x : Js.number) (e : Js.error) :
  Js.ToIndex x = Js.throw e -> e = Js.RangeError.
Proof.
  unfold Js.ToIndex, Js.ok, Js.throw. destruct (Js.exact x) as [|s|n d]; try discriminate.
  - intros [= <-]. reflexivity.
  - destruct (_ && _); [discriminate|]. intros [= <-]. reflexivity.
Qed.

(** A texture that fits and is kept has a buffer of the length the grid
    asks for. *)
Lemma kept_texture_length (gridMap : GridMap) (tex : DataTexture) :
  textureFits tex -> resized gridMap tex = false ->
  Js.ToIndex (gridSize gridMap * 4)%float = Js.ok (Z.of_nat (length (image_data tex))).
Proof.
  intros Hfit Hres. destruct (resized_false _ _ Hres) as [Hw Hh].
  destruct (JsFacts.exact_mul_congr _ _ _ _ Hw Hh) as [_ H4].
  unfold gridSize. rewrite (ToIndex_exact _ _ H4). exact Hfit.
Qed.

Lemma update_throw_inv (renderable : Renderable) (gridMap : GridMap) (receiveTime : Z)
  (env : Env) (e : Js.error) :
  textureFits (texture renderable) ->
  update renderable gridMap receiveTime env = Js.throw e ->
  e = Js.RangeError
  /\ checkLayers (gridWidth gridMap) (gridHeight gridMap) (data gridMap) = None
  /\ resized gridMap (texture renderable) = true
  /\ Js.ToIndex (gridSize gridMap * 4)%float = Js.throw Js.RangeError.
Proof.
  intros Hfit Hup.
  destruct (checkLayers (gridWidth gridMap) (gridHeight gridMap) (data gridMap))
    as [message|] eqn:Hcheck.
  { rewrite (update_invalid _ _ _ _ _ _ _ _ Hcheck) in Hup. discriminate Hup. }
  destruct (resized gridMap (texture renderable)) eqn:Hres.
  - destruct (Js.ToIndex (gridSize gridMap * 4)%float) as [len|e'] eqn:Hlen.
    + destruct (update_returns stringToRgba SRGBToLinear normalizeFrameId
                  renderable gridMap receiveTime env len Hcheck Hlen) as (r' & env' & Hok).
      rewrite Hok in Hup. discriminate Hup.
    + rewrite (update_throws _ _ _ _ _ _ _ _ Hcheck Hres Hlen) in Hup.
      injection Hup as <-. pose proof (ToIndex_throws _ _ Hlen) as ->. auto.
  - pose proof (kept_texture_length _ _ Hfit Hres) as Hlen.
    destruct (update_returns stringToRgba SRGBToLinear normalizeFrameId
                renderable gridMap receiveTime env _ Hcheck Hlen) as (r' & env' & Hok).
    rewrite Hok in Hup. discriminate Hup.
Qed.

(** X3: on a renderable whose texture buffer fits its dimensions,
    [_updateGridMapRenderable] can only throw while it replaces the
    texture.  With a grid that fails the layer check, or whose dimensions
    are those of the texture, it returns, so the recolouring loop ends and
    nothing is allocated on the way; when it throws, the exception is a
    RangeError, the grid has passed the check and the texture was being
    replaced; and it does throw when the length of the new raster,
    [width * height * 4], is one that no typed array can have. *)
Theorem update_throws_only_when_replacing (renderable : Renderable) (gridMap : GridMap)
  (receiveTime : Z) (env : Env) :
  textureFits (texture renderable) ->
  (checkLayers (gridWidth gridMap) (gridHeight gridMap) (data gridMap) <> None
   \/ resized gridMap (texture renderable) = false ->
   exists renderable' env',
     update renderable gridMap receiveTime env = Js.ok (renderable', env')
     /\ allocated env' = allocated env
     /\ disposed env' = disposed env
     /\ tex_id (texture renderable') = tex_id (texture renderable))
  /\ (forall e,
        update renderable gridMap receiveTime env = Js.throw e ->
        e = Js.RangeError
        /\ checkLayers (gridWidth gridMap) (gridHeight gridMap) (data gridMap) = None
        /\ resized gridMap (texture renderable) = true)
  /\ (checkLayers (gridWidth gridMap) (gridHeight gridMap) (data gridMap) = None ->
      resized gridMap (texture renderable) = true ->
      Js.ToIndex (gridSize gridMap * 4)%float = Js.throw Js.RangeError ->
      update renderable gridMap receiveTime env = Js.throw Js.RangeError).
Proof.
  intros Hfit. split; [|split].
  - intros Hcase.
    destruct (checkLayers (gridWidth gridMap) (gridHeight gridMap) (data gridMap))
      as [message|] eqn:Hcheck.
    + rewrite (update_invalid _ _ _ _ _ _ _ _ Hcheck). eexists _, _.
      split; [reflexivity|]. cbn. auto.
    + destruct Hcase as [Hc|Hres]; [contradiction Hc; reflexivity|].
      pose proof (kept_texture_length _ _ Hfit Hres) as Hlen.
      destruct (JsFacts.iterations_defined _ _ Hlen) as [n Hn].
      rewrite (update_kept _ _ _ _ n Hcheck Hres Hn). eexists _, _.
      split; [reflexivity|]. cbn. auto.
  - intros e Hup. apply update_throw_inv in Hup; [|exact Hfit].
    destruct Hup as (He & Hcheck & Hres & _). auto.
  - intros Hcheck Hres Hlen. apply update_throws; assumption.
Qed.

Lemma size_nan (gridMap : GridMap) :
  Js.exact (gridWidth gridMap) = Js.RNaN \/ Js.exact (gridHeight gridMap) = Js.RNaN ->
  Js.exact (gridSize gridMap) = Js.RNaN.
Proof.
  unfold gridSize. intros [H|H];
    [apply NanFacts.exact_nan_mul_l | apply NanFacts.exact_nan_mul_r]; exact H.
Qed.

(** With a width or height that is not a number the texture never
    compares equal, and the update replaces it by an empty one. *)
Lemma update_nan (renderable : Renderable) (gridMap : GridMap) (receiveTime : Z)
  (env : Env) :
  Js.exact (gridWidth gridMap) = Js.RNaN \/ Js.exact (gridHeight gridMap) = Js.RNaN ->
  checkLayers (gridWidth gridMap) (gridHeight gridMap) (data gridMap) = None ->
  exists renderable' env',
    update renderable gridMap receiveTime env = Js.ok (renderable', env')
    /\ tex_id (texture renderable') = allocated env
    /\ image_data (texture renderable') = []
    /\ map (material renderable') = allocated env
    /\ allocated env' = S (allocated env)
    /\ disposed env' = tex_id (texture renderable) :: disposed env
    /\ errors env' = errors env
    /\ renderables env' = renderables env.
Proof.
  intros Hnan Hcheck. pose proof (size_nan _ Hnan) as Hsize.
  assert (Hres : resized gridMap (texture renderable) = true).
  { unfold resized. destruct Hnan as [H|H].
    - rewrite (NanFacts.eqb_nan_l _ _ H). reflexivity.
    - rewrite (NanFacts.eqb_nan_l _ _ H). apply orb_true_r. }
  assert (Hlen : Js.ToIndex (gridSize gridMap * 4)%float = Js.ok 0)
    by (apply NanFacts.ToIndex_nan, NanFacts.exact_nan_mul_l, Hsize).
  pose proof (NanFacts.iterations_nan _ Hsize) as Hn.
  eexists _, _. split; [apply (update_replaced _ _ _ _ _ _ Hcheck Hres Hlen Hn)|].
  cbn. auto 10.
Qed.

(** X4: a grid whose width or height is not a number (as with a resolution
    and lengths of 0) passes the layer check only when it has no layers,
    and every update with it disposes the texture and allocates a new,
    empty one, since the comparison of the dimensions never holds. *)
Theorem update_nan_dimensions (renderable : Renderable) (gridMap : GridMap)
  (receiveTime : Z) (env : Env) :
  Js.exact (gridWidth gridMap) = Js.RNaN \/ Js.exact (gridHeight gridMap) = Js.RNaN ->
  checkLayers (gridWidth gridMap) (gridHeight gridMap) (data gridMap) = None ->
  data gridMap = []
  /\ exists renderable' env',
       update renderable gridMap receiveTime env = Js.ok (renderable', env')
       /\ tex_id (texture renderable') = allocated env
       /\ image_data (texture renderable') = []
       /\ map (material renderable') = allocated env
       /\ allocated env' = S (allocated env)
       /\ disposed env' = tex_id (texture renderable) :: disposed env.
Proof.
  intros Hnan Hcheck. split.
  { assert (Hc : checkLayers (gridWidth gridMap) (gridHeight gridMap) (data gridMap)
                 = match data gridMap with
                   | [] => None
                   | layer :: _ =>
                       if (length (dim (layout layer)) <? 2)%nat
                       then Some WrongNumberOfDimensions
                       else Some (NotEqualToSize (gridWidth gridMap) (gridHeight gridMap))
                   end).
    { destruct (data gridMap) as [|layer rest]; [reflexivity|]. cbn [checkLayers].
      rewrite (NanFacts.eqb_nan_r _ _ (size_nan _ Hnan)). reflexivity. }
    rewrite Hcheck in Hc. destruct (data gridMap) as [|layer rest]; [reflexivity|].
    destruct (length (dim (layout layer)) <? 2)%nat; discriminate Hc. }
  destruct (update_nan renderable gridMap receiveTime env Hnan Hcheck)
    as (r' & env' & Hup & H1 & H2 & H3 & H4 & H5 & _).
  exists r', env'. auto 10.
Qed.

(** X5: repeating an update with the same grid and receive time changes
    nothing, for a grid that passes the check and whose dimensions are
    numbers: the second update returns the renderable and the environment
    the first one left, allocating and disposing nothing. *)
Theorem update_idempotent (renderable : Renderable) (gridMap : GridMap) (receiveTime : Z)
  (env : Env) (renderable' : Renderable) (env' : Env) :
  checkLayers (gridWidth gridMap) (gridHeight gridMap) (data gridMap) = None ->
  Js.exact (gridWidth gridMap) <> Js.RNaN ->
  Js.exact (gridHeight gridMap) <> Js.RNaN ->
  update renderable gridMap receiveTime env = Js.ok (renderable', env') ->
  update renderable' gridMap receiveTime env' = Js.ok (renderable', env').
Proof.
  intros Hcheck Hw Hh Hup.
  destruct (update_valid _ _ _ _ _ _ _ _ _ Hcheck Hup) as (n & Hn & _ & _ & Hcase).
  destruct (resized gridMap (texture renderable)) eqn:Hres.
  - destruct Hcase as (len & Hlen & _).
    rewrite (update_replaced _ _ _ _ _ _ Hcheck Hres Hlen Hn) in Hup.
    injection Hup as <- <-.
    rewrite (update_kept _ _ _ _ n Hcheck); [| |exact Hn].
    + cbn. rewrite recolor_twice. reflexivity.
    + unfold resized. cbn. rewrite !NanFacts.eqb_refl by assumption. reflexivity.
  - rewrite (update_kept _ _ _ _ n Hcheck Hres Hn) in Hup. injection Hup as <- <-.
    rewrite (update_kept _ _ _ _ n Hcheck); [| |exact Hn].
    + cbn. rewrite recolor_twice. reflexivity.
    + exact Hres.
Qed.

End Updates.

(** ** The bytes stored by an update *)

Module ByteFacts.


End ByteFacts.

Section StoredBytes.

Variable stringToRgba : string -> ColorRGBA.
Variable SRGBToLinear : Js.number -> Js.number.
Variable normalizeFrameId : string -> string.

Local Abbreviation update := (_updateGridMapRenderable stringToRgba SRGBToLinear normalizeFrameId).
Local Abbreviation palette := (palette stringToRgba SRGBToLinear).


End StoredBytes.


(** ** Allocation *)

Module OverflowFacts.

(** Four times a finite number overflows to an infinity only when the
    number is an integer of 2^52 or more in size. *)
Lemma times4_overflow (x : Js.number) (n d : Z) (s : bool) :
  Js.exact x = Js.RFin n d -> Js.exact (x * 4)%float = Js.RInf s ->
  d = 1 /\ 2 ^ 52 <= Z.abs n.
Proof.
  unfold Js.exact. rewrite FloatAxioms.mul_spec, JsFacts.Prim2SF_four.
  pose proof (FloatAxioms.Prim2SF_valid x) as Hv.
  destruct (Prim2SF x) as [s0|s0| |s0 m e]; cbn [valid_binary] in Hv; try discriminate.
  rewrite JsFacts.SFmul_four by exact Hv. unfold Js.times4.
  destruct (Z.pos (digits2_pos m) =? 53).
  - destruct (e + 2 <=? 971) eqn:He.
    + intros _ H. destruct (0 <=? e + 2); discriminate H.
    + apply Z.leb_gt in He.
      replace (0 <=? e) with true by (symmetry; apply Z.leb_le; lia).
      intros [= <- <-] _. split; [reflexivity|].
      assert (H2 : 2 ^ 52 <= 2 ^ e) by (apply Z.pow_le_mono_r; lia).
      assert (Hp : 0 < 2 ^ e) by (apply Z.pow_pos_nonneg; lia).
      destruct s0; rewrite Z.abs_mul, (Z.abs_eq (2 ^ e)) by lia; cbn [Z.abs]; nia.
  - destruct (Z.pos (digits2_pos m) =? 52).
    + intros _ H. destruct (0 <=? e + 1); discriminate H.
    + intros _ H. destruct (0 <=? e); discriminate H.
Qed.

End OverflowFacts.

Section Allocation.

(** The lengths [createTexture] asks for: none when the number of cells
    [width * height] is not a number, the integer part of four times that
    number when it lies strictly between -1/4 and 2^51, and a length that
    no typed array can have in every other case. *)
Lemma createTexture_cases (gridMap : GridMap) (env : Env) :
  match Js.exact (gridSize gridMap) with
  | Js.RNaN =>
      exists texture env',
        createTexture gridMap env = Js.ok (texture, env') /\ image_data texture = []
  | Js.RInf _ => createTexture gridMap env = Js.throw Js.RangeError
  | Js.RFin n d =>
      if (- d <? 4 * n) && (4 * n <? 2 ^ 53 * d) then
        exists texture env',
          createTexture gridMap env = Js.ok (texture, env')
          /\ Z.of_nat (length (image_data texture)) = Z.quot (4 * n) d
      else createTexture gridMap env = Js.throw Js.RangeError
  end.
Proof.
  pose proof (JsFacts.exact_times4 (gridSize gridMap)) as Hq.
  unfold createTexture, Js.bind. fold (gridSize gridMap).
  destruct (Js.exact (gridSize gridMap)) as [|s|n d] eqn:Hx.
  - rewrite NanFacts.ToIndex_nan by (inversion Hq; congruence).
    eexists _, _. split; reflexivity.
  - unfold Js.ToIndex. replace (Js.exact (gridSize gridMap * 4)%float) with (Js.RInf s)
      by (inversion Hq; congruence).
    reflexivity.
  - pose proof (JsFacts.exact_den_pos _ _ _ Hx) as Hd.
    destruct (Js.ToIndex (gridSize gridMap * 4)%float) as [len|e] eqn:Hlen.
    + destruct (JsFacts.ToIndex_times4 _ _ _ _ Hx Hlen) as [Hl Hpos].
      assert (Hlo : - d < 4 * n).
      { destruct (Z.le_gt_cases (4 * n) (- d)) as [Hle|]; [|assumption]. exfalso.
        assert (Z.quot (4 * n) d <= -1).
        { rewrite <- (Z.opp_involutive (4 * n)), Z.quot_opp_l by lia.
          assert (1 <= Z.quot (- (4 * n)) d) by (apply Z.quot_le_lower_bound; lia). lia. }
        lia. }
      assert (Hhi : 4 * n < 2 ^ 53 * d).
      { destruct (Z.le_gt_cases (2 ^ 53 * d) (4 * n)) as [Hle|]; [|lia]. exfalso.
        unfold Js.ToIndex in Hlen.
        remember (Js.exact (gridSize gridMap * 4)%float) as y eqn:Hy.
        inversion Hq as [| |n0 d0 n' d' Heq E1 E2|n0 d0 s E1 E2]; subst y.
        - rewrite <- E2 in Hlen.
          destruct ((0 <=? Z.quot n' d') && (Z.quot n' d' <=? 2 ^ 53 - 1)) eqn:Hr;
            [|discriminate].
          injection Hlen as Hlen. apply andb_true_iff in Hr as [_ Hr]. apply Z.leb_le in Hr.
          rewrite Hlen, Hl in Hr.
          assert (2 ^ 53 <= Z.quot (4 * n) d) by (apply Z.quot_le_lower_bound; lia). lia.
        - rewrite <- E2 in Hlen. discriminate. }
      replace (- d <? 4 * n) with true by (symmetry; apply Z.ltb_lt; exact Hlo).
      replace (4 * n <? 2 ^ 53 * d) with true by (symmetry; apply Z.ltb_lt; exact Hhi).
      cbn [andb]. eexists _, _. split; [reflexivity|]. cbn [image_data].
      rewrite repeat_length, Z2Nat.id by exact Hpos. exact Hl.
    + pose proof (ToIndex_throws _ _ Hlen) as ->.
      destruct ((- d <? 4 * n) && (4 * n <? 2 ^ 53 * d)) eqn:Hr; [|reflexivity]. exfalso.
      apply andb_true_iff in Hr as [Hlo Hhi]. apply Z.ltb_lt in Hlo, Hhi.
      unfold Js.ToIndex in Hlen.
      remember (Js.exact (gridSize gridMap * 4)%float) as y eqn:Hy.
      inversion Hq as [| |n0 d0 n' d' Heq E1 E2|n0 d0 s E1 E2]; subst y.
      * rewrite <- E2 in Hlen. symmetry in E2.
        pose proof (JsFacts.exact_den_pos _ _ _ E2) as Hd'.
        assert (Hsame : Z.quot n' d' = Z.quot (4 * n) d)
          by (apply JsFacts.quot_same_fraction; lia).
        rewrite Hsame in Hlen.
        assert (H0 : 0 <= Z.quot (4 * n) d).
        { destruct (Z.le_gt_cases 0 n) as [Hn|Hn]; [apply Z.quot_pos; lia|].
          rewrite <- (Z.opp_involutive (4 * n)), Z.quot_opp_l by lia.
          rewrite Z.quot_small by lia. lia. }
        assert (H1 : Z.quot (4 * n) d <= 2 ^ 53 - 1).
        { destruct (Z.le_gt_cases 0 n) as [Hn|Hn].
          - assert (Z.quot (4 * n) d < 2 ^ 53) by (apply Z.quot_lt_upper_bound; lia). lia.
          - rewrite <- (Z.opp_involutive (4 * n)), Z.quot_opp_l by lia.
            rewrite Z.quot_small by lia. lia. }
        replace (0 <=? Z.quot (4 * n) d) with true in Hlen
          by (symmetry; apply Z.leb_le; exact H0).
        replace (Z.quot (4 * n) d <=? 2 ^ 53 - 1) with true in Hlen
          by (symmetry; apply Z.leb_le; exact H1).
        discriminate Hlen.
      * symmetry in E2.
        destruct (OverflowFacts.times4_overflow _ _ _ _ Hx E2) as [-> Hbig]. lia.
Qed.

(** X6: [createTexture] throws a RangeError whenever the number of cells
    [width * height] is infinite, is -1/4 or less, or is 2^51 or more.
    Whenever it returns, the buffer is empty for a number of cells that is
    not a number, and otherwise has the integer part of four times the
    number of cells as its length. *)
Theorem createTexture_throws_outside_range (gridMap : GridMap) (env : Env) :
  match Js.exact (gridSize gridMap) with
  | Js.RNaN =>
      forall texture env',
        createTexture gridMap env = Js.ok (texture, env') -> image_data texture = []
  | Js.RInf _ => createTexture gridMap env = Js.throw Js.RangeError
  | Js.RFin n d =>
      if (- d <? 4 * n) && (4 * n <? 2 ^ 53 * d) then
        forall texture env',
          createTexture gridMap env = Js.ok (texture, env') ->
          Z.of_nat (length (image_data texture)) = Z.quot (4 * n) d
      else createTexture gridMap env = Js.throw Js.RangeError
  end.
Proof.
  pose proof (createTexture_cases gridMap env) as H.
  destruct (Js.exact (gridSize gridMap)) as [|s|n d].
  - destruct H as (texture0 & env0 & Hcreate & Hdata). intros texture env' Hok.
    rewrite Hcreate in Hok. injection Hok as <- _. exact Hdata.
  - exact H.
  - destruct ((- d <? 4 * n) && (4 * n <? 2 ^ 53 * d)); [|exact H].
    destruct H as (texture0 & env0 & Hcreate & Hlength). intros texture env' Hok.
    rewrite Hcreate in Hok. injection Hok as <- _. exact Hlength.
Qed.

End Allocation.

(** ** The steps of the handlers *)

Section Steps.

Variable stringToRgba : string -> ColorRGBA.
Variable rgbaToCssString : ColorRGBA -> string.
Variable SRGBToLinear : Js.number -> Js.number.
Variable normalizeFrameId : string -> string.
Variable normalizeFloat32MultiArray : PartialFloat32MultiArray -> Float32MultiArray.

Local Abbreviation update := (_updateGridMapRenderable stringToRgba SRGBToLinear normalizeFrameId).
Local Abbreviation palette := (palette stringToRgba SRGBToLinear).
Local Abbreviation handle :=
  (handleOccupancyGrid stringToRgba rgbaToCssString SRGBToLinear normalizeFrameId
     normalizeFloat32MultiArray).
Local Abbreviation hasTransparency := (occupancyGridHasTransparency stringToRgba).

(** What an update that returns has done, whatever the grid. *)
Lemma update_step (renderable : Renderable) (grid : GridMap) (time : Z) (env : Env)
  (renderable' : Renderable) (env' : Env) :
  update renderable grid time env = Js.ok (renderable', env') ->
  (renderables env' = renderables env
   /\ config_topics env' = config_topics env
   /\ errors env'
      = errors env
        ++ match checkLayers (gridWidth grid) (gridHeight grid) (data grid) with
           | Some message => [(topic renderable, INVALID_GRID_MAP, message)]
           | None => []
           end)
  /\ (settings renderable' = settings renderable
      /\ topic renderable' = topic renderable
      /\ transparent (material renderable') = transparent (material renderable)
      /\ depthWrite (material renderable') = depthWrite (material renderable))
  /\ (gridMap renderable' = grid
      /\ receiveTime renderable' = time
      /\ messageTime renderable' = toNanoSec (stamp (header grid))
      /\ frameId renderable' = normalizeFrameId (frame_id (header grid))
      /\ u_pose renderable' = pose (info grid))
  /\ ((tex_id (texture renderable') = tex_id (texture renderable)
       /\ map (material renderable') = map (material renderable)
       /\ allocated env' = allocated env
       /\ disposed env' = disposed env)
      \/ (tex_id (texture renderable') = allocated env
          /\ map (material renderable') = allocated env
          /\ allocated env' = S (allocated env)
          /\ disposed env' = tex_id (texture renderable) :: disposed env)).
Proof.
  intros Hup.
  destruct (checkLayers (gridWidth grid) (gridHeight grid) (data grid)) as [message|] eqn:Hcheck.
  - rewrite (update_invalid _ _ _ _ _ _ _ _ Hcheck) in Hup. injection Hup as <- <-.
    cbn. repeat apply conj; try reflexivity. left. auto.
  - destruct (update_valid _ _ _ _ _ _ _ _ _ Hcheck Hup) as (n & Hn & _ & _ & Hcase).
    destruct (resized grid (texture renderable)) eqn:Hres.
    + destruct Hcase as (len & Hlen & _).
      rewrite (update_replaced _ _ _ _ _ _ _ _ _ Hcheck Hres Hlen Hn) in Hup.
      injection Hup as <- <-. cbn. rewrite app_nil_r.
      repeat apply conj; try reflexivity. right. auto.
    + rewrite (update_kept _ _ _ _ _ _ _ _ Hcheck Hres Hn) in Hup.
      injection Hup as <- <-. cbn. rewrite app_nil_r.
      repeat apply conj; try reflexivity. left. auto.
Qed.

(** *** Texture ownership *)

Lemma texturesOwned_replace (env envU : Env) (name : string) (r r' : Renderable) :
  texturesOwned env ->
  renderables env !! name = Some r ->
  renderables envU = renderables env ->
  ((tex_id (texture r') = tex_id (texture r)
    /\ allocated envU = allocated env
    /\ disposed envU = disposed env)
   \/ (tex_id (texture r') = allocated env
       /\ allocated envU = S (allocated env)
       /\ disposed envU = tex_id (texture r) :: disposed env)) ->
  texturesOwned (set_renderable name r' envU).
Proof.
  intros (Hinj & Hlive & Hdisp & Hnodup & Hcount) Hr Hmap Hcase.
  destruct (Hlive _ _ Hr) as [Hrlt Hrnot].
  assert (Hsize : base.size (<[name := r']> (renderables env)) = base.size (renderables env)).
  { rewrite map_size_insert_Some; [reflexivity|]. eauto. }
  unfold texturesOwned, set_renderable. cbn [renderables allocated disposed].
  rewrite Hmap, Hsize.
  destruct Hcase as [(Hid & Ha & Hd)|(Hid & Ha & Hd)]; rewrite Ha, Hd.
  - repeat apply conj.
    + intros a b ra rb Hra Hrb Heq.
      destruct (decide (name = a)) as [<-|Hna], (decide (name = b)) as [<-|Hnb];
        [reflexivity| | |].
      * rewrite lookup_insert_eq in Hra. rewrite lookup_insert_ne in Hrb by exact Hnb.
        injection Hra as <-. rewrite Hid in Heq. apply (Hinj _ _ _ _ Hr Hrb Heq).
      * rewrite lookup_insert_eq in Hrb. rewrite lookup_insert_ne in Hra by exact Hna.
        injection Hrb as <-. rewrite Hid in Heq. apply (Hinj _ _ _ _ Hra Hr Heq).
      * rewrite lookup_insert_ne in Hra by exact Hna.
        rewrite lookup_insert_ne in Hrb by exact Hnb. apply (Hinj _ _ _ _ Hra Hrb Heq).
    + intros a ra Hra. destruct (decide (name = a)) as [<-|Hna].
      * rewrite lookup_insert_eq in Hra. injection Hra as <-. rewrite Hid. auto.
      * rewrite lookup_insert_ne in Hra by exact Hna. apply (Hlive _ _ Hra).
    + exact Hdisp.
    + exact Hnodup.
    + exact Hcount.
  - repeat apply conj.
    + intros a b ra rb Hra Hrb Heq.
      destruct (decide (name = a)) as [<-|Hna], (decide (name = b)) as [<-|Hnb];
        [reflexivity| | |].
      * rewrite lookup_insert_eq in Hra. rewrite lookup_insert_ne in Hrb by exact Hnb.
        injection Hra as <-. destruct (Hlive _ _ Hrb). lia.
      * rewrite lookup_insert_eq in Hrb. rewrite lookup_insert_ne in Hra by exact Hna.
        injection Hrb as <-. destruct (Hlive _ _ Hra). lia.
      * rewrite lookup_insert_ne in Hra by exact Hna.
        rewrite lookup_insert_ne in Hrb by exact Hnb. apply (Hinj _ _ _ _ Hra Hrb Heq).
    + intros a ra Hra. destruct (decide (name = a)) as [<-|Hna].
      * rewrite lookup_insert_eq in Hra. injection Hra as <-. rewrite Hid.
        split; [lia|]. intros [Hin|Hin]; [lia|]. apply Hdisp in Hin. lia.
      * rewrite lookup_insert_ne in Hra by exact Hna.
        destruct (Hlive _ _ Hra) as [Hlt Hnot]. split; [lia|].
        intros [Hin|Hin]; [|exact (Hnot Hin)].
        apply Hna. apply (Hinj _ _ _ _ Hr Hra Hin).
    + intros id [<-|Hin]; [lia|]. apply Hdisp in Hin. lia.
    + constructor; [|exact Hnodup]. rewrite <- list_elem_of_In in Hrnot. exact Hrnot.
    + cbn [length]. lia.
Qed.

Lemma texturesOwned_create (env env1 : Env) (name : string) (r : Renderable) :
  texturesOwned env ->
  renderables env !! name = None ->
  renderables env1 = renderables env ->
  allocated env1 = S (allocated env) ->
  disposed env1 = disposed env ->
  tex_id (texture r) = allocated env ->
  texturesOwned (set_renderable name r env1).
Proof.
  intros (Hinj & Hlive & Hdisp & Hnodup & Hcount) Hnone Hmap Ha Hd Hid.
  unfold texturesOwned, set_renderable. cbn [renderables allocated disposed].
  rewrite Hmap, Ha, Hd, map_size_insert_None by exact Hnone.
  repeat apply conj.
  - intros a b ra rb Hra Hrb Heq.
    destruct (decide (name = a)) as [<-|Hna], (decide (name = b)) as [<-|Hnb];
      [reflexivity| | |].
    + rewrite lookup_insert_eq in Hra. rewrite lookup_insert_ne in Hrb by exact Hnb.
      injection Hra as <-. destruct (Hlive _ _ Hrb). lia.
    + rewrite lookup_insert_eq in Hrb. rewrite lookup_insert_ne in Hra by exact Hna.
      injection Hrb as <-. destruct (Hlive _ _ Hra). lia.
    + rewrite lookup_insert_ne in Hra by exact Hna.
      rewrite lookup_insert_ne in Hrb by exact Hnb. apply (Hinj _ _ _ _ Hra Hrb Heq).
  - intros a ra Hra. destruct (decide (name = a)) as [<-|Hna].
    + rewrite lookup_insert_eq in Hra. injection Hra as <-. rewrite Hid.
      split; [lia|]. intros Hin. apply Hdisp in Hin. lia.
    + rewrite lookup_insert_ne in Hra by exact Hna.
      destruct (Hlive _ _ Hra). split; [lia | assumption].
  - intros id Hin. apply Hdisp in Hin. lia.
  - exact Hnodup.
  - lia.
Qed.

(** *** The message handler, step by step *)

(** For a topic that has a renderable the handler is the update of that
    renderable. *)
Lemma handle_existing (name : string) (message : PartialGridMap) (time : RosTime)
  (env : Env) (grid : GridMap) (renderable : Renderable) :
  normalizeGridMap normalizeFloat32MultiArray message = Js.ok grid ->
  renderables env !! name = Some renderable ->
  handle name message time env
  = let! (renderable', env') := update renderable grid (toNanoSec time) env in
    Js.ok (set_renderable name renderable' env').
Proof.
  intros Hgrid Hr. unfold handleOccupancyGrid. rewrite Hgrid, Hr. reflexivity.
Qed.

(** For a topic seen for the first time it makes a renderable around a
    texture created for the grid, registers it, and updates it. *)
Lemma handle_new (name : string) (message : PartialGridMap) (time : RosTime)
  (env : Env) (grid : GridMap) :
  normalizeGridMap normalizeFloat32MultiArray message = Js.ok grid ->
  renderables env !! name = None ->
  handle name message time env
  = let! (tex, env1) := createTexture grid env in
    let settings := mergeSettings rgbaToCssString (config_topics env !! name) in
    let renderable :=
      {| receiveTime := toNanoSec time;
         messageTime := toNanoSec (stamp (header grid));
         frameId := normalizeFrameId (frame_id (header grid));
         u_pose := pose (info grid);
         settings := settings;
         topic := name;
         gridMap := grid;
         texture := tex;
         material :=
           {| map := tex_id tex;
              transparent := fst (hasTransparency settings env1);
              depthWrite := negb (fst (hasTransparency settings env1)) |};
         scale := (1%float, 1%float, 1%float) |} in
    let! (renderable', env') :=
      update renderable grid (toNanoSec time)
        (set_renderable name renderable
           (set_scratch (parseColors stringToRgba settings) env1)) in
    Js.ok (set_renderable name renderable' env').
Proof.
  intros Hgrid Hr. unfold handleOccupancyGrid. rewrite Hgrid, Hr.
  unfold Js.bind, Js.ok. cbv beta iota.
  destruct (createTexture grid env) as [[tex env1]|e]; reflexivity.
Qed.

End Steps.

(** ** The message handler *)

Section Messages.

Variable stringToRgba : string -> ColorRGBA.
Variable rgbaToCssString : ColorRGBA -> string.
Variable SRGBToLinear : Js.number -> Js.number.
Variable normalizeFrameId : string -> string.
Variable normalizeFloat32MultiArray : PartialFloat32MultiArray -> Float32MultiArray.

Local Abbreviation update := (_updateGridMapRenderable stringToRgba SRGBToLinear normalizeFrameId).
Local Abbreviation palette := (palette stringToRgba SRGBToLinear).
Local Abbreviation handle :=
  (handleOccupancyGrid stringToRgba rgbaToCssString SRGBToLinear normalizeFrameId
     normalizeFloat32MultiArray).
Local Abbreviation hasTransparency := (occupancyGridHasTransparency stringToRgba).
Local Abbreviation mergeSettings := (mergeSettings rgbaToCssString).

(** A handled message ends in an update of the topic's renderable, in an
    environment that differs from the first one by that renderable at
    most. *)
Lemma handle_ok (name : string) (message : PartialGridMap) (time : RosTime)
  (env env' : Env) :
  handle name message time env = Js.ok env' ->
  exists grid r envA r' envU,
    normalizeGridMap normalizeFloat32MultiArray message = Js.ok grid
    /\ renderables envA !! name = Some r
    /\ update r grid (toNanoSec time) envA = Js.ok (r', envU)
    /\ env' = set_renderable name r' envU
    /\ config_topics envA = config_topics env
    /\ errors envA = errors env
    /\ (forall k, k <> name -> renderables envA !! k = renderables env !! k)
    /\ ((envA = env)
        \/ (renderables env !! name = None
            /\ exists tex env1,
                 createTexture grid env = Js.ok (tex, env1)
                 /\ renderables envA = <[name := r]> (renderables env)
                 /\ allocated envA = allocated env1
                 /\ disposed envA = disposed env1
                 /\ texture r = tex
                 /\ topic r = name
                 /\ settings r = mergeSettings (config_topics env !! name)
                 /\ scale r = (1%float, 1%float, 1%float)
                 /\ materialMatches stringToRgba r)).
Proof.
  intros H.
  destruct (normalizeGridMap normalizeFloat32MultiArray message) as [grid|e] eqn:Hgrid;
    [|unfold handleOccupancyGrid in H; rewrite Hgrid in H; discriminate H].
  destruct (renderables env !! name) as [r|] eqn:Hr.
  - rewrite (handle_existing _ _ _ _ _ _ _ _ _ _ _ Hgrid Hr) in H. unfold Js.bind in H.
    destruct (update r grid (toNanoSec time) env) as [[r' envU]|e] eqn:Hup; [|discriminate H].
    injection H as <-. exists grid, r, env, r', envU. repeat apply conj; auto.
  - rewrite (handle_new _ _ _ _ _ _ _ _ _ _ Hgrid Hr) in H. unfold Js.bind in H.
    destruct (createTexture grid env) as [[tex env1]|e] eqn:Hc; [|discriminate H].
    cbv zeta in H.
    match type of H with
    | match update ?r0 _ _ ?envA with _ => _ end = _ =>
        destruct (update r0 grid (toNanoSec time) envA) as [[r' envU]|e] eqn:Hup;
          [|discriminate H];
        injection H as <-; exists grid, r0, envA, r', envU
    end.
    destruct (createTexture_fresh _ _ _ _ Hc) as (_ & _ & _ & Hmap).
    assert (Hcfg : config_topics env1 = config_topics env /\ errors env1 = errors env).
    { unfold createTexture, Js.bind in Hc. destruct (Js.ToIndex _); [|discriminate Hc].
      injection Hc as _ <-. auto. }
    destruct Hcfg as [Hcfg Herr].
    repeat apply conj; auto.
    + cbn. apply lookup_insert_eq.
    + intros k Hk. cbn. rewrite lookup_insert_ne by auto. rewrite Hmap. reflexivity.
    + right. split; [reflexivity|]. exists tex, env1.
      repeat apply conj; auto.
      cbn. rewrite Hmap. reflexivity.
Qed.

Lemma createTexture_counts (grid : GridMap) (env : Env) (tex : DataTexture) (env1 : Env) :
  createTexture grid env = Js.ok (tex, env1) ->
  renderables env1 = renderables env
  /\ allocated env1 = S (allocated env)
  /\ disposed env1 = disposed env
  /\ tex_id tex = allocated env.
Proof.
  unfold createTexture, Js.bind. destruct (Js.ToIndex _); [|discriminate].
  intros [= <- <-]. auto.
Qed.

(** *** What the message handler keeps *)

Lemma handle_texturesOwned (name : string) (message : PartialGridMap) (time : RosTime)
  (env env' : Env) :
  texturesOwned env -> handle name message time env = Js.ok env' -> texturesOwned env'.
Proof.
  intros Hown H.
  destruct (handle_ok _ _ _ _ _ H)
    as (grid & r & envA & r' & envU & _ & Hr & Hup & -> & _ & _ & _ & Hcase).
  destruct (update_step _ _ _ _ _ _ _ _ _ Hup) as ((Hmap & _) & _ & _ & Htex).
  assert (HownA : texturesOwned envA).
  { destruct Hcase as [->|(Hnone & tex & env1 & Hc & HmapA & Ha & Hd & Htx & _)];
      [exact Hown|].
    destruct (createTexture_counts _ _ _ _ Hc) as (Hm1 & Ha1 & Hd1 & Hid).
    pose proof (texturesOwned_create env env1 name r Hown Hnone Hm1 Ha1 Hd1) as Hc'.
    rewrite Htx in Hc'. specialize (Hc' Hid).
    unfold texturesOwned in *. cbn [renderables allocated disposed set_renderable] in Hc'.
    rewrite HmapA, Ha, Hd, <- Hm1. exact Hc'. }
  apply (texturesOwned_replace envA envU name r r' HownA Hr Hmap).
  destruct Htex as [(H1 & _ & H2 & H3)|(H1 & _ & H2 & H3)]; [left|right]; auto.
Qed.

Lemma update_materialMatches (r : Renderable) (grid : GridMap) (time : Z) (env : Env)
  (r' : Renderable) (env' : Env) :
  update r grid time env = Js.ok (r', env') ->
  materialMatches stringToRgba r -> materialMatches stringToRgba r'.
Proof.
  intros Hup (Ht & Hd & Hm).
  destruct (update_step _ _ _ _ _ _ _ _ _ Hup) as (_ & (Hs & _ & Ht' & Hd') & _ & Htex).
  unfold materialMatches. rewrite Hs, Ht', Hd'. repeat apply conj; [exact Ht|exact Hd|].
  destruct Htex as [(H1 & H2 & _)|(H1 & H2 & _)]; congruence.
Qed.

Lemma update_recordsMatch (name : string) (r : Renderable) (grid : GridMap) (time : Z)
  (env : Env) (r' : Renderable) (env' : Env) :
  update r grid time env = Js.ok (r', env') ->
  topic r = name -> recordsMatch normalizeFrameId name r'.
Proof.
  intros Hup Hn.
  destruct (update_step _ _ _ _ _ _ _ _ _ Hup)
    as (_ & (_ & Ht & _) & (Hg & _ & Hm & Hf & Hp) & _).
  unfold recordsMatch. rewrite Hg, Ht. auto.
Qed.

Lemma handle_materials_records (name : string) (message : PartialGridMap) (time : RosTime)
  (env env' : Env) :
  (forall k r, renderables env !! k = Some r ->
     materialMatches stringToRgba r /\ recordsMatch normalizeFrameId k r) ->
  handle name message time env = Js.ok env' ->
  forall k r, renderables env' !! k = Some r ->
    materialMatches stringToRgba r /\ recordsMatch normalizeFrameId k r.
Proof.
  intros Hinv H.
  destruct (handle_ok _ _ _ _ _ H)
    as (grid & r & envA & r' & envU & _ & Hr & Hup & -> & _ & _ & Hframe & Hcase).
  destruct (update_step _ _ _ _ _ _ _ _ _ Hup) as ((Hmap & _) & _).
  intros k rk. cbn [renderables set_renderable].
  destruct (decide (name = k)) as [<-|Hne].
  - rewrite lookup_insert_eq. intros [= <-].
    assert (Hbefore : materialMatches stringToRgba r /\ topic r = name).
    { destruct Hcase as [->|(_ & tex & env1 & _ & _ & _ & _ & _ & Ht & _ & _ & Hmat)].
      - destruct (Hinv _ _ Hr) as (Hmat & (Ht & _)). auto.
      - auto. }
    destruct Hbefore as (Hmat & Ht).
    split; [apply (update_materialMatches _ _ _ _ _ _ Hup Hmat)|].
    apply (update_recordsMatch _ _ _ _ _ _ _ Hup Ht).
  - rewrite lookup_insert_ne by exact Hne. rewrite Hmap, Hframe by auto. apply Hinv.
Qed.

Lemma handle_settings_in_step (name : string) (message : PartialGridMap) (time : RosTime)
  (env env' : Env) :
  (forall k r, renderables env !! k = Some r ->
     settings r = mergeSettings (config_topics env !! k)) ->
  handle name message time env = Js.ok env' ->
  forall k r, renderables env' !! k = Some r ->
    settings r = mergeSettings (config_topics env' !! k).
Proof.
  intros Hinv H.
  destruct (handle_ok _ _ _ _ _ H)
    as (grid & r & envA & r' & envU & _ & Hr & Hup & -> & Hcfg & _ & Hframe & Hcase).
  destruct (update_step _ _ _ _ _ _ _ _ _ Hup) as ((Hmap & HcfgU & _) & (Hs & _) & _).
  intros k rk. cbn [renderables config_topics set_renderable]. rewrite HcfgU, Hcfg.
  destruct (decide (name = k)) as [<-|Hne].
  - rewrite lookup_insert_eq. intros [= <-]. rewrite Hs.
    destruct Hcase as [->|(_ & tex & env1 & _ & _ & _ & _ & _ & _ & Hset & _)]; auto.
  - rewrite lookup_insert_ne by exact Hne. rewrite Hmap, Hframe by auto. apply Hinv.
Qed.

Lemma handle_consistent (name : string) (message : PartialGridMap) (time : RosTime)
  (env env' : Env) :
  consistent stringToRgba rgbaToCssString normalizeFrameId env ->
  handle name message time env = Js.ok env' ->
  consistent stringToRgba rgbaToCssString normalizeFrameId env'.
Proof.
  intros (Hwf & Hown & Hinv) H. split; [|split].
  - apply (handleOccupancyGrid_wellFormed _ _ _ _ _ _ _ _ _ _ Hwf H).
  - apply (handle_texturesOwned _ _ _ _ _ Hown H).
  - intros k r Hk.
    assert (H1 : forall k r, renderables env !! k = Some r ->
                   materialMatches stringToRgba r /\ recordsMatch normalizeFrameId k r)
      by (intros k0 r0 H0; destruct (Hinv _ _ H0) as (? & ? & ?); auto).
    assert (H2 : forall k r, renderables env !! k = Some r ->
                   settings r = mergeSettings (config_topics env !! k))
      by (intros k0 r0 H0; destruct (Hinv _ _ H0) as (? & ? & ?); auto).
    destruct (handle_materials_records _ _ _ _ _ H1 H _ _ Hk).
    pose proof (handle_settings_in_step _ _ _ _ _ H2 H _ _ Hk). auto.
Qed.

(** X7: a message that is handled leaves a renderable for its topic, stamped
    with the receive time of the message, and touches neither the
    renderables of other topics nor the configured settings. *)
Theorem handleOccupancyGrid_touches_one_topic (name : string) (message : PartialGridMap)
  (time : RosTime) (env env' : Env) :
  handle name message time env = Js.ok env' ->
  (exists renderable, renderables env' !! name = Some renderable
     /\ receiveTime renderable = toNanoSec time)
  /\ (forall other, other <> name -> renderables env' !! other = renderables env !! other)
  /\ config_topics env' = config_topics env.
Proof.
  intros H.
  destruct (handle_ok _ _ _ _ _ H)
    as (grid & r & envA & r' & envU & _ & Hr & Hup & -> & Hcfg & _ & Hframe & _).
  destruct (update_step _ _ _ _ _ _ _ _ _ Hup)
    as ((Hmap & HcfgU & _) & _ & (_ & Ht & _) & _).
  cbn [renderables config_topics set_renderable]. repeat apply conj.
  - exists r'. rewrite lookup_insert_eq. auto.
  - intros other Hne. rewrite lookup_insert_ne by auto. rewrite Hmap. auto.
  - congruence.
Qed.

(** X8: the handler only ever appends to the error list: a message whose
    grid fails the layer check adds exactly one [INVALID_GRID_MAP]
    diagnostic for its topic, a message whose grid passes adds none, and
    earlier diagnostics are never withdrawn. *)
Theorem handleOccupancyGrid_diagnostics (name : string) (message : PartialGridMap)
  (time : RosTime) (env env' : Env) :
  (forall renderable, renderables env !! name = Some renderable -> topic renderable = name) ->
  handle name message time env = Js.ok env' ->
  exists grid,
    normalizeGridMap normalizeFloat32MultiArray message = Js.ok grid
    /\ errors env'
       = errors env
         ++ match checkLayers (gridWidth grid) (gridHeight grid) (data grid) with
            | Some diagnostic => [(name, INVALID_GRID_MAP, diagnostic)]
            | None => []
            end.
Proof.
  intros Htopic H.
  destruct (handle_ok _ _ _ _ _ H)
    as (grid & r & envA & r' & envU & Hgrid & Hr & Hup & -> & _ & Herr & _ & Hcase).
  destruct (update_step _ _ _ _ _ _ _ _ _ Hup) as ((_ & _ & HerrU) & _).
  exists grid. split; [exact Hgrid|]. cbn [errors set_renderable].
  rewrite HerrU, Herr.
  replace (topic r) with name; [reflexivity|].
  destruct Hcase as [->|(_ & tex & env1 & _ & _ & _ & _ & _ & Ht & _)]; [|auto].
  symmetry. apply Htopic. exact Hr.
Qed.

(** X9: the first message of a topic creates and registers the renderable
    before the grid is checked.  If the grid fails the check, the topic is
    left with a renderable whose raster has the grid's dimensions and is
    all zero, never recoloured, at the initial scale, and one diagnostic
    is reported. *)
Theorem handleOccupancyGrid_first_message_invalid (name : string)
  (message : PartialGridMap) (time : RosTime) (env : Env) (grid : GridMap)
  (diagnostic : Diagnostic) (len : Z) :
  renderables env !! name = None ->
  normalizeGridMap normalizeFloat32MultiArray message = Js.ok grid ->
  checkLayers (gridWidth grid) (gridHeight grid) (data grid) = Some diagnostic ->
  Js.ToIndex (gridSize grid * 4)%float = Js.ok len ->
  exists env' renderable,
    handle name message time env = Js.ok env'
    /\ renderables env' !! name = Some renderable
    /\ gridMap renderable = grid
    /\ texture renderable
       = {| tex_id := allocated env;
            image_data := repeat 0 (Z.to_nat len);
            image_width := gridWidth grid;
            image_height := gridHeight grid;
            needsUpdate := false |}
    /\ scale renderable = (1%float, 1%float, 1%float)
    /\ errors env' = errors env ++ [(name, INVALID_GRID_MAP, diagnostic)]
    /\ allocated env' = S (allocated env)
    /\ disposed env' = disposed env.
Proof.
  intros Hnone Hgrid Hcheck Hlen.
  rewrite (handle_new _ _ _ _ _ _ _ _ _ _ Hgrid Hnone).
  unfold createTexture, Js.bind. fold (gridSize grid). rewrite Hlen.
  unfold Js.ok. cbv beta iota zeta. rewrite (update_invalid _ _ _ _ _ _ _ _ Hcheck).
  unfold Js.ok. eexists _, _. split; [reflexivity|]. cbn. rewrite lookup_insert_eq.
  repeat apply conj; reflexivity.
Qed.

End Messages.

(** ** The settings handler *)

Section Settings.

Variable stringToRgba : string -> ColorRGBA.
Variable rgbaToCssString : ColorRGBA -> string.
Variable SRGBToLinear : Js.number -> Js.number.
Variable normalizeFrameId : string -> string.
Variable normalizeFloat32MultiArray : PartialFloat32MultiArray -> Float32MultiArray.
Variable Value : Type.
Variable saveSetting :
  list string -> Value -> gmap string PartialSettings -> gmap string PartialSettings.

Local Abbreviation update := (_updateGridMapRenderable stringToRgba SRGBToLinear normalizeFrameId).
Local Abbreviation palette := (palette stringToRgba SRGBToLinear).
Local Abbreviation hasTransparency := (occupancyGridHasTransparency stringToRgba).
Local Abbreviation mergeSettings := (mergeSettings rgbaToCssString).
Local Abbreviation handleSettings :=
  (handleSettingsAction stringToRgba rgbaToCssString SRGBToLinear normalizeFrameId
     Value saveSetting).

(** The handler on an update action for a topic that has a renderable. *)
Lemma handleSettings_renderable (a name c : string) (value : Value) (env : Env)
  (r : Renderable) :
  renderables env !! name = Some r ->
  handleSettings (ActionUpdate [a; name; c] value) env
  = let config := saveSetting [a; name; c] value (config_topics env) in
    let settings' := mergeSettings (config !! name) in
    let changed :=
      negb (Bool.eqb (fst (hasTransparency (settings r) env))
              (fst (hasTransparency settings' env))) in
    let r1 :=
      {| receiveTime := receiveTime r;
         messageTime := messageTime r;
         frameId := frameId r;
         u_pose := u_pose r;
         settings := settings';
         topic := topic r;
         gridMap := gridMap r;
         texture := texture r;
         material :=
           if changed then
             {| map := map (material r);
                transparent := fst (hasTransparency settings' env);
                depthWrite := negb (fst (hasTransparency settings' env)) |}
           else material r;
         scale := scale r |} in
    let! (r', envU) :=
      update r1 (gridMap r) (receiveTime r)
        (set_scratch (parseColors stringToRgba settings') (set_config_topics config env)) in
    Js.ok (set_renderable name r' envU, changed).
Proof.
  intros Hr. unfold handleSettingsAction. cbn [renderables set_config_topics].
  rewrite Hr. reflexivity.
Qed.

Lemma handleSettings_ok (action : SettingsTreeAction Value) (env env' : Env) (flag : bool) :
  handleSettings action env = Js.ok (env', flag) ->
  match action with
  | ActionUpdate [a; name; c] value =>
      match renderables env !! name with
      | Some r =>
          exists r1 envA r' envU,
            update r1 (gridMap r) (receiveTime r) envA = Js.ok (r', envU)
            /\ env' = set_renderable name r' envU
            /\ (renderables envA = renderables env
                /\ errors envA = errors env
                /\ allocated envA = allocated env
                /\ disposed envA = disposed env
                /\ config_topics envA = saveSetting [a; name; c] value (config_topics env))
            /\ (texture r1 = texture r
                /\ topic r1 = topic r
                /\ scale r1 = scale r
                /\ settings r1 = mergeSettings (config_topics envA !! name)
                /\ map (material r1) = map (material r))
            /\ (materialMatches stringToRgba r -> materialMatches stringToRgba r1)
            /\ flag = negb (Bool.eqb (fst (hasTransparency (settings r) env))
                              (fst (hasTransparency (settings r1) env)))
      | None =>
          env' = set_config_topics (saveSetting [a; name; c] value (config_topics env)) env
          /\ flag = false
      end
  | _ => env' = env /\ flag = false
  end.
Proof.
  destruct action as [path value|path id]; [|intros [= <- <-]; auto].
  destruct path as [|a [|name [|c [|x rest]]]]; try (intros [= <- <-]; auto).
  destruct (renderables env !! name) as [r|] eqn:Hr.
  - rewrite (handleSettings_renderable _ _ _ _ _ _ Hr). cbv zeta. unfold Js.bind.
    match goal with
    | |- match update ?r1 _ _ ?envA with _ => _ end = _ -> _ =>
        destruct (update r1 (gridMap r) (receiveTime r) envA) as [[r' envU]|e] eqn:Hup;
          [|discriminate];
        intros [= <- <-]; exists r1, envA, r', envU
    end.
    repeat apply conj; try reflexivity; [exact Hup| |].
    + cbn [material]. destruct (negb _); reflexivity.
    + intros (Ht & Hd & Hm). unfold materialMatches. cbn [settings material texture].
      destruct (negb _) eqn:Hchanged; cbn [transparent depthWrite map].
      * auto.
      * apply negb_false_iff, Bool.eqb_prop in Hchanged.
        repeat apply conj; [|exact Hd|exact Hm].
        intros env0. rewrite (Ht env). rewrite Hchanged. reflexivity.
  - unfold handleSettingsAction. cbn [renderables set_config_topics]. rewrite Hr.
    intros [= <- <-]. auto.
Qed.

(** X11: a settings action that is not an update, or whose path does not
    have exactly three segments, changes nothing and saves nothing; an
    update with a three-segment path whose second segment names no
    renderable saves the setting and does nothing else.  The first segment
    of the path is not looked at. *)
Theorem handleSettingsAction_without_renderable (env : Env) :
  (forall path id, handleSettings (ActionPerformNode path id) env = Js.ok (env, false))
  /\ (forall path value, length path <> 3%nat ->
        handleSettings (ActionUpdate path value) env = Js.ok (env, false))
  /\ (forall a name c value, renderables env !! name = None ->
        handleSettings (ActionUpdate [a; name; c] value) env
        = Js.ok (set_config_topics (saveSetting [a; name; c] value (config_topics env)) env,
                 false)).
Proof.
  repeat apply conj.
  - reflexivity.
  - intros path value Hlen.
    destruct path as [|a [|name [|c [|x rest]]]]; try reflexivity. cbn in Hlen. lia.
  - intros a name c value Hr. unfold handleSettingsAction.
    cbn [renderables set_config_topics]. rewrite Hr. reflexivity.
Qed.

(** X12: an update action for a topic with a renderable saves the setting,
    gives the renderable the default settings overlaid with the saved
    ones, brings the material's transparency flags in line with them, and
    marks the material for update exactly when its transparency changed;
    the grid and the receive time are those the renderable had. *)
Theorem handleSettingsAction_refreshes_renderable (a name c : string) (value : Value)
  (env : Env) (renderable : Renderable) (env' : Env) (flag : bool) :
  renderables env !! name = Some renderable ->
  materialMatches stringToRgba renderable ->
  handleSettings (ActionUpdate [a; name; c] value) env = Js.ok (env', flag) ->
  exists renderable',
    renderables env' !! name = Some renderable'
    /\ config_topics env' = saveSetting [a; name; c] value (config_topics env)
    /\ settings renderable' = mergeSettings (config_topics env' !! name)
    /\ materialMatches stringToRgba renderable'
    /\ flag = negb (Bool.eqb (transparent (material renderable))
                      (transparent (material renderable')))
    /\ gridMap renderable' = gridMap renderable
    /\ receiveTime renderable' = receiveTime renderable.
Proof.
  intros Hr Hmat H. apply handleSettings_ok in H. rewrite Hr in H.
  destruct H as (r1 & envA & r' & envU & Hup & -> & (_ & _ & _ & _ & HcfgA)
                 & (_ & _ & _ & Hset & _) & Hmat1 & Hflag).
  destruct (update_step _ _ _ _ _ _ _ _ _ Hup)
    as ((_ & HcfgU & _) & (Hs & _ & Ht' & _) & (Hg & Htime & _) & _).
  exists r'. cbn [renderables config_topics set_renderable].
  rewrite lookup_insert_eq, HcfgU, HcfgA.
  split; [reflexivity|]. split; [reflexivity|].
  split; [rewrite Hs, Hset, HcfgA; reflexivity|].
  split; [apply (update_materialMatches _ _ _ _ _ _ _ _ _ Hup), Hmat1, Hmat|].
  split; [|auto].
  rewrite Hflag. pose proof (Hmat1 Hmat) as (Ht1 & _). destruct Hmat as (Ht & _).
  rewrite Ht', (Ht1 env), (Ht env). reflexivity.
Qed.

End Settings.

Section SettingsInvariants.

Variable stringToRgba : string -> ColorRGBA.
Variable rgbaToCssString : ColorRGBA -> string.
Variable SRGBToLinear : Js.number -> Js.number.
Variable normalizeFrameId : string -> string.
Variable normalizeFloat32MultiArray : PartialFloat32MultiArray -> Float32MultiArray.
Variable Value : Type.
Variable saveSetting :
  list string -> Value -> gmap string PartialSettings -> gmap string PartialSettings.

Local Abbreviation update := (_updateGridMapRenderable stringToRgba SRGBToLinear normalizeFrameId).
Local Abbreviation palette := (palette stringToRgba SRGBToLinear).
Local Abbreviation hasTransparency := (occupancyGridHasTransparency stringToRgba).
Local Abbreviation mergeSettings := (mergeSettings rgbaToCssString).
Local Abbreviation handle :=
  (handleOccupancyGrid stringToRgba rgbaToCssString SRGBToLinear normalizeFrameId
     normalizeFloat32MultiArray).
Local Abbreviation handleSettings :=
  (handleSettingsAction stringToRgba rgbaToCssString SRGBToLinear normalizeFrameId
     Value saveSetting).
Local Abbreviation send :=
  (deliver stringToRgba rgbaToCssString SRGBToLinear normalizeFrameId
     normalizeFloat32MultiArray Value saveSetting).
Local Abbreviation sendAll :=
  (deliverAll stringToRgba rgbaToCssString SRGBToLinear normalizeFrameId
     normalizeFloat32MultiArray Value saveSetting).
Local Abbreviation consistent := (consistent stringToRgba rgbaToCssString normalizeFrameId).

(** X13: for a renderable whose held grid passes the check and whose texture
    has that grid's dimensions, a settings update returns and recolours
    the raster in place: the same texture and buffer length, every byte
    the stored channel of the colour that the new settings give to the
    cell value 0 (the only value the loop sees), nothing allocated or
    disposed, no diagnostic. *)
Theorem handleSettingsAction_recolours_in_place (a name c : string) (value : Value)
  (env : Env) (renderable : Renderable) :
  renderables env !! name = Some renderable ->
  textureFits (texture renderable) ->
  checkLayers (gridWidth (gridMap renderable)) (gridHeight (gridMap renderable))
    (data (gridMap renderable)) = None ->
  resized (gridMap renderable) (texture renderable) = false ->
  exists env' flag renderable',
    handleSettings (ActionUpdate [a; name; c] value) env = Js.ok (env', flag)
    /\ renderables env' !! name = Some renderable'
    /\ settings renderable'
       = mergeSettings (saveSetting [a; name; c] value (config_topics env) !! name)
    /\ tex_id (texture renderable') = tex_id (texture renderable)
    /\ length (image_data (texture renderable')) = length (image_data (texture renderable))
    /\ (forall j byte, image_data (texture renderable') !! j = Some byte ->
          byte = Js.ToUint8Clamp
                   (channel (cellColor (palette (settings renderable')) 0) (j mod 4)))
    /\ allocated env' = allocated env
    /\ disposed env' = disposed env
    /\ errors env' = errors env.
Proof.
  intros Hr Hfit Hcheck Hres.
  pose proof (kept_texture_length _ _ Hfit Hres) as Hlen.
  destruct (JsFacts.iterations_defined _ _ Hlen) as [n Hn].
  pose proof (JsFacts.raster_covered _ _ _ Hlen Hn) as Hcov.
  rewrite (handleSettings_renderable _ _ _ _ _ _ _ _ _ _ _ _ Hr). cbv zeta.
  rewrite (update_kept _ _ _ _ _ _ _ n Hcheck); [|exact Hres|exact Hn].
  unfold Js.bind. eexists _, _, _. split; [reflexivity|].
  cbn [renderables set_renderable set_scratch set_config_topics allocated disposed errors].
  rewrite lookup_insert_eq. split; [reflexivity|].
  cbn [settings texture tex_id image_data]. repeat apply conj; try reflexivity.
  - apply length_recolor.
  - intros j byte Hj. rewrite recolor_lookup in Hj.
    destruct (image_data (texture renderable) !! j) as [old|] eqn:Hold;
      [|destruct (decide _); discriminate Hj].
    apply lookup_lt_Some in Hold.
    destruct (decide _) as [_|Hout]; [|lia].
    injection Hj as <-. reflexivity.
Qed.

(** X14: a renderable holds the grid of the last message even when that grid
    failed the check.  A settings update then changes the settings but
    leaves the texture and the scale untouched, and reports the
    diagnostic once more. *)
Theorem handleSettingsAction_after_invalid_message (a name c : string) (value : Value)
  (env : Env) (renderable : Renderable) (diagnostic : Diagnostic) :
  renderables env !! name = Some renderable ->
  checkLayers (gridWidth (gridMap renderable)) (gridHeight (gridMap renderable))
    (data (gridMap renderable)) = Some diagnostic ->
  exists env' flag renderable',
    handleSettings (ActionUpdate [a; name; c] value) env = Js.ok (env', flag)
    /\ renderables env' !! name = Some renderable'
    /\ settings renderable'
       = mergeSettings (saveSetting [a; name; c] value (config_topics env) !! name)
    /\ texture renderable' = texture renderable
    /\ scale renderable' = scale renderable
    /\ errors env' = errors env ++ [(topic renderable, INVALID_GRID_MAP, diagnostic)].
Proof.
  intros Hr Hcheck.
  rewrite (handleSettings_renderable _ _ _ _ _ _ _ _ _ _ _ _ Hr). cbv zeta.
  rewrite (update_invalid _ _ _ _ _ _ _ _ Hcheck).
  unfold Js.bind. eexists _, _, _. split; [reflexivity|].
  cbn [renderables set_renderable]. rewrite lookup_insert_eq.
  repeat apply conj; reflexivity.
Qed.

(** *** What the settings handler keeps *)

Lemma texturesOwned_ext (env env' : Env) :
  renderables env' = renderables env -> allocated env' = allocated env ->
  disposed env' = disposed env -> texturesOwned env -> texturesOwned env'.
Proof. unfold texturesOwned. intros -> -> ->. auto. Qed.

Lemma handleSettings_wellFormed (action : SettingsTreeAction Value) (env env' : Env)
  (flag : bool) :
  wellFormed env -> handleSettings action env = Js.ok (env', flag) -> wellFormed env'.
Proof.
  intros Hwf H. apply handleSettings_ok in H.
  destruct action as [path value|path id]; [|destruct H as [-> _]; exact Hwf].
  destruct path as [|a [|name [|c [|x rest]]]]; try (destruct H as [-> _]; exact Hwf).
  destruct (renderables env !! name) as [r|] eqn:Hr; [|destruct H as [-> _]; exact Hwf].
  destruct H as (r1 & envA & r' & envU & Hup & -> & (HmapA & _ & HaA & _) & (Htex & _) & _).
  destruct (Hwf _ _ Hr) as [Hfit Hid].
  apply update_keeps_invariant in Hup; [|rewrite Htex; exact Hfit|rewrite Htex, HaA; exact Hid].
  destruct Hup as (Hfit' & Hid' & Hle & Hmap).
  intros other ro. cbn [renderables set_renderable allocated].
  destruct (decide (name = other)) as [<-|Hne].
  - rewrite lookup_insert_eq. intros [= <-]. auto.
  - rewrite lookup_insert_ne by exact Hne. rewrite Hmap, HmapA. intros Ho.
    destruct (Hwf _ _ Ho) as [Hf Hi]. split; [exact Hf | lia].
Qed.

Lemma handleSettings_texturesOwned (action : SettingsTreeAction Value) (env env' : Env)
  (flag : bool) :
  texturesOwned env -> handleSettings action env = Js.ok (env', flag) -> texturesOwned env'.
Proof.
  intros Hown H. apply handleSettings_ok in H.
  destruct action as [path value|path id]; [|destruct H as [-> _]; exact Hown].
  destruct path as [|a [|name [|c [|x rest]]]]; try (destruct H as [-> _]; exact Hown).
  destruct (renderables env !! name) as [r|] eqn:Hr; [|destruct H as [-> _]; exact Hown].
  destruct H as (r1 & envA & r' & envU & Hup & -> & (HmapA & _ & HaA & HdA & _)
                 & (Htex & _) & _).
  destruct (update_step _ _ _ _ _ _ _ _ _ Hup) as ((Hmap & _) & _ & _ & Hcase).
  apply (texturesOwned_replace envA envU name r r').
  - apply (texturesOwned_ext env); auto.
  - rewrite HmapA. exact Hr.
  - exact Hmap.
  - rewrite Htex in Hcase.
    destruct Hcase as [(H1 & _ & H2 & H3)|(H1 & _ & H2 & H3)]; [left|right]; auto.
Qed.

Lemma handleSettings_materials_records (action : SettingsTreeAction Value) (env env' : Env)
  (flag : bool) :
  (forall k r, renderables env !! k = Some r ->
     materialMatches stringToRgba r /\ recordsMatch normalizeFrameId k r) ->
  handleSettings action env = Js.ok (env', flag) ->
  forall k r, renderables env' !! k = Some r ->
    materialMatches stringToRgba r /\ recordsMatch normalizeFrameId k r.
Proof.
  intros Hinv H. apply handleSettings_ok in H.
  destruct action as [path value|path id]; [|destruct H as [-> _]; exact Hinv].
  destruct path as [|a [|name [|c [|x rest]]]]; try (destruct H as [-> _]; exact Hinv).
  destruct (renderables env !! name) as [r|] eqn:Hr; [|destruct H as [-> _]; exact Hinv].
  destruct H as (r1 & envA & r' & envU & Hup & -> & (HmapA & _) & (_ & Htopic & _)
                 & Hmat1 & _).
  destruct (update_step _ _ _ _ _ _ _ _ _ Hup) as ((Hmap & _) & _).
  destruct (Hinv _ _ Hr) as (Hmat & (Ht & Hm & Hf & Hp)).
  intros k rk. cbn [renderables set_renderable].
  destruct (decide (name = k)) as [<-|Hne].
  - rewrite lookup_insert_eq. intros [= <-].
    split; [apply (update_materialMatches _ _ _ _ _ _ _ _ _ Hup), Hmat1, Hmat|].
    apply (update_recordsMatch _ _ _ _ _ _ _ _ _ _ Hup). congruence.
  - rewrite lookup_insert_ne by exact Hne. rewrite Hmap, HmapA. apply Hinv.
Qed.

(** [saveSetting] writes at the path it is given: the settings of topics
    other than the one the path names stay as they are. *)
Hypothesis saveSetting_local :
  forall path value topics name,
    path !! 1%nat <> Some name -> saveSetting path value topics !! name = topics !! name.

Lemma handleSettings_settings_in_step (action : SettingsTreeAction Value) (env env' : Env)
  (flag : bool) :
  (forall k r, renderables env !! k = Some r ->
     settings r = mergeSettings (config_topics env !! k)) ->
  handleSettings action env = Js.ok (env', flag) ->
  forall k r, renderables env' !! k = Some r ->
    settings r = mergeSettings (config_topics env' !! k).
Proof.
  intros Hinv H. apply handleSettings_ok in H.
  destruct action as [path value|path id]; [|destruct H as [-> _]; exact Hinv].
  destruct path as [|a [|name [|c [|x rest]]]]; try (destruct H as [-> _]; exact Hinv).
  destruct (renderables env !! name) as [r|] eqn:Hr.
  - destruct H as (r1 & envA & r' & envU & Hup & -> & (HmapA & _ & _ & _ & HcfgA)
                   & (_ & _ & _ & Hset & _) & _).
    destruct (update_step _ _ _ _ _ _ _ _ _ Hup) as ((Hmap & HcfgU & _) & (Hs & _) & _).
    intros k rk. cbn [renderables config_topics set_renderable]. rewrite HcfgU.
    destruct (decide (name = k)) as [<-|Hne].
    + rewrite lookup_insert_eq. intros [= <-]. rewrite Hs. exact Hset.
    + rewrite lookup_insert_ne by exact Hne. rewrite Hmap, HmapA, HcfgA. intros Hk.
      rewrite saveSetting_local by (cbn; congruence). apply Hinv, Hk.
  - destruct H as [-> _]. intros k rk. cbn [renderables config_topics set_config_topics].
    intros Hk. rewrite saveSetting_local; [apply Hinv, Hk|].
    cbn. intros [= ->]. congruence.
Qed.

Lemma handleSettings_consistent (action : SettingsTreeAction Value) (env env' : Env)
  (flag : bool) :
  consistent env -> handleSettings action env = Js.ok (env', flag) -> consistent env'.
Proof.
  intros (Hwf & Hown & Hinv) H. split; [|split].
  - apply (handleSettings_wellFormed _ _ _ _ Hwf H).
  - apply (handleSettings_texturesOwned _ _ _ _ Hown H).
  - intros k r Hk.
    assert (H1 : forall k r, renderables env !! k = Some r ->
                   materialMatches stringToRgba r /\ recordsMatch normalizeFrameId k r)
      by (intros k0 r0 H0; destruct (Hinv _ _ H0) as (? & ? & ?); auto).
    assert (H2 : forall k r, renderables env !! k = Some r ->
                   settings r = mergeSettings (config_topics env !! k))
      by (intros k0 r0 H0; destruct (Hinv _ _ H0) as (? & ? & ?); auto).
    destruct (handleSettings_materials_records _ _ _ _ H1 H _ _ Hk).
    pose proof (handleSettings_settings_in_step _ _ _ _ H2 H _ _ Hk). auto.
Qed.

Lemma deliver_settings (action : SettingsTreeAction Value) (env env' : Env) :
  send (SettingsEvent action) env = Js.ok env' ->
  exists flag, handleSettings action env = Js.ok (env', flag).
Proof.
  unfold deliver, Js.bind.
  destruct (handleSettings action env) as [[env1 flag]|e]; [|discriminate].
  intros [= <-]. eauto.
Qed.

Lemma deliver_consistent (event : Event Value) (env env' : Env) :
  consistent env -> send event env = Js.ok env' -> consistent env'.
Proof.
  intros Hc H. destruct event as [name message time|action].
  - apply (handle_consistent _ _ _ _ _ _ _ _ _ _ Hc H).
  - destruct (deliver_settings _ _ _ H) as [flag H']. apply (handleSettings_consistent _ _ _ _ Hc H').
Qed.

Lemma initialEnv_consistent (config : gmap string PartialSettings) :
  consistent (initialEnv config).
Proof.
  split; [|split].
  - intros k r Hk. cbn in Hk. rewrite lookup_empty in Hk. discriminate Hk.
  - repeat apply conj; cbn.
    + intros a b ra rb Ha. rewrite lookup_empty in Ha. discriminate Ha.
    + intros a ra Ha. rewrite lookup_empty in Ha. discriminate Ha.
    + intros id [].
    + constructor.
    + rewrite map_size_empty. reflexivity.
  - intros k r Hk. cbn in Hk. rewrite lookup_empty in Hk. discriminate Hk.
Qed.

Lemma deliverAll_consistent (events : list (Event Value)) (env env' : Env) :
  consistent env -> sendAll events env = Js.ok env' -> consistent env'.
Proof.
  revert env. induction events as [|event rest IH]; intros env Hc H.
  - injection H as <-. exact Hc.
  - cbn [deliverAll] in H. unfold Js.bind in H.
    destruct (send event env) as [env1|e] eqn:Hd; [|discriminate H].
    apply (IH env1); [|exact H]. apply (deliver_consistent _ _ _ Hc Hd).
Qed.

(** X15: provided [saveSetting] leaves the settings of topics other than
    the one named by its path alone, every environment reached from a
    fresh extension by messages and settings actions, each returning, is
    consistent: each renderable's [userData.texture] has a buffer that fits
    its dimensions, every texture handed out is disposed once or is the
    [userData.texture] of one renderable, each material has the
    transparency flags its renderable's settings ask for and that texture
    as its [map], each renderable's records match the grid it holds, and
    its settings are the defaults overlaid with the configured ones. *)
Theorem reachable_states_are_consistent (config : gmap string PartialSettings)
  (events : list (Event Value)) (env : Env) :
  sendAll events (initialEnv config) = Js.ok env -> consistent env.
Proof.
  pose proof (initialEnv_consistent config) as Hc. revert Hc.
  generalize (initialEnv config). induction events as [|event rest IH]; intros env0 Hc H.
  - injection H as <-. exact Hc.
  - cbn [deliverAll] in H. unfold Js.bind in H.
    destruct (send event env0) as [env1|e] eqn:Hd; [|discriminate H].
    apply (IH env1); [|exact H]. apply (deliver_consistent _ _ _ Hc Hd).
Qed.

End SettingsInvariants.

(** ** What every event keeps, and the settings tree *)

Section Invariants.

Variable stringToRgba : string -> ColorRGBA.
Variable rgbaToCssString : ColorRGBA -> string.
Variable SRGBToLinear : Js.number -> Js.number.
Variable normalizeFrameId : string -> string.
Variable normalizeFloat32MultiArray : PartialFloat32MultiArray -> Float32MultiArray.
Variable Value : Type.
Variable saveSetting :
  list string -> Value -> gmap string PartialSettings -> gmap string PartialSettings.
Variable Topic : Type.
Variable topic_name : Topic -> string.
Variable topicIsConvertibleToSchema : Topic -> bool.
Variable toLocaleLowerCase : string -> string.

Local Abbreviation merge := (mergeSettings rgbaToCssString).
Local Abbreviation send :=
  (deliver stringToRgba rgbaToCssString SRGBToLinear normalizeFrameId
     normalizeFloat32MultiArray Value saveSetting).
Local Abbreviation nodes :=
  (settingsNodes rgbaToCssString Topic topic_name topicIsConvertibleToSchema
     toLocaleLowerCase).

(** X16: the handlers' bookkeeping of [userData.texture].  If every
    texture handed out is either disposed, once, or is the
    [userData.texture] of exactly one renderable, that is still so after a
    message or a settings action that returns; in particular the
    [userData.texture] of a renderable is then not a disposed one, no two
    renderables have the same, and the textures created are as many as
    those disposed and those that are some renderable's [userData.texture]
    together. *)
Theorem deliver_keeps_textures_owned (event : Event Value) (env env' : Env) :
  texturesOwned env -> send event env = Js.ok env' -> texturesOwned env'.
Proof.
  intros Hown H. destruct event as [name message time|action].
  - apply (handle_texturesOwned _ _ _ _ _ _ _ _ _ _ Hown H).
  - destruct (deliver_settings _ _ _ _ _ _ _ _ _ _ H) as [flag H'].
    apply (handleSettings_texturesOwned _ _ _ _ _ _ _ _ _ _ Hown H').
Qed.

(** X17: both handlers keep each renderable's material and records in
    step: the material's transparency flags are those its settings ask
    for, it samples the renderable's texture, and the topic, message time,
    frame and pose are those of the grid the renderable holds. *)
Theorem deliver_keeps_materials_and_records (event : Event Value) (env env' : Env) :
  (forall name renderable, renderables env !! name = Some renderable ->
     materialMatches stringToRgba renderable /\ recordsMatch normalizeFrameId name renderable) ->
  send event env = Js.ok env' ->
  forall name renderable, renderables env' !! name = Some renderable ->
    materialMatches stringToRgba renderable /\ recordsMatch normalizeFrameId name renderable.
Proof.
  intros Hinv H. destruct event as [name message time|action].
  - apply (handle_materials_records _ _ _ _ _ _ _ _ _ _ Hinv H).
  - destruct (deliver_settings _ _ _ _ _ _ _ _ _ _ H) as [flag H'].
    apply (handleSettings_materials_records _ _ _ _ _ _ _ _ _ _ Hinv H').
Qed.

(** *** The settings tree *)

Lemma settingsNodes_loop (config : gmap string PartialSettings) (topics : list Topic)
  (entries : list SettingsTreeEntry) :
  exists more,
    fold_left
      (fun entries topic =>
         if negb (topicIsConvertibleToSchema topic) then entries
         else
           let config := (config !! topic_name topic) ?? emptySettings in
           let fields :=
             {| fields_minColor :=
                  {| field_label := "Min Color"; field_input := "rgba";
                     field_value := p_minColor config ?? DEFAULT_MIN_COLOR_STR rgbaToCssString |};
                fields_maxColor :=
                  {| field_label := "Max Color"; field_input := "rgba";
                     field_value := p_maxColor config ?? DEFAULT_MAX_COLOR_STR rgbaToCssString |};
                fields_unknownColor :=
                  {| field_label := "Unknown Color"; field_input := "rgba";
                     field_value :=
                       p_unknownColor config ?? DEFAULT_UNKNOWN_COLOR_STR rgbaToCssString |};
                fields_invalidColor :=
                  {| field_label := "Invalid Color"; field_input := "rgba";
                     field_value :=
                       p_invalidColor config ?? DEFAULT_INVALID_COLOR_STR rgbaToCssString |};
                fields_frameLocked :=
                  {| field_label := "Frame Lock"; field_input := "boolean";
                     field_value := p_frameLocked config ?? false |} |} in
           entries ++
           [ {| entry_path := ["topics"; topic_name topic];
                entry_node :=
                  {| node_label := topic_name topic;
                     node_icon := "Cells";
                     node_fields := fields;
                     node_visible :=
                       p_visible config ?? visible (DEFAULT_SETTINGS rgbaToCssString);
                     node_order := toLocaleLowerCase (topic_name topic) |} |} ])
      topics entries
    = entries ++ more
    /\ Forall2
         (fun topic entry =>
            displays entry (topic_name topic) (merge (config !! topic_name topic)))
         (List.filter topicIsConvertibleToSchema topics) more.
Proof.
  revert entries. induction topics as [|topic topics IH]; intros entries.
  - exists []. cbn. rewrite app_nil_r. split; [reflexivity | constructor].
  - cbn [fold_left List.filter].
    destruct (topicIsConvertibleToSchema topic) eqn:Hc; cbn [negb].
    + match goal with
      | |- context [fold_left _ topics (entries ++ [?entry])] =>
          destruct (IH (entries ++ [entry])) as (more & Heq & Hall); exists (entry :: more)
      end.
      split; [etransitivity; [exact Heq | rewrite <- app_assoc; reflexivity]|].
      constructor; [|exact Hall].
      unfold displays, mergeSettings. cbn.
      destruct (config !! topic_name topic) as [c|]; cbn; repeat apply conj; reflexivity.
    + apply IH.
Qed.

(** X18: [settingsNodes] yields one entry per topic that is convertible to the
    grid map schema, in the order of the topics and none when there are no
    topics, at the path ["topics", name]; the values it displays are those
    of the default settings overlaid with the configured ones, the
    settings a renderable of that topic is given. *)
Theorem settingsNodes_displays_merged_settings (topics : option (list Topic))
  (config : gmap string PartialSettings) :
  Forall2
    (fun topic entry =>
       displays entry (topic_name topic) (merge (config !! topic_name topic)))
    (List.filter topicIsConvertibleToSchema (topics ?? []))
    (nodes topics config).
Proof.
  destruct (settingsNodes_loop config (topics ?? []) []) as (more & Heq & Hall).
  assert (E : nodes topics config = more) by exact Heq.
  rewrite E. exact Hall.
Qed.

End Invariants.

Section Tree.

Variable stringToRgba : string -> ColorRGBA.
Variable rgbaToCssString : ColorRGBA -> string.
Variable SRGBToLinear : Js.number -> Js.number.
Variable normalizeFrameId : string -> string.
Variable normalizeFloat32MultiArray : PartialFloat32MultiArray -> Float32MultiArray.
Variable Value : Type.
Variable saveSetting :
  list string -> Value -> gmap string PartialSettings -> gmap string PartialSettings.
Variable Topic : Type.
Variable topic_name : Topic -> string.
Variable topicIsConvertibleToSchema : Topic -> bool.
Variable toLocaleLowerCase : string -> string.

Local Abbreviation update := (_updateGridMapRenderable stringToRgba SRGBToLinear normalizeFrameId).
Local Abbreviation mergeSettings := (mergeSettings rgbaToCssString).
Local Abbreviation handle :=
  (handleOccupancyGrid stringToRgba rgbaToCssString SRGBToLinear normalizeFrameId
     normalizeFloat32MultiArray).
Local Abbreviation sendAll :=
  (deliverAll stringToRgba rgbaToCssString SRGBToLinear normalizeFrameId
     normalizeFloat32MultiArray Value saveSetting).
Local Abbreviation nodes :=
  (settingsNodes rgbaToCssString Topic topic_name topicIsConvertibleToSchema
     toLocaleLowerCase).

Lemma Forall2_In_right {A B : Type} (P : A -> B -> Prop) (l : list A) (k : list B) (b : B) :
  Forall2 P l k -> In b k -> exists a, In a l /\ P a b.
Proof.
  induction 1 as [|a b' l k Hab _ IH]; intros Hin; [destruct Hin|].
  destruct Hin as [<-|Hin].
  - exists a. split; [left; reflexivity | exact Hab].
  - destruct (IH Hin) as (a' & Ha' & Hp). exists a'. split; [right; exact Ha' | exact Hp].
Qed.

Lemma settingsNodes_entry (topics : option (list Topic))
  (config : gmap string PartialSettings) (entry : SettingsTreeEntry) :
  In entry (nodes topics config) ->
  exists topic,
    In topic (topics ?? [])
    /\ topicIsConvertibleToSchema topic = true
    /\ displays entry (topic_name topic) (mergeSettings (config !! topic_name topic)).
Proof.
  destruct (settingsNodes_loop rgbaToCssString Topic topic_name topicIsConvertibleToSchema
              toLocaleLowerCase config (topics ?? []) []) as (more & Heq & Hall).
  assert (E : nodes topics config = more) by exact Heq.
  rewrite E. intros Hin.
  destruct (Forall2_In_right _ _ _ _ Hall Hin) as (topic & Ht & Hd).
  apply filter_In in Ht. exists topic. destruct Ht. auto.
Qed.

(** X19: under the same proviso on [saveSetting], in every environment
    reached from a fresh extension the settings entry of a topic that has a
    renderable displays the settings that renderable is using. *)
Theorem settings_tree_shows_renderable_settings (config : gmap string PartialSettings)
  (events : list (Event Value)) (env : Env) (topics : option (list Topic))
  (entry : SettingsTreeEntry) (name : string) (renderable : Renderable) :
  (forall path value topics name,
     path !! 1%nat <> Some name -> saveSetting path value topics !! name = topics !! name) ->
  sendAll events (initialEnv config) = Js.ok env ->
  In entry (nodes topics (config_topics env)) ->
  entry_path entry = ["topics"; name] ->
  renderables env !! name = Some renderable ->
  displays entry name (settings renderable).
Proof.
  intros Hlocal Hrun Hin Hpath Hr.
  pose proof (deliverAll_consistent _ _ _ _ _ _ _ Hlocal _ _ _
                (initialEnv_consistent _ _ _ _) Hrun) as (_ & _ & Hinv).
  destruct (Hinv _ _ Hr) as (_ & _ & Hset).
  destruct (settingsNodes_entry _ _ _ Hin) as (topic & _ & _ & Hd).
  assert (Hname : topic_name topic = name).
  { destruct Hd as (Hp & _). rewrite Hp in Hpath. injection Hpath as ->. reflexivity. }
  rewrite Hname in Hd. rewrite Hset. exact Hd.
Qed.

(** X20: a first message that carries an empty list of layers and no [info]
    decodes to a grid whose width and height are 0 / 0.  It is accepted;
    two textures are allocated for it and the first is disposed at once,
    and the topic is left with an empty raster and no diagnostic. *)
Theorem handleOccupancyGrid_message_without_info (name : string) (message : PartialGridMap)
  (time : RosTime) (env : Env) :
  p_info message = None ->
  p_data message = Some [] ->
  renderables env !! name = None ->
  exists env' renderable,
    handle name message time env = Js.ok env'
    /\ renderables env' !! name = Some renderable
    /\ Js.exact (gridWidth (gridMap renderable)) = Js.RNaN
    /\ Js.exact (gridHeight (gridMap renderable)) = Js.RNaN
    /\ tex_id (texture renderable) = S (allocated env)
    /\ image_data (texture renderable) = []
    /\ allocated env' = S (S (allocated env))
    /\ disposed env' = allocated env :: disposed env
    /\ errors env' = errors env.
Proof.
  intros Hinfo Hdata Hnone.
  assert (Hgrid : normalizeGridMap normalizeFloat32MultiArray message
                  = Js.ok {| header := normalizeHeader (p_header message);
                             info := {| resolution := 0; length_x := 0; length_y := 0;
                                        pose := normalizePose None |};
                             data := [] |}).
  { unfold normalizeGridMap. rewrite Hinfo, Hdata. reflexivity. }
  rewrite (handle_new _ _ _ _ _ _ _ _ _ _ Hgrid Hnone).
  set (grid := {| header := normalizeHeader (p_header message);
                  info := {| resolution := 0; length_x := 0; length_y := 0;
                             pose := normalizePose None |};
                  data := [] |}).
  assert (Hw : Js.exact (gridWidth grid) = Js.RNaN) by reflexivity.
  assert (Hh : Js.exact (gridHeight grid) = Js.RNaN) by reflexivity.
  unfold createTexture, Js.bind.
  rewrite NanFacts.ToIndex_nan
    by (apply NanFacts.exact_nan_mul_l, NanFacts.exact_nan_mul_l, Hw).
  unfold Js.ok. cbv beta iota zeta.
  match goal with
  | |- context [update ?r0 grid ?t ?envA] =>
      destruct (update_nan stringToRgba SRGBToLinear normalizeFrameId r0 grid t envA
                  (or_introl Hw) eq_refl)
        as (r' & envU & Hup & Hid & Hdat & _ & Ha & Hd & He & _);
      rewrite Hup
  end.
  destruct (update_step _ _ _ _ _ _ _ _ _ Hup) as (_ & _ & (Hg & _) & _).
  exists (set_renderable name r' envU), r'. split; [reflexivity|].
  cbn [renderables set_renderable allocated disposed errors]. rewrite lookup_insert_eq.
  rewrite Hg, Hid, Hdat, Ha, Hd, He. cbn. auto 10.
Qed.

End Tree.

(** ** The scratch colours *)

Section ScratchColours.

Variable stringToRgba : string -> ColorRGBA.
Variable rgbaToCssString : ColorRGBA -> string.
Variable SRGBToLinear : Js.number -> Js.number.
Variable normalizeFrameId : string -> string.
Variable normalizeFloat32MultiArray : PartialFloat32MultiArray -> Float32MultiArray.
Variable Value : Type.
Variable saveSetting :
  list string -> Value -> gmap string PartialSettings -> gmap string PartialSettings.

Local Abbreviation update := (_updateGridMapRenderable stringToRgba SRGBToLinear normalizeFrameId).
Local Abbreviation handle :=
  (handleOccupancyGrid stringToRgba rgbaToCssString SRGBToLinear normalizeFrameId
     normalizeFloat32MultiArray).
Local Abbreviation handleSettings :=
  (handleSettingsAction stringToRgba rgbaToCssString SRGBToLinear normalizeFrameId
     Value saveSetting).
Local Abbreviation send :=
  (deliver stringToRgba rgbaToCssString SRGBToLinear normalizeFrameId
     normalizeFloat32MultiArray Value saveSetting).

Lemma update_scratch (r : Renderable) (grid : GridMap) (time : Z) (env : Env) (s : Scratch) :
  match update r grid time env with
  | inl (r', env') =>
      exists s', update r grid time (set_scratch s env) = Js.ok (r', set_scratch s' env')
  | inr e => update r grid time (set_scratch s env) = Js.throw e
  end.
Proof.
  unfold _updateGridMapRenderable.
  destruct (checkLayers _ _ (data grid)); [exists s; reflexivity|].
  cbn [texture settings material].
  destruct (negb _ || negb _).
  - unfold createTexture, dispose, updateTexture, Js.bind, Js.ok, Js.throw.
    destruct (Js.ToIndex _); [|reflexivity]. cbv beta iota zeta.
    destruct (Js.iterations _); [|reflexivity]. eexists. reflexivity.
  - unfold updateTexture, Js.bind, Js.ok, Js.throw. cbv beta iota zeta.
    destruct (Js.iterations _); [|reflexivity]. eexists. reflexivity.
Qed.

Lemma handle_scratch (name : string) (message : PartialGridMap) (time : RosTime)
  (env : Env) (s : Scratch) :
  match handle name message time env with
  | inl env' =>
      exists s', handle name message time (set_scratch s env) = Js.ok (set_scratch s' env')
  | inr e => handle name message time (set_scratch s env) = Js.throw e
  end.
Proof.
  destruct (normalizeGridMap normalizeFloat32MultiArray message) as [grid|e] eqn:Hgrid.
  2:{ unfold handleOccupancyGrid. rewrite Hgrid. reflexivity. }
  destruct (renderables env !! name) as [r|] eqn:Hr.
  - rewrite (handle_existing _ _ _ _ _ _ _ _ env _ _ Hgrid Hr).
    rewrite (handle_existing _ _ _ _ _ _ _ _ (set_scratch s env) _ _ Hgrid Hr).
    unfold Js.bind. pose proof (update_scratch r grid (toNanoSec time) env s) as Hu.
    destruct (update r grid (toNanoSec time) env) as [[r' env']|e].
    + destruct Hu as [s' ->]. exists s'. reflexivity.
    + rewrite Hu. reflexivity.
  - assert (E : handle name message time (set_scratch s env) = handle name message time env).
    { rewrite (handle_new _ _ _ _ _ _ _ _ env _ Hgrid Hr).
      rewrite (handle_new _ _ _ _ _ _ _ _ (set_scratch s env) _ Hgrid Hr).
      unfold createTexture, Js.bind, Js.ok.
      destruct (Js.ToIndex _); reflexivity. }
    rewrite E. destruct (handle name message time env) as [env'|e]; [|reflexivity].
    exists (scratch env'). destruct env'. reflexivity.
Qed.

Lemma handleSettings_scratch (action : SettingsTreeAction Value) (env : Env) (s : Scratch) :
  match handleSettings action env with
  | inl (env', flag) =>
      exists s', handleSettings action (set_scratch s env) = Js.ok (set_scratch s' env', flag)
  | inr e => handleSettings action (set_scratch s env) = Js.throw e
  end.
Proof.
  destruct action as [path value|path id]; [|exists s; reflexivity].
  destruct path as [|a [|name [|c [|x rest]]]]; try (exists s; reflexivity).
  destruct (renderables env !! name) as [r|] eqn:Hr.
  - assert (E : handleSettings (ActionUpdate [a; name; c] value) (set_scratch s env)
                 = handleSettings (ActionUpdate [a; name; c] value) env).
    { rewrite (handleSettings_renderable _ _ _ _ _ _ _ _ _ _ env _ Hr).
      rewrite (handleSettings_renderable _ _ _ _ _ _ _ _ _ _ (set_scratch s env) _ Hr).
      reflexivity. }
    rewrite E.
    destruct (handleSettings (ActionUpdate [a; name; c] value) env) as [[env' flag]|e];
      [|reflexivity].
    exists (scratch env'). destruct env'. reflexivity.
  - unfold handleSettingsAction. cbn [renderables set_config_topics set_scratch].
    rewrite Hr. exists s. reflexivity.
Qed.

Lemma agreeUpToScratch_set (env1 env2 : Env) :
  agreeUpToScratch env1 env2 -> env1 = set_scratch (scratch env1) env2.
Proof.
  destruct env1, env2. unfold agreeUpToScratch, set_scratch. cbn.
  intros (-> & -> & -> & -> & ->). reflexivity.
Qed.

(** X21: the module-level scratch colours carry nothing from one call to the
    next: from two environments that differ in the scratch colours only,
    a message or a settings action fails with the same exception or leaves
    environments that again differ in the scratch colours only. *)
Theorem handlers_do_not_read_scratch (event : Event Value) (env1 env2 : Env) :
  agreeUpToScratch env1 env2 ->
  match send event env1, send event env2 with
  | inl env1', inl env2' => agreeUpToScratch env1' env2'
  | inr e1, inr e2 => e1 = e2
  | _, _ => False
  end.
Proof.
  intros Hagree. rewrite (agreeUpToScratch_set _ _ Hagree).
  generalize (scratch env1). intros s. clear env1 Hagree.
  destruct event as [name message time|action]; unfold deliver.
  - pose proof (handle_scratch name message time env2 s) as H.
    destruct (handle name message time env2) as [env'|e].
    + destruct H as [s' ->]. unfold Js.ok. repeat split.
    + rewrite H. reflexivity.
  - pose proof (handleSettings_scratch action env2 s) as H. unfold Js.bind.
    destruct (handleSettings action env2) as [[env' flag]|e].
    + destruct H as [s' ->]. unfold Js.ok. repeat split.
    + rewrite H. reflexivity.
Qed.

End ScratchColours.

(** ** When the handlers return *)

Section Totality.

Variable stringToRgba : string -> ColorRGBA.
Variable rgbaToCssString : ColorRGBA -> string.
Variable SRGBToLinear : Js.number -> Js.number.
Variable normalizeFrameId : string -> string.
Variable normalizeFloat32MultiArray : PartialFloat32MultiArray -> Float32MultiArray.
Variable Value : Type.
Variable saveSetting :
  list string -> Value -> gmap string PartialSettings -> gmap string PartialSettings.

Local Abbreviation update := (_updateGridMapRenderable stringToRgba SRGBToLinear normalizeFrameId).
Local Abbreviation handle :=
  (handleOccupancyGrid stringToRgba rgbaToCssString SRGBToLinear normalizeFrameId
     normalizeFloat32MultiArray).
Local Abbreviation handleSettings :=
  (handleSettingsAction stringToRgba rgbaToCssString SRGBToLinear normalizeFrameId
     Value saveSetting).
Local Abbreviation send :=
  (deliver stringToRgba rgbaToCssString SRGBToLinear normalizeFrameId
     normalizeFloat32MultiArray Value saveSetting).
Local Abbreviation sendAll :=
  (deliverAll stringToRgba rgbaToCssString SRGBToLinear normalizeFrameId
     normalizeFloat32MultiArray Value saveSetting).

(** Every update leaves a texture of the grid's dimensions. *)
Lemma update_textureMatchesGrid (r : Renderable) (grid : GridMap) (time : Z) (env : Env)
  (r' : Renderable) (env' : Env) :
  update r grid time env = Js.ok (r', env') -> textureMatchesGrid r'.
Proof.
  intros Hup. unfold textureMatchesGrid.
  destruct (update_step _ _ _ _ _ _ _ _ _ Hup) as (_ & _ & (Hg & _) & _).
  rewrite Hg. cbv zeta. intros Hcheck.
  destruct (update_valid _ _ _ _ _ _ _ _ _ Hcheck Hup) as (n & Hn & _ & _ & Hcase).
  destruct (resized grid (texture r)) eqn:Hres.
  - destruct Hcase as (len & _ & -> & _). unfold resized. cbn [image_width image_height].
    destruct (Js.exact (gridWidth grid)) as [|s|a b] eqn:Hw; [auto| |];
      (destruct (Js.exact (gridHeight grid)) as [|s'|a' b'] eqn:Hh; [auto| |]);
      left; rewrite !NanFacts.eqb_refl by congruence; reflexivity.
  - destruct Hcase as (-> & _). left. exact Hres.
Qed.

Lemma handle_textureMatchesGrid (name : string) (message : PartialGridMap) (time : RosTime)
  (env env' : Env) :
  (forall k r, renderables env !! k = Some r -> textureMatchesGrid r) ->
  handle name message time env = Js.ok env' ->
  forall k r, renderables env' !! k = Some r -> textureMatchesGrid r.
Proof.
  intros Hinv H.
  destruct (handle_ok _ _ _ _ _ _ _ _ _ _ H)
    as (grid & r & envA & r' & envU & _ & Hr & Hup & -> & _ & _ & Hframe & _).
  destruct (update_step _ _ _ _ _ _ _ _ _ Hup) as ((Hmap & _) & _).
  intros k rk. cbn [renderables set_renderable].
  destruct (decide (name = k)) as [<-|Hne].
  - rewrite lookup_insert_eq. intros [= <-]. apply (update_textureMatchesGrid _ _ _ _ _ _ Hup).
  - rewrite lookup_insert_ne by exact Hne. rewrite Hmap, Hframe by auto. apply Hinv.
Qed.

Lemma handleSettings_textureMatchesGrid (action : SettingsTreeAction Value) (env env' : Env)
  (flag : bool) :
  (forall k r, renderables env !! k = Some r -> textureMatchesGrid r) ->
  handleSettings action env = Js.ok (env', flag) ->
  forall k r, renderables env' !! k = Some r -> textureMatchesGrid r.
Proof.
  intros Hinv H. apply handleSettings_ok in H.
  destruct action as [path value|path id]; [|destruct H as [-> _]; exact Hinv].
  destruct path as [|a [|name [|c [|x rest]]]]; try (destruct H as [-> _]; exact Hinv).
  destruct (renderables env !! name) as [r|] eqn:Hr; [|destruct H as [-> _]; exact Hinv].
  destruct H as (r1 & envA & r' & envU & Hup & -> & (HmapA & _) & _).
  destruct (update_step _ _ _ _ _ _ _ _ _ Hup) as ((Hmap & _) & _).
  intros k rk. cbn [renderables set_renderable].
  destruct (decide (name = k)) as [<-|Hne].
  - rewrite lookup_insert_eq. intros [= <-]. apply (update_textureMatchesGrid _ _ _ _ _ _ Hup).
  - rewrite lookup_insert_ne by exact Hne. rewrite Hmap, HmapA. apply Hinv.
Qed.

(** Where the textures fit and match the grids, a settings action
    returns. *)
Lemma handleSettings_returns (action : SettingsTreeAction Value) (env : Env) :
  wellFormed env ->
  (forall k r, renderables env !! k = Some r -> textureMatchesGrid r) ->
  exists env' flag, handleSettings action env = Js.ok (env', flag).
Proof.
  intros Hwf Hinv.
  destruct action as [path value|path id]; [|eexists _, _; reflexivity].
  destruct path as [|a [|name [|c [|x rest]]]]; try (eexists _, _; reflexivity).
  destruct (renderables env !! name) as [r|] eqn:Hr.
  2:{ unfold handleSettingsAction. cbn [renderables set_config_topics]. rewrite Hr.
      eexists _, _. reflexivity. }
  rewrite (handleSettings_renderable _ _ _ _ _ _ _ _ _ _ _ _ Hr). cbv zeta.
  destruct (Hwf _ _ Hr) as [Hfit _]. pose proof (Hinv _ _ Hr) as Hm.
  unfold textureMatchesGrid in Hm. cbv zeta in Hm.
  match goal with
  | |- context [update ?r1 ?g ?t ?envA] =>
      assert (Hret : exists r' envU, update r1 g t envA = Js.ok (r', envU))
  end.
  { destruct (checkLayers (gridWidth (gridMap r)) (gridHeight (gridMap r))
                (data (gridMap r))) as [d|] eqn:Hcheck.
    - rewrite (update_invalid _ _ _ _ _ _ _ _ Hcheck). eauto.
    - destruct (Hm eq_refl) as [Hres|Hnan].
      + apply (update_returns _ _ _ _ _ _ _ _ Hcheck (kept_texture_length _ _ Hfit Hres)).
      + match goal with
        | |- context [update ?r1 ?g ?t ?envA] =>
            destruct (update_nan stringToRgba SRGBToLinear normalizeFrameId r1 g t envA
                        Hnan Hcheck) as (r' & envU & Hup & _)
        end.
        eauto. }
  destruct Hret as (r' & envU & ->). unfold Js.bind. eexists _, _. reflexivity.
Qed.

(** X22: in every environment reached from a fresh extension by messages and
    settings actions, [handleSettingsAction] returns, whatever the action.
    The update it ends with finds a grid that fails the check, or a
    texture of the grid's dimensions, or dimensions that are not numbers
    and an empty raster to allocate. *)
Theorem settings_actions_never_throw (config : gmap string PartialSettings)
  (events : list (Event Value)) (env : Env) (action : SettingsTreeAction Value) :
  sendAll events (initialEnv config) = Js.ok env ->
  exists env' flag, handleSettings action env = Js.ok (env', flag).
Proof.
  intros Hrun.
  assert (Hinv : wellFormed env
                 /\ forall k r, renderables env !! k = Some r -> textureMatchesGrid r).
  { assert (H0 : wellFormed (initialEnv config)
                 /\ forall k r, renderables (initialEnv config) !! k = Some r ->
                      textureMatchesGrid r).
    { split; intros k r Hk; cbn in Hk; rewrite lookup_empty in Hk; discriminate Hk. }
    revert H0 Hrun. generalize (initialEnv config).
    induction events as [|event rest IH]; intros env0 [Hwf Hm] Hrun.
    - injection Hrun as <-. auto.
    - cbn [deliverAll] in Hrun. unfold Js.bind in Hrun.
      destruct (send event env0) as [env1|e] eqn:Hd; [|discriminate Hrun].
      apply (IH env1); [|exact Hrun].
      destruct event as [name message time|act].
      + split.
        * apply (handleOccupancyGrid_wellFormed _ _ _ _ _ _ _ _ _ _ Hwf Hd).
        * apply (handle_textureMatchesGrid _ _ _ _ _ Hm Hd).
      + destruct (deliver_settings _ _ _ _ _ _ _ _ _ _ Hd) as [flag Hs]. split.
        * apply (handleSettings_wellFormed _ _ _ _ _ _ _ _ _ _ Hwf Hs).
        * apply (handleSettings_textureMatchesGrid _ _ _ _ Hm Hs). }
  destruct Hinv as [Hwf Hm]. apply (handleSettings_returns _ _ Hwf Hm).
Qed.

End Totality.

(** ** The further properties on concrete inputs *)

(** The stand-in [saveSetting] writes under the topic its path names. *)
Lemma standin_saveSetting_local (path : list string) (value : Sample.SettingValue)
  (topics : gmap string PartialSettings) (name : string) :
  path !! 1%nat <> Some name -> Sample.saveSetting path value topics !! name = topics !! name.
Proof.
  intros Hne. unfold Sample.saveSetting.
  destruct path as [|root [|topic [|property [|x rest]]]]; try reflexivity.
  destruct (String.eqb root "topics"); [|reflexivity].
  apply lookup_insert_ne. intros ->. apply Hne. reflexivity.
Qed.

Lemma emptyEnv_consistent :
  consistent Sample.stringToRgba Sample.rgbaToCssString Sample.normalizeFrameId
    Sample.emptyEnv.
Proof.
  exact (initialEnv_consistent Sample.stringToRgba Sample.rgbaToCssString
           Sample.normalizeFrameId ∅).
Qed.

Lemma env1_consistent :
  consistent Sample.stringToRgba Sample.rgbaToCssString Sample.normalizeFrameId Sample.env1.
Proof.
  apply (handle_consistent Sample.stringToRgba Sample.rgbaToCssString Sample.SRGBToLinear
           Sample.normalizeFrameId Sample.normalizeFloat32MultiArray
           "grid" Sample.firstMessage {| sec := 3; nsec := 0 |} Sample.emptyEnv).
  - exact emptyEnv_consistent.
  - exact handle_first_message.
Qed.

Lemma handle_bad_message :
  Sample.handle "grid" Sample.badMessage {| sec := 4; nsec := 0 |} Sample.env1
  = Js.ok Sample.staleEnv.
Proof. vm_compute. reflexivity. Qed.

Lemma lookup_env1 : renderables Sample.env1 !! "grid" = Some Sample.renderable1.
Proof. reflexivity. Qed.

Lemma renderable1_fits : textureFits (texture Sample.renderable1).
Proof. vm_compute. reflexivity. Qed.

Lemma checkLayers_reads_layouts_only_witness :
  checkLayers 2 2 [Sample.layerOf [2%float; 2%float] [(-1)%float; 50%float]]
  = checkLayers 2 2 [Sample.layerOf [2%float; 2%float] []].
Proof. apply checkLayers_reads_layouts_only. reflexivity. Defined.

Lemma checkLayers_nan_size_witness :
  Js.exact (PrimFloat.nan * 2)%float = Js.RNaN
  /\ checkLayers PrimFloat.nan 2 [Sample.layerOf [2%float; 2%float] []]
     = Some (NotEqualToSize PrimFloat.nan 2).
Proof.
  split; [reflexivity|].
  apply (checkLayers_nan_size PrimFloat.nan 2 [Sample.layerOf [2%float; 2%float] []]).
  reflexivity.
Defined.

Lemma update_nan_dimensions_witness :
  Js.exact (gridWidth Sample.zeroGrid) = Js.RNaN
  /\ exists renderable' env',
       Sample.update Sample.renderable1 Sample.zeroGrid 5 Sample.env1
       = Js.ok (renderable', env')
       /\ tex_id (texture renderable') = 1%nat
       /\ image_data (texture renderable') = []
       /\ disposed env' = [0%nat].
Proof.
  assert (Hnan : Js.exact (gridWidth Sample.zeroGrid) = Js.RNaN) by reflexivity.
  split; [exact Hnan|].
  destruct (update_nan_dimensions Sample.stringToRgba Sample.SRGBToLinear
              Sample.normalizeFrameId Sample.renderable1 Sample.zeroGrid 5 Sample.env1
              (or_introl Hnan) eq_refl)
    as (_ & r' & env' & Hup & Hid & Hdata & _ & _ & Hdisp).
  exists r', env'. auto.
Defined.

Lemma update_throws_only_when_replacing_witness :
  textureFits (texture Sample.renderable1)
  /\ Sample.update Sample.renderable1 Sample.negativeGrid 5 Sample.env1
     = Js.throw Js.RangeError.
Proof.
  split; [exact renderable1_fits|].
  destruct (update_throws_only_when_replacing Sample.stringToRgba Sample.SRGBToLinear
              Sample.normalizeFrameId Sample.renderable1 Sample.negativeGrid 5 Sample.env1
              renderable1_fits) as (_ & _ & Hthrows).
  apply Hthrows; vm_compute; reflexivity.
Defined.

Lemma update_idempotent_witness :
  exists renderable' env',
    Sample.update Sample.renderable1 Sample.grid4x1 5 Sample.env1 = Js.ok (renderable', env')
    /\ Sample.update renderable' Sample.grid4x1 5 env' = Js.ok (renderable', env').
Proof.
  destruct (Sample.update Sample.renderable1 Sample.grid4x1 5 Sample.env1)
    as [[renderable' env']|e] eqn:Hup; [|vm_compute in Hup; discriminate Hup].
  exists renderable', env'. split; [reflexivity|].
  apply (update_idempotent Sample.stringToRgba Sample.SRGBToLinear Sample.normalizeFrameId
           Sample.renderable1 Sample.grid4x1 5 Sample.env1).
  - vm_compute. reflexivity.
  - vm_compute. discriminate.
  - vm_compute. discriminate.
  - exact Hup.
Defined.

Lemma handleOccupancyGrid_touches_one_topic_witness :
  (exists renderable,
     renderables Sample.env1 !! "grid" = Some renderable
     /\ receiveTime renderable = 3000000000)
  /\ (forall other, other <> "grid" ->
        renderables Sample.env1 !! other = renderables Sample.emptyEnv !! other)
  /\ config_topics Sample.env1 = config_topics Sample.emptyEnv.
Proof.
  apply (handleOccupancyGrid_touches_one_topic Sample.stringToRgba Sample.rgbaToCssString
           Sample.SRGBToLinear Sample.normalizeFrameId Sample.normalizeFloat32MultiArray
           "grid" Sample.firstMessage {| sec := 3; nsec := 0 |} Sample.emptyEnv Sample.env1).
  exact handle_first_message.
Defined.

Lemma handleOccupancyGrid_diagnostics_witness :
  exists grid,
    normalizeGridMap Sample.normalizeFloat32MultiArray Sample.badMessage = Js.ok grid
    /\ errors Sample.staleEnv
       = errors Sample.env1
         ++ match checkLayers (gridWidth grid) (gridHeight grid) (data grid) with
            | Some diagnostic => [("grid", INVALID_GRID_MAP, diagnostic)]
            | None => []
            end.
Proof.
  apply (handleOccupancyGrid_diagnostics Sample.stringToRgba Sample.rgbaToCssString
           Sample.SRGBToLinear Sample.normalizeFrameId Sample.normalizeFloat32MultiArray
           "grid" Sample.badMessage {| sec := 4; nsec := 0 |} Sample.env1 Sample.staleEnv).
  - intros renderable H. rewrite lookup_env1 in H. injection H as <-. reflexivity.
  - exact handle_bad_message.
Defined.

Lemma handleOccupancyGrid_first_message_invalid_witness :
  exists env' renderable,
    Sample.handle "grid" Sample.badMessage {| sec := 4; nsec := 0 |} Sample.emptyEnv
    = Js.ok env'
    /\ renderables env' !! "grid" = Some renderable
    /\ gridMap renderable = Sample.badGrid
    /\ texture renderable
       = {| tex_id := 0;
            image_data := repeat 0 36%nat;
            image_width := 3;
            image_height := 3;
            needsUpdate := false |}
    /\ scale renderable = (1%float, 1%float, 1%float)
    /\ errors env' = [("grid", INVALID_GRID_MAP, NotEqualToSize 3 3)]
    /\ allocated env' = 1%nat
    /\ disposed env' = [].
Proof.
  apply (handleOccupancyGrid_first_message_invalid Sample.stringToRgba
           Sample.rgbaToCssString Sample.SRGBToLinear Sample.normalizeFrameId
           Sample.normalizeFloat32MultiArray
           "grid" Sample.badMessage {| sec := 4; nsec := 0 |} Sample.emptyEnv
           Sample.badGrid (NotEqualToSize 3 3) 36); vm_compute; reflexivity.
Defined.

Lemma renderable1_materialMatches : materialMatches Sample.stringToRgba Sample.renderable1.
Proof. exact (proj1 (proj2 (proj2 env1_consistent) _ _ lookup_env1)). Qed.

Lemma handleSettingsAction_refreshes_renderable_witness :
  exists env' renderable',
    Sample.handleSettings Sample.smokeAction Sample.env1 = Js.ok (env', true)
    /\ renderables env' !! "grid" = Some renderable'
    /\ minColor (settings renderable') = "smoke"
    /\ materialMatches Sample.stringToRgba renderable'
    /\ transparent (material renderable') = true.
Proof.
  destruct (Sample.handleSettings Sample.smokeAction Sample.env1)
    as [[env' flag]|e] eqn:H; [|vm_compute in H; discriminate H].
  destruct (handleSettingsAction_refreshes_renderable Sample.stringToRgba
              Sample.rgbaToCssString Sample.SRGBToLinear Sample.normalizeFrameId
              Sample.SettingValue Sample.saveSetting
              "topics" "grid" "minColor" (Sample.ColorValue "smoke")
              Sample.env1 Sample.renderable1 env' flag
              lookup_env1 renderable1_materialMatches H)
    as (r' & Hr' & Hcfg & Hset & Hmat & Hflag & _).
  assert (Hmin : minColor (settings r') = "smoke")
    by (rewrite Hset, Hcfg; reflexivity).
  assert (Ht : transparent (material r') = true).
  { destruct Hmat as (Ht & _). rewrite (Ht Sample.emptyEnv), Hset, Hcfg. reflexivity. }
  assert (Hf : flag = true) by (rewrite Hflag, Ht; reflexivity).
  rewrite Hf. exists env', r'.
  split; [reflexivity|]. split; [exact Hr'|]. split; [exact Hmin|].
  split; [exact Hmat | exact Ht].
Defined.

Lemma handleSettingsAction_recolours_in_place_witness :
  exists env' flag renderable',
    Sample.handleSettings Sample.smokeAction Sample.env1 = Js.ok (env', flag)
    /\ renderables env' !! "grid" = Some renderable'
    /\ tex_id (texture renderable') = 0%nat
    /\ length (image_data (texture renderable')) = 16%nat
    /\ image_data (texture renderable') !! 3%nat = Some 127
    /\ allocated env' = 1%nat.
Proof.
  destruct (handleSettingsAction_recolours_in_place Sample.stringToRgba
              Sample.rgbaToCssString Sample.SRGBToLinear Sample.normalizeFrameId
              Sample.SettingValue Sample.saveSetting
              "topics" "grid" "minColor" (Sample.ColorValue "smoke")
              Sample.env1 Sample.renderable1 lookup_env1 renderable1_fits eq_refl eq_refl)
    as (env' & flag & r' & H & Hr' & Hset & Hid & Hlen & Hbytes & Ha & _).
  exists env', flag, r'. repeat apply conj; auto.
  destruct (image_data (texture r') !! 3%nat) as [byte|] eqn:Hb.
  - rewrite (Hbytes _ _ Hb), Hset. vm_compute. reflexivity.
  - apply lookup_ge_None in Hb. rewrite Hlen in Hb. cbn in Hb. lia.
Defined.

Lemma handleSettingsAction_after_invalid_message_witness :
  exists env' flag renderable',
    Sample.handleSettings Sample.smokeAction Sample.staleEnv = Js.ok (env', flag)
    /\ renderables env' !! "grid" = Some renderable'
    /\ minColor (settings renderable') = "smoke"
    /\ texture renderable' = texture Sample.renderable1
    /\ errors env'
       = [("grid", INVALID_GRID_MAP, NotEqualToSize 3 3);
          ("grid", INVALID_GRID_MAP, NotEqualToSize 3 3)].
Proof.
  destruct (handleSettingsAction_after_invalid_message Sample.stringToRgba
              Sample.rgbaToCssString Sample.SRGBToLinear Sample.normalizeFrameId
              Sample.SettingValue Sample.saveSetting
              "topics" "grid" "minColor" (Sample.ColorValue "smoke")
              Sample.staleEnv Sample.staleRenderable (NotEqualToSize 3 3) eq_refl eq_refl)
    as (env' & flag & r' & H & Hr' & Hset & Htex & _ & Herr).
  exists env', flag, r'. repeat apply conj; auto.
  rewrite Hset. reflexivity.
Defined.

Lemma deliver_keeps_textures_owned_witness : texturesOwned Sample.env1.
Proof.
  apply (deliver_keeps_textures_owned Sample.stringToRgba Sample.rgbaToCssString
           Sample.SRGBToLinear Sample.normalizeFrameId Sample.normalizeFloat32MultiArray
           Sample.SettingValue Sample.saveSetting
           (MessageEvent "grid" Sample.firstMessage {| sec := 3; nsec := 0 |})
           Sample.emptyEnv Sample.env1).
  - exact (proj1 (proj2 emptyEnv_consistent)).
  - exact handle_first_message.
Defined.

Lemma deliver_keeps_materials_and_records_witness :
  materialMatches Sample.stringToRgba Sample.renderable1
  /\ recordsMatch Sample.normalizeFrameId "grid" Sample.renderable1.
Proof.
  apply (deliver_keeps_materials_and_records Sample.stringToRgba Sample.rgbaToCssString
           Sample.SRGBToLinear Sample.normalizeFrameId Sample.normalizeFloat32MultiArray
           Sample.SettingValue Sample.saveSetting
           (MessageEvent "grid" Sample.firstMessage {| sec := 3; nsec := 0 |})
           Sample.emptyEnv Sample.env1).
  - intros name renderable H. discriminate H.
  - exact handle_first_message.
  - exact lookup_env1.
Defined.

Lemma reachable_states_are_consistent_witness :
  exists env,
    Sample.sendAll
      [MessageEvent "grid" Sample.firstMessage {| sec := 3; nsec := 0 |};
       SettingsEvent Sample.smokeAction;
       MessageEvent "grid" Sample.badMessage {| sec := 4; nsec := 0 |}]
      (initialEnv ∅)
    = Js.ok env
    /\ consistent Sample.stringToRgba Sample.rgbaToCssString Sample.normalizeFrameId env.
Proof.
  destruct (Sample.sendAll _ (initialEnv ∅)) as [env|e] eqn:H;
    [|vm_compute in H; discriminate H].
  exists env. split; [reflexivity|].
  apply (reachable_states_are_consistent Sample.stringToRgba Sample.rgbaToCssString
           Sample.SRGBToLinear Sample.normalizeFrameId Sample.normalizeFloat32MultiArray
           Sample.SettingValue Sample.saveSetting standin_saveSetting_local ∅ _ env H).
Defined.

Lemma settings_tree_shows_renderable_settings_witness :
  exists env entry renderable,
    Sample.sendAll
      [MessageEvent "grid" Sample.firstMessage {| sec := 3; nsec := 0 |};
       SettingsEvent Sample.smokeAction]
      (initialEnv ∅)
    = Js.ok env
    /\ Sample.nodes (Some Sample.topics) (config_topics env) = [entry]
    /\ renderables env !! "grid" = Some renderable
    /\ displays entry "grid" (settings renderable).
Proof.
  destruct (Sample.sendAll _ (initialEnv ∅)) as [env|e] eqn:H;
    [|vm_compute in H; discriminate H].
  assert (Hcfg : config_topics env
                 = Sample.saveSetting ["topics"; "grid"; "minColor"]
                     (Sample.ColorValue "smoke") ∅).
  { vm_compute in H. injection H as <-. reflexivity. }
  assert (Hr : exists renderable, renderables env !! "grid" = Some renderable).
  { vm_compute in H. injection H as <-. eexists. reflexivity. }
  destruct Hr as [renderable Hr].
  destruct (Sample.nodes (Some Sample.topics) (config_topics env)) as [|entry rest] eqn:Hn;
    [rewrite Hcfg in Hn; discriminate Hn|].
  assert (rest = []) by (rewrite Hcfg in Hn; injection Hn as _ <-; reflexivity). subst rest.
  exists env, entry, renderable.
  split; [reflexivity|]. split; [exact Hn|]. split; [exact Hr|].
  apply (settings_tree_shows_renderable_settings Sample.stringToRgba Sample.rgbaToCssString
           Sample.SRGBToLinear Sample.normalizeFrameId Sample.normalizeFloat32MultiArray
           Sample.SettingValue Sample.saveSetting Sample.Topic Sample.name
           Sample.topicIsConvertibleToSchema Sample.toLocaleLowerCase
           ∅ _ env (Some Sample.topics) entry "grid" renderable standin_saveSetting_local H).
  - unfold Sample.nodes in Hn. rewrite Hn. left. reflexivity.
  - rewrite Hcfg in Hn. injection Hn as <-. reflexivity.
  - exact Hr.
Defined.

Lemma handleOccupancyGrid_message_without_info_witness :
  exists env' renderable,
    Sample.handle "grid" Sample.emptyDataMessage {| sec := 3; nsec := 0 |} Sample.emptyEnv
    = Js.ok env'
    /\ renderables env' !! "grid" = Some renderable
    /\ tex_id (texture renderable) = 1%nat
    /\ image_data (texture renderable) = []
    /\ allocated env' = 2%nat
    /\ disposed env' = [0%nat].
Proof.
  destruct (handleOccupancyGrid_message_without_info Sample.stringToRgba
              Sample.rgbaToCssString Sample.SRGBToLinear Sample.normalizeFrameId
              Sample.normalizeFloat32MultiArray
              "grid" Sample.emptyDataMessage {| sec := 3; nsec := 0 |} Sample.emptyEnv
              eq_refl eq_refl eq_refl)
    as (env' & r & H & Hr & _ & _ & Hid & Hdata & Ha & Hd & _).
  exists env', r. auto 10.
Defined.

Lemma handlers_do_not_read_scratch_witness :
  agreeUpToScratch Sample.env1 (set_scratch (scratch Sample.emptyEnv) Sample.env1)
  /\ exists env',
       Sample.handle "grid" Sample.badMessage {| sec := 4; nsec := 0 |}
         (set_scratch (scratch Sample.emptyEnv) Sample.env1)
       = Js.ok env'
       /\ agreeUpToScratch Sample.staleEnv env'.
Proof.
  assert (Hagree : agreeUpToScratch Sample.env1
                     (set_scratch (scratch Sample.emptyEnv) Sample.env1))
    by (repeat split).
  split; [exact Hagree|].
  pose proof (handlers_do_not_read_scratch Sample.stringToRgba Sample.rgbaToCssString
                Sample.SRGBToLinear Sample.normalizeFrameId Sample.normalizeFloat32MultiArray
                Sample.SettingValue Sample.saveSetting
                (MessageEvent "grid" Sample.badMessage {| sec := 4; nsec := 0 |})
                _ _ Hagree) as H.
  unfold deliver in H. fold Sample.handle in H. rewrite handle_bad_message in H.
  destruct (Sample.handle "grid" Sample.badMessage {| sec := 4; nsec := 0 |}
              (set_scratch (scratch Sample.emptyEnv) Sample.env1)) as [env'|e];
    [|destruct H].
  exists env'. split; [reflexivity | exact H].
Defined.

Lemma settings_actions_never_throw_witness :
  exists env env' flag,
    Sample.sendAll
      [MessageEvent "grid" Sample.firstMessage {| sec := 3; nsec := 0 |};
       MessageEvent "grid" Sample.badMessage {| sec := 4; nsec := 0 |}]
      (initialEnv ∅)
    = Js.ok env
    /\ Sample.handleSettings Sample.smokeAction env = Js.ok (env', flag).
Proof.
  destruct (Sample.sendAll _ (initialEnv ∅)) as [env|e] eqn:H;
    [|vm_compute in H; discriminate H].
  destruct (settings_actions_never_throw Sample.stringToRgba Sample.rgbaToCssString
              Sample.SRGBToLinear Sample.normalizeFrameId Sample.normalizeFloat32MultiArray
              Sample.SettingValue Sample.saveSetting ∅ _ env Sample.smokeAction H)
    as (env' & flag & Hs).
  exists env, env', flag. split; [reflexivity | exact Hs].
Defined.
